(** * CPUID policy of libxc (tools/libxc/xc_cpuid_x86.c)

    A shallow embedding of the CPUID feature-levelling code of the Xen
    control library: the vendor and guest-type rule tables, the leaf
    traversal of [xc_cpuid_apply_policy], and the directive compiler of
    [xc_cpuid_check] and [xc_cpuid_set].

    Conventions.
    - [unsigned int] and [uint64_t] values are integers of [Z]; every
      operation that can leave the 32-bit range in C is wrapped explicitly.
    - A [char *] is [option (list ascii)]: [None] is the NULL pointer, the
      list holds the bytes the pointer designates, and a byte read past the
      end of the list reads as NUL (the terminator of a C string; what C
      leaves undefined beyond it is not modelled).
    - The calls into the hypervisor are the fields of [xc_interface]. *)

(** The file also embeds three blocks of the hypervisor's domain-0
    dispatcher (xen/common/dom0_ops.c): the identifier search of
    [DOM0_CREATEDOMAIN], the hyperthread count of [DOM0_PHYSINFO] and the
    page-type query of [DOM0_GETPAGEFRAMEINFO2].  Their definitions stand
    before the policy engine, their properties at the end of the file. *)

From Stdlib Require Import ZArith List Ascii String Bool Lia.
Import ListNotations.
Local Open Scope Z_scope.

(** ** 32-bit unsigned arithmetic *)

Module U32.

Definition modulus : Z := 2 ^ 32.
Definition max_unsigned : Z := 0xFFFFFFFF.

Definition wrap (x : Z) : Z := x mod modulus.

(** [x + y], [x << n] and [~x] on [unsigned int]. *)
Definition add (x y : Z) : Z := wrap (x + y).
Definition shl (x n : Z) : Z := wrap (Z.shiftl x n).
Definition not (x : Z) : Z := Z.lxor x max_unsigned.

(** [!!(x & m)] *)
Definition nonzero (x : Z) : bool := negb (x =? 0).

End U32.

(** [#define bitmaskof(idx) (1u << ((idx) & 31))] and friends. *)
Definition bitmaskof (idx : Z) : Z := U32.shl 1 (Z.land idx 31).
Definition clear_bit (idx dst : Z) : Z := Z.land dst (U32.not (bitmaskof idx)).
Definition set_bit (idx dst : Z) : Z := Z.lor dst (bitmaskof idx).

Definition DEF_MAX_BASE : Z := 0x0000000d.
Definition DEF_MAX_INTELEXT : Z := 0x80000008.
Definition DEF_MAX_AMDEXT : Z := 0x8000001c.

(** Modelled from the spec: the sub-leaf value "unused" of a CpuidLeaf.  The
    constant [XEN_CPUID_INPUT_UNUSED] is declared in the public domctl
    header, which is not among the sources; [get_cpuid_domain_info] spells
    the same value [~0U]. *)
Definition XEN_CPUID_INPUT_UNUSED : Z := 0xFFFFFFFF.

(** [errno] values of the C library the code is built against. *)
Definition EPERM : Z := 1.
Definition ESRCH : Z := 3.
Definition ENOMEM : Z := 12.
Definition EINVAL : Z := 22.
Definition EOPNOTSUPP : Z := 95.

(** ** Data model *)

(** [unsigned int regs[4]]: eax, ebx, ecx, edx. *)
Record regs : Type := mkRegs { eax : Z; ebx : Z; ecx : Z; edx : Z }.

Definition zero_regs : regs := mkRegs 0 0 0 0.

(** [regs[i]] as an rvalue and as an lvalue. *)
Definition reg_get (r : regs) (i : nat) : Z :=
  match i with
  | 0%nat => eax r
  | 1%nat => ebx r
  | 2%nat => ecx r
  | _ => edx r
  end.

Definition reg_set (r : regs) (i : nat) (v : Z) : regs :=
  match i with
  | 0%nat => mkRegs v (ebx r) (ecx r) (edx r)
  | 1%nat => mkRegs (eax r) v (ecx r) (edx r)
  | 2%nat => mkRegs (eax r) (ebx r) v (edx r)
  | _ => mkRegs (eax r) (ebx r) (ecx r) v
  end.

(** [regs[0] || regs[1] || regs[2] || regs[3]] *)
Definition regs_nonzero (r : regs) : bool :=
  U32.nonzero (eax r) || U32.nonzero (ebx r) ||
  U32.nonzero (ecx r) || U32.nonzero (edx r).

(** [unsigned int input[2]]: the leaf and the sub-leaf. *)
Record cpuid_input : Type := mkInput { input0 : Z; input1 : Z }.

Inductive cpu_vendor : Type := VENDOR_UNKNOWN | VENDOR_INTEL | VENDOR_AMD.

Definition vendor_eqb (a b : cpu_vendor) : bool :=
  match a, b with
  | VENDOR_UNKNOWN, VENDOR_UNKNOWN
  | VENDOR_INTEL, VENDOR_INTEL
  | VENDOR_AMD, VENDOR_AMD => true
  | _, _ => false
  end.

(** [struct cpuid_domain_info] *)
Record cpuid_domain_info : Type := mkInfo {
  vendor : cpu_vendor;
  hvm : bool;
  pvh : bool;
  xfeature_mask : Z;
  featureset : option (list Z);
  nr_features : Z;
  pv64 : bool;
  pae : bool;
  nestedhvm : bool
}.

(** [struct cpuid_domain_info info = {}] *)
Definition empty_info : cpuid_domain_info :=
  mkInfo VENDOR_UNKNOWN false false 0 None 0 false false false.

(** The names of the feature enumeration the policy tables mention. *)
Inductive cpufeature : Type :=
  (* 0x00000001.edx *)
  | FPU | VME | DE | PSE | TSC | MSR | PAE | MCE | CX8 | APIC | SEP | MTRR
  | PGE | MCA | CMOV | PAT | PSE36 | CLFLUSH | DS | MMX | FXSR | SSE | SSE2
  | HTT | TM1 | PBE
  (* 0x00000001.ecx *)
  | SSE3 | PCLMULQDQ | DTES64 | MONITOR | DSCPL | VMX | SMX | EIST | TM2
  | SSSE3 | FMA | CX16 | XTPR | PDCM | PCID | DCA | SSE4_1 | SSE4_2 | X2APIC
  | MOVBE | POPCNT | TSC_DEADLINE | AESNI | XSAVE | AVX | F16C | RDRAND
  | HYPERVISOR
  (* 0x80000001.edx *)
  | SYSCALL | NX | MMXEXT | FFXSR | PAGE1GB | RDTSCP | LM | F3DNOWEXT | F3DNOW
  (* 0x80000001.ecx *)
  | LAHF_LM | CMP_LEGACY | SVM | CR8_LEGACY | ABM | SSE4A | MISALIGNSSE
  | F3DNOWPREFETCH | OSVW | IBS | XOP | SKINIT | WDT | LWP | FMA4 | NODEID_MSR
  | TBM | TOPOEXT | DBEXT
  (* 0x00000007:0.ebx *)
  | FSGSBASE | TSC_ADJUST | BMI1 | HLE | AVX2 | SMEP | BMI2 | ERMS | INVPCID
  | RTM | MPX | RDSEED | ADX | SMAP | PCOMMIT | CLFLUSHOPT | CLWB
  (* 0x00000007:0.ecx *)
  | PKU.

(** The feature numbering of the public header cpufeatureset.h, which is
    not among the sources: feature = 32 * word + bit, with the words
    0x00000001.edx, 0x00000001.ecx, 0x80000001.edx, 0x80000001.ecx,
    0xd:1.eax, 0x7:0.ebx, 0x7:0.ecx.  The policy code is parametric in the
    numbering; this instance is the architectural one. *)
Definition xen_cpufeatureset (f : cpufeature) : Z :=
  match f with
  | FPU => 0*32+0 | VME => 0*32+1 | DE => 0*32+2 | PSE => 0*32+3
  | TSC => 0*32+4 | MSR => 0*32+5 | PAE => 0*32+6 | MCE => 0*32+7
  | CX8 => 0*32+8 | APIC => 0*32+9 | SEP => 0*32+11 | MTRR => 0*32+12
  | PGE => 0*32+13 | MCA => 0*32+14 | CMOV => 0*32+15 | PAT => 0*32+16
  | PSE36 => 0*32+17 | CLFLUSH => 0*32+19 | DS => 0*32+21 | MMX => 0*32+23
  | FXSR => 0*32+24 | SSE => 0*32+25 | SSE2 => 0*32+26 | HTT => 0*32+28
  | TM1 => 0*32+29 | PBE => 0*32+31
  | SSE3 => 1*32+0 | PCLMULQDQ => 1*32+1 | DTES64 => 1*32+2
  | MONITOR => 1*32+3 | DSCPL => 1*32+4 | VMX => 1*32+5 | SMX => 1*32+6
  | EIST => 1*32+7 | TM2 => 1*32+8 | SSSE3 => 1*32+9 | FMA => 1*32+12
  | CX16 => 1*32+13 | XTPR => 1*32+14 | PDCM => 1*32+15 | PCID => 1*32+17
  | DCA => 1*32+18 | SSE4_1 => 1*32+19 | SSE4_2 => 1*32+20
  | X2APIC => 1*32+21 | MOVBE => 1*32+22 | POPCNT => 1*32+23
  | TSC_DEADLINE => 1*32+24 | AESNI => 1*32+25 | XSAVE => 1*32+26
  | AVX => 1*32+28 | F16C => 1*32+29 | RDRAND => 1*32+30
  | HYPERVISOR => 1*32+31
  | SYSCALL => 2*32+11 | NX => 2*32+20 | MMXEXT => 2*32+22
  | FFXSR => 2*32+25 | PAGE1GB => 2*32+26 | RDTSCP => 2*32+27
  | LM => 2*32+29 | F3DNOWEXT => 2*32+30 | F3DNOW => 2*32+31
  | LAHF_LM => 3*32+0 | CMP_LEGACY => 3*32+1 | SVM => 3*32+2
  | CR8_LEGACY => 3*32+4 | ABM => 3*32+5 | SSE4A => 3*32+6
  | MISALIGNSSE => 3*32+7 | F3DNOWPREFETCH => 3*32+8 | OSVW => 3*32+9
  | IBS => 3*32+10 | XOP => 3*32+11 | SKINIT => 3*32+12 | WDT => 3*32+13
  | LWP => 3*32+15 | FMA4 => 3*32+16 | NODEID_MSR => 3*32+19
  | TBM => 3*32+21 | TOPOEXT => 3*32+22 | DBEXT => 3*32+26
  | FSGSBASE => 5*32+0 | TSC_ADJUST => 5*32+1 | BMI1 => 5*32+3
  | HLE => 5*32+4 | AVX2 => 5*32+5 | SMEP => 5*32+7 | BMI2 => 5*32+8
  | ERMS => 5*32+9 | INVPCID => 5*32+10 | RTM => 5*32+11 | MPX => 5*32+14
  | RDSEED => 5*32+18 | ADX => 5*32+19 | SMAP => 5*32+20
  | PCOMMIT => 5*32+22 | CLFLUSHOPT => 5*32+23 | CLWB => 5*32+24
  | PKU => 6*32+3
  end.

(** Bitwise or of a list of masks: [m1 | m2 | ... | mn]. *)
Definition lor_all (ms : list Z) : Z := fold_left Z.lor ms 0.

(** ** The world outside the library *)

(** [xc_dominfo_t], the fields the resolver reads. *)
Record xc_dominfo_t : Type := mkDominfo {
  di_domid : Z;
  di_hvm : bool;
  di_pvh : bool
}.

Inductive hvm_param : Type := HVM_PARAM_PAE_ENABLED | HVM_PARAM_NESTEDHVM.

Inductive featureset_index : Type :=
  | XEN_SYSCTL_cpu_featureset_pv
  | XEN_SYSCTL_cpu_featureset_hvm.

(** One [XEN_DOMCTL_set_cpuid] request. *)
Record cpuid_entry : Type := mkEntry {
  ce_domid : Z;
  ce_input : cpuid_input;
  ce_regs : regs
}.

(** The hypervisor behind an [xc_interface *]: what each call answers.
    - [xc_domain_getinfo d] is the return value of
      [xc_domain_getinfo(xch, d, 1, &di)] and the [di] it fills;
    - [getvcpuextstate d] is the return code of the
      [XEN_DOMCTL_getvcpuextstate] request and the mask it reports;
    - [xc_hvm_param_get d p] and [xc_domain_get_guest_width d] are a return
      code and the value stored through the out pointer;
    - [xc_get_cpu_featureset idx nr] is a return code and the words written
      to the buffer;
    - [set_cpuid done e] is the return code of the [XEN_DOMCTL_set_cpuid]
      request [e], which may depend on the requests [done] this call has
      made before. *)
Record xc_interface : Type := mkXch {
  xc_domain_getinfo : Z -> Z * xc_dominfo_t;
  getvcpuextstate : Z -> Z * Z;
  xc_hvm_param_get : Z -> hvm_param -> Z * Z;
  xc_domain_get_guest_width : Z -> Z * Z;
  xc_get_cpu_featureset : featureset_index -> Z -> Z * list Z;
  set_cpuid : list cpuid_entry -> cpuid_entry -> Z
}.

(** The allocator, as far as the code can observe it: how many requests
    were made and how many blocks are still held. *)
Record heap : Type := mkHeap { requests : nat; live : nat }.

Definition empty_heap : heap := mkHeap 0 0.

(** [free(p)]; [free(NULL)] does nothing. *)
Definition free {A : Type} (p : option A) (h : heap) : heap :=
  match p with
  | None => h
  | Some _ => mkHeap (requests h) (pred (live h))
  end.

(** How a call ends: it returns, it reads outside the array it was
    handed, or the loop of the model is still running when the fuel is
    spent. *)
Inductive outcome (A : Type) : Type :=
  | Returns (a : A)
  | OutOfBounds
  | OutOfFuel.
Arguments Returns {A} a.
Arguments OutOfBounds {A}.
Arguments OutOfFuel {A}.

(** [char *strs[4]] *)
Definition strs : Type := list (option (list ascii)).

Definition NUL : ascii := Ascii.zero.

(** [s[j]] for [const char *s]. *)
Definition char_at (s : list ascii) (j : nat) : ascii := nth j s NUL.

(** [s[j] = c] *)
Fixpoint store (s : list ascii) (j : nat) (c : ascii) : list ascii :=
  match s, j with
  | [], _ => []
  | _ :: t, O => c :: t
  | a :: t, S j' => a :: store t j' c
  end.

(** [strs[i]] and [strs[i] = p]. *)
Definition slot (ss : strs) (i : nat) : option (list ascii) := nth i ss None.

Fixpoint set_slot (ss : strs) (i : nat) (p : option (list ascii)) : strs :=
  match ss, i with
  | [], _ => []
  | _ :: t, O => p :: t
  | a :: t, S i' => a :: set_slot t i' p
  end.

(** [strchr(s, c) != NULL]: the terminating NUL of [s] counts as part of
    the string, so looking for NUL always succeeds. *)
Definition strchr (s : string) (c : ascii) : bool :=
  existsb (Ascii.eqb c) (list_ascii_of_string s ++ [NUL]).

(** ['0' + val] *)
Definition digit (val : bool) : ascii :=
  ascii_of_nat (nat_of_ascii "0" + (if val then 1 else 0)).

(** ** Sample hosts

    Concrete hardware and hypervisor answers on which the statements below
    are instantiated. *)

(** An AMD processor: vendor string AuthenticAMD, maximum leaves 0xd and
    0x8000001c, a leaf 4 that (unlike real AMD parts) reports one cache
    level, and one fixed quadruple for every other leaf. *)
Definition sample_amd_cpuid (leaf sub : Z) : regs :=
  if leaf =? 0x00000000 then mkRegs 0xd 0x68747541 0x444d4163 0x69746e65
  else if leaf =? 0x80000000 then mkRegs 0x8000001c 0 0 0
  else if leaf =? 0x00000004 then
    (if sub =? 0 then mkRegs 0x00000121 0x01c0003f 0x0000003f 0
     else zero_regs)
  else mkRegs 0xA5A5A5A5 0x0000FFFF 0xFFFF0000 0x12345678.

(** An Intel processor: vendor string GenuineIntel, maximum leaves 0xd and
    0x80000008, three cache levels in leaf 4. *)
Definition sample_intel_cpuid (leaf sub : Z) : regs :=
  if leaf =? 0x00000000 then mkRegs 0xd 0x756e6547 0x6c65746e 0x49656e69
  else if leaf =? 0x80000000 then mkRegs 0x80000008 0 0 0
  else if leaf =? 0x00000004 then
    (if sub <? 3 then mkRegs (0x1c004121 + sub) 0x01c0003f 0x0000003f 0
     else zero_regs)
  else mkRegs 0xA5A5A5A5 0x0000FFFF 0xFFFF0000 0x12345678.

(** A hypervisor with an HVM domain 1 and a 64-bit PV domain 2, extended
    state configured, PAE on, nested virtualisation off; [program] is the
    answer to every programming request. *)
Definition sample_xch_with (program : Z) : xc_interface :=
  mkXch
    (fun d => if d =? 1 then (1, mkDominfo 1 true false)
              else if d =? 2 then (1, mkDominfo 2 false false)
              else (0, mkDominfo 0 false false))
    (fun _ => (0, 7))
    (fun _ p => (0, match p with
                    | HVM_PARAM_PAE_ENABLED => 1
                    | HVM_PARAM_NESTEDHVM => 0
                    end))
    (fun _ => (0, 8))
    (fun _ _ => (0, repeat 0 9))
    (fun _ _ => program).

Definition sample_xch : xc_interface := sample_xch_with 0.

(** The allocator that serves every request, and the one that serves
    none. *)
Definition malloc_always (n : nat) : bool := true.
Definition malloc_never (n : nat) : bool := false.

(** Directives. *)
Definition dir (s : string) : option (list ascii) :=
  Some (list_ascii_of_string s).

Definition all_x : string := "xxxxxxxxxxxxxxxxxxxxxxxxxxxxxxxx".
Definition all_s : string := "ssssssssssssssssssssssssssssssss".
Definition one_then_x : string := "1xxxxxxxxxxxxxxxxxxxxxxxxxxxxxxx".
Definition mixed : string := "10xkssssxxxxkkkk1111000010xks0x1".

(** Domain contexts: the one the resolver builds for domain 1 of the
    sample hypervisor on an AMD host, the same with PAE off and nested
    virtualisation on, and a PV context without extended state. *)
Definition sample_hvm_info : cpuid_domain_info :=
  mkInfo VENDOR_AMD true false 7 (Some (repeat 0 9)) 9 false true false.

Definition sample_nested_info : cpuid_domain_info :=
  mkInfo VENDOR_AMD true false 7 (Some (repeat 0 9)) 9 false false true.

Definition sample_pv_info : cpuid_domain_info :=
  mkInfo VENDOR_AMD false false 0 (Some (repeat 0 9)) 9 true false false.

(** A PV context with the extended state of x87 and SSE configured. *)
Definition sample_pv_xsave_info : cpuid_domain_info :=
  mkInfo VENDOR_AMD false false 3 (Some (repeat 0 9)) 9 true false false.

(** An Intel processor whose leaf 4 reports a cache at every sub-leaf. *)
Definition endless_leaf4_cpuid (leaf sub : Z) : regs :=
  if leaf =? 0x00000000 then mkRegs 0x4 0x756e6547 0x6c65746e 0x49656e69
  else if leaf =? 0x00000004 then mkRegs 0x00000121 0x01c0003f 0x0000003f 0
  else zero_regs.

(** A dependency table of three rows. *)
Definition sample_deep_deps : list (Z * list Z) :=
  [(3, [0x10; 0]); (7, [0; 0x20]); (12, [0x40; 0x80])].

(** A directive with a character outside the alphabet at its second
    position. *)
Definition with_digit_two : string := "12xxxxxxxxxxxxxxxxxxxxxxxxxxxxxx".

(** * Domain-0 operations of the hypervisor (xen/common/dom0_ops.c)

    Three [case] blocks of [do_dom0_op] that compute on their own: the
    search for an unused domain identifier of [DOM0_CREATEDOMAIN], the
    hyperthread count of [DOM0_PHYSINFO], and the page-type query of
    [DOM0_GETPAGEFRAMEINFO2].  What they call elsewhere in the hypervisor
    is a field of [machine]; the references they take and give back are
    recorded, in order, as a list of [dom0_event]. *)

Definition E2BIG : Z := 7.

(** [#define GPF2_BATCH 128] *)
Definition GPF2_BATCH : Z := 128.

Inductive dom0_event : Type :=
  | Get_domain (d : Z)   (* [find_domain_by_id] returned [d], not NULL *)
  | Put_domain (d : Z)   (* [put_domain(d)] *)
  | Get_page (mfn : Z)   (* [get_page(&frame_table[mfn], d)] succeeded *)
  | Put_page (mfn : Z).  (* [put_page(&frame_table[mfn])] *)

(** The rest of the hypervisor, as these blocks see it.
    - [smp_num_cpus], [phys_proc_id] and [max_page] are the globals of
      these names; [phys_proc_id] has the extent of its list;
    - [find_domain_by_id dom] is the domain found ([None] is NULL);
    - [get_page mfn d] is whether [get_page(&frame_table[mfn], d)]
      succeeds, and [type_and_flags mfn] the field of that name of
      [frame_table[mfn]];
    - [copy_from_user n k] and [copy_to_user n k] are [true] when the copy
      of [k] words at index [n] of the caller's array returns non-zero;
      such a copy is taken to transfer nothing. *)
Record machine : Type := mkMachine {
  smp_num_cpus : Z;
  phys_proc_id : list Z;
  max_page : Z;
  find_domain_by_id : Z -> option Z;
  get_page : Z -> Z -> bool;
  type_and_flags : Z -> Z;
  copy_from_user : Z -> Z -> bool;
  copy_to_user : Z -> Z -> bool
}.

(** [l_arr[j] = v] *)
Fixpoint store_word (l : list Z) (j : nat) (v : Z) : list Z :=
  match l, j with
  | [], _ => []
  | _ :: t, O => v :: t
  | a :: t, S j' => a :: store_word t j' v
  end.

(** Pairs of a reference taken and given back, one per domain. *)
Definition taken_and_put (ds : list Z) : list dom0_event :=
  flat_map (fun d => [Get_domain d; Put_domain d]) ds.

Section Dom0Ops.

(** Constants of the public and memory-management headers, which are not
    among the sources; [domid_t_modulus] is the number of values of the
    unsigned type [domid_t]. *)
Variables (DOMID_SELF domid_t_modulus : Z).
Variables (PGT_type_mask PGT_l1_page_table PGT_l2_page_table
           PGT_l3_page_table PGT_l4_page_table : Z).
Variables (L1TAB L2TAB L3TAB L4TAB XTAB : Z).

(** ** [case DOM0_CREATEDOMAIN]: the search for an unused identifier

    [for ( ; ; ) { if ( (dom = ++domnr) == DOMID_SELF ) dom = domnr = 1;
                   if ( (d = find_domain_by_id(dom)) == NULL ) break;
                   put_domain(d); }]
    from the value [domnr] of the static counter: the identifier found,
    the counter afterwards, and the references taken on the way. *)
Fixpoint createdomain_search (fuel : nat) (m : machine) (domnr : Z)
    (tr : list dom0_event) : outcome (Z * Z * list dom0_event) :=
  match fuel with
  | O => OutOfFuel
  | S fuel' =>
      let domnr := (domnr + 1) mod domid_t_modulus in
      let dom := domnr in
      let '(dom, domnr) :=
        if dom =? DOMID_SELF then (1, 1) else (dom, domnr) in
      match find_domain_by_id m dom with
      | None => Returns (dom, domnr, tr)
      | Some d =>
          createdomain_search fuel' m domnr
            (tr ++ [Get_domain d; Put_domain d])
      end
  end.

(** ** [case DOM0_PHYSINFO]: hyperthreads per core

    [while ( ( ht < smp_num_cpus ) && ( phys_proc_id[ht] == old_id ) ) ht++;] *)
Fixpoint physinfo_ht (fuel : nat) (m : machine) (old_id ht : Z)
    : outcome Z :=
  match fuel with
  | O => OutOfFuel
  | S fuel' =>
      if ht <? smp_num_cpus m then
        match nth_error (phys_proc_id m) (Z.to_nat ht) with
        | None => OutOfBounds
        | Some id =>
            if id =? old_id then physinfo_ht fuel' m old_id (ht + 1)
            else Returns ht
        end
      else Returns ht
  end.

(** [pi->ht_per_core] and [pi->cores]; the second is [None] when the
    division is by zero. *)
Definition physinfo (fuel : nat) (m : machine) : outcome (Z * option Z) :=
  match nth_error (phys_proc_id m) 0 with
  | None => OutOfBounds
  | Some old_id =>
      match physinfo_ht fuel m old_id 0 with
      | Returns ht =>
          Returns (ht, if ht =? 0 then None
                       else Some (Z.quot (smp_num_cpus m) ht))
      | OutOfBounds => OutOfBounds
      | OutOfFuel => OutOfFuel
      end
  end.

(** ** [case DOM0_GETPAGEFRAMEINFO2]: the types of a list of frames *)

(** The [switch] on [page->type_and_flags & PGT_type_mask]. *)
Definition frame_type (m : machine) (mfn : Z) : Z :=
  let t := Z.land (type_and_flags m mfn) PGT_type_mask in
  if t =? PGT_l1_page_table then L1TAB
  else if t =? PGT_l2_page_table then L2TAB
  else if t =? PGT_l3_page_table then L3TAB
  else if t =? PGT_l4_page_table then L4TAB
  else 0.

(** The body of the inner loop for the word [mfn]: what is or-ed into it,
    and the page references taken and given back. *)
Definition frame_tag (m : machine) (d mfn : Z) : Z * list dom0_event :=
  if mfn >=? max_page m then (XTAB, [])
  else if get_page m mfn d
       then (frame_type m mfn, [Get_page mfn; Put_page mfn])
       else (XTAB, []).

(** [for ( j = 0; j < k; j++ ) ...] from [j] on, [n] iterations left. *)
Fixpoint getpageframeinfo2_batch (m : machine) (d : Z) (n j : nat)
    (l_arr : list Z) (tr : list dom0_event) : list Z * list dom0_event :=
  match n with
  | O => (l_arr, tr)
  | S n' =>
      let mfn := nth j l_arr 0 in
      let '(tag, evs) := frame_tag m d mfn in
      getpageframeinfo2_batch m d n' (S j)
        (store_word l_arr j (Z.lor mfn tag)) (tr ++ evs)
  end.

(** [for ( n = 0; n < num; ) ...] from [n] on; [s_ptr] is the caller's
    array.  The result is [ret], the array and the references. *)
Fixpoint getpageframeinfo2_loop (fuel : nat) (m : machine) (d num n : Z)
    (s_ptr : Z -> Z) (tr : list dom0_event)
    : outcome (Z * (Z -> Z) * list dom0_event) :=
  match fuel with
  | O => OutOfFuel
  | S fuel' =>
      if n <? num then
        let k := if num - n >? GPF2_BATCH then GPF2_BATCH else num - n in
        if copy_from_user m n k then Returns (- EINVAL, s_ptr, tr)
        else
          let l_arr :=
            map (fun i => s_ptr (n + Z.of_nat i)) (seq 0 (Z.to_nat k)) in
          let '(l_arr, tr) :=
            getpageframeinfo2_batch m d (Z.to_nat k) 0 l_arr tr in
          if copy_to_user m n k then Returns (- EINVAL, s_ptr, tr)
          else
            let s_ptr := fun idx =>
              if (n <=? idx) && (idx <? n + k)
              then nth (Z.to_nat (idx - n)) l_arr 0
              else s_ptr idx in
            getpageframeinfo2_loop fuel' m d num (n + k) s_ptr tr
      else Returns (0, s_ptr, tr)
  end.

Definition getpageframeinfo2 (fuel : nat) (m : machine) (dom num : Z)
    (s_ptr : Z -> Z) : outcome (Z * (Z -> Z) * list dom0_event) :=
  match find_domain_by_id m dom with
  | None => Returns (- ESRCH, s_ptr, [])
  | Some d =>
      let tr := [Get_domain d] in
      if num >? 1024 then Returns (- E2BIG, s_ptr, tr)
      else
        match getpageframeinfo2_loop fuel m d num 0 s_ptr tr with
        | Returns (ret, s_ptr, tr) =>
            Returns (ret, s_ptr, tr ++ [Put_domain d])
        | OutOfBounds => OutOfBounds
        | OutOfFuel => OutOfFuel
        end
  end.

End Dom0Ops.

(** A machine with four logical processors, two per core, 16 frames, the
    domains 1, 2 and 3, and copies that never fail; frame 5 is an L2 page
    table of domain 1 (with type mask 0xe0000000 and L2 type 0x40000000). *)
Definition sample_machine : machine :=
  mkMachine 4 [0; 0; 1; 1] 16
    (fun dom => if (1 <=? dom) && (dom <=? 3) then Some dom else None)
    (fun mfn d => d =? 1)
    (fun mfn => if mfn =? 5 then 0x40000001 else 0)
    (fun _ _ => false)
    (fun _ _ => false).

(** * The CPUID policy, continued *)

(** ** The Policy Engine *)

Section Cpuid.

(** [enum { X86_FEATURE_##name = value }], generated from the header. *)
Variable X86_FEATURE : cpufeature -> Z.

(** The CPUID instruction of the host processor: leaf and sub-leaf in,
    register quadruple out. *)
Variable cpuid_insn : Z -> Z -> regs.

Definition feat (f : cpufeature) : Z := bitmaskof (X86_FEATURE f).
Definition clear_feat (f : cpufeature) (dst : Z) : Z :=
  clear_bit (X86_FEATURE f) dst.
Definition set_feat (f : cpufeature) (dst : Z) : Z :=
  set_bit (X86_FEATURE f) dst.

(** [static void cpuid(const unsigned int *input, unsigned int *regs)] *)
Definition cpuid (input : cpuid_input) : regs :=
  let count :=
    if input1 input =? XEN_CPUID_INPUT_UNUSED then 0 else input1 input in
  cpuid_insn (input0 input) count.

Definition SVM_FEATURE_NPT : Z := 0x00000001.
Definition SVM_FEATURE_LBRV : Z := 0x00000002.
Definition SVM_FEATURE_SVML : Z := 0x00000004.
Definition SVM_FEATURE_NRIPS : Z := 0x00000008.
Definition SVM_FEATURE_TSCRATEMSR : Z := 0x00000010.
Definition SVM_FEATURE_VMCBCLEAN : Z := 0x00000020.
Definition SVM_FEATURE_FLUSHBYASID : Z := 0x00000040.
Definition SVM_FEATURE_DECODEASSISTS : Z := 0x00000080.
Definition SVM_FEATURE_PAUSEFILTER : Z := 0x00000400.

Definition amd_xc_cpuid_policy (info : cpuid_domain_info)
    (input : cpuid_input) (r : regs) : regs :=
  let leaf := input0 input in
  if (leaf =? 0x00000002) || (leaf =? 0x00000004) then
    mkRegs 0 0 0 (edx r)
  else if leaf =? 0x80000000 then
    if eax r >? DEF_MAX_AMDEXT
    then mkRegs DEF_MAX_AMDEXT (ebx r) (ecx r) (edx r) else r
  else if leaf =? 0x80000001 then
    let d := if negb (pae info) then clear_feat PAE (edx r) else edx r in
    let c := Z.land (ecx r)
               (lor_all [ feat LAHF_LM; feat CMP_LEGACY;
                          (if nestedhvm info then feat SVM else 0);
                          feat CR8_LEGACY; feat ABM; feat SSE4A;
                          feat MISALIGNSSE; feat F3DNOWPREFETCH; feat OSVW;
                          feat XOP; feat LWP; feat FMA4; feat TBM;
                          feat DBEXT ]) in
    let d := Z.land d
               (lor_all [ 0x0183f3ff; feat NX; feat LM; feat PAGE1GB;
                          feat SYSCALL; feat MMXEXT; feat FFXSR;
                          feat F3DNOW; feat F3DNOWEXT ]) in
    mkRegs (eax r) (ebx r) c d
  else if leaf =? 0x80000008 then
    mkRegs (eax r) (ebx r)
      (Z.lor (Z.lor (U32.add (Z.land (ecx r) 0xf000) 1)
                    (U32.shl (Z.land (ecx r) 0xff) 1)) 1)
      (edx r)
  else if leaf =? 0x8000000a then
    if negb (nestedhvm info) then zero_regs
    else
      let d := Z.land (edx r)
                 (lor_all [ SVM_FEATURE_NPT; SVM_FEATURE_LBRV;
                            SVM_FEATURE_NRIPS; SVM_FEATURE_PAUSEFILTER;
                            SVM_FEATURE_DECODEASSISTS ]) in
      let d := Z.lor d (Z.lor SVM_FEATURE_VMCBCLEAN SVM_FEATURE_TSCRATEMSR) in
      mkRegs (eax r) (ebx r) (ecx r) d
  else r.

Definition intel_xc_cpuid_policy (info : cpuid_domain_info)
    (input : cpuid_input) (r : regs) : regs :=
  let leaf := input0 input in
  if leaf =? 0x00000001 then
    if nestedhvm info
    then mkRegs (eax r) (ebx r) (set_feat VMX (ecx r)) (edx r) else r
  else if leaf =? 0x00000004 then
    mkRegs (Z.lor (Z.lor (U32.shl (Z.land (eax r) 0x7c000000) 1) 0x04000000)
                  (Z.land (eax r) 0x3ff))
           (ebx r) (ecx r) (Z.land (edx r) 0x3ff)
  else if leaf =? 0x80000000 then
    if eax r >? DEF_MAX_INTELEXT
    then mkRegs DEF_MAX_INTELEXT (ebx r) (ecx r) (edx r) else r
  else if leaf =? 0x80000001 then
    mkRegs (eax r) (ebx r)
      (Z.land (ecx r) (lor_all [ feat LAHF_LM; feat F3DNOWPREFETCH; feat ABM ]))
      (Z.land (edx r) (lor_all [ feat NX; feat LM; feat PAGE1GB;
                                 feat SYSCALL; feat RDTSCP ]))
  else if leaf =? 0x80000005 then
    mkRegs 0 0 0 (edx r)
  else if leaf =? 0x80000008 then
    mkRegs (eax r) (ebx r) 0 (edx r)
  else r.

Definition XSAVEOPT : Z := Z.shiftl 1 0.
Definition XSAVEC : Z := Z.shiftl 1 1.
Definition XGETBV1 : Z := Z.shiftl 1 2.
Definition XSAVES : Z := Z.shiftl 1 3.

(** The loop of sub-leaf 0: the largest [eax + ebx] the hardware reports
    over the sub-leaves [from], [from+1], ... ([n] of them). *)
Fixpoint xsave_max_size (n : nat) (from : Z) (acc : Z) : Z :=
  match n with
  | O => acc
  | S n' =>
      let _regs := cpuid (mkInput 0xd from) in
      let sz := U32.add (eax _regs) (ebx _regs) in
      xsave_max_size n' (from + 1) (if sz >? acc then sz else acc)
  end.

Definition xc_cpuid_config_xsave (info : cpuid_domain_info)
    (input : cpuid_input) (r : regs) : regs :=
  if xfeature_mask info =? 0 then zero_regs
  else
    let sub := input1 input in
    if sub =? 0 then
      mkRegs (Z.land (xfeature_mask info) 0xFFFFFFFF)
             (512 + 64)
             (xsave_max_size 62 2 0)
             (Z.land (Z.shiftr (xfeature_mask info) 32) 0xFFFFFFFF)
    else if sub =? 1 then
      let a := Z.land (eax r)
                 (lor_all [ XSAVEOPT; XSAVEC; XGETBV1; XSAVES ]) in
      let a := if negb (hvm info) then Z.land a (U32.not XSAVES) else a in
      mkRegs a (ebx r) (Z.land (ecx r) (xfeature_mask info)) 0
    else if (2 <=? sub) && (sub <=? 63) then
      if Z.land (xfeature_mask info) (Z.shiftl 1 sub) =? 0
      then zero_regs
      else mkRegs (eax r) (ebx r) 0 0
    else r.

(** A run of [clear_bit(X86_FEATURE_f, dst)] statements, in order. *)
Definition clear_feats (fs : list cpufeature) (dst : Z) : Z :=
  fold_left (fun d f => clear_feat f d) fs dst.

Definition xc_cpuid_hvm_policy (info : cpuid_domain_info)
    (input : cpuid_input) (r : regs) : regs :=
  let leaf := input0 input in
  let r :=
    if leaf =? 0x00000000 then
      if eax r >? DEF_MAX_BASE
      then mkRegs DEF_MAX_BASE (ebx r) (ecx r) (edx r) else r
    else if leaf =? 0x00000001 then
      let b := Z.lor (Z.land (ebx r) 0x0000ffff)
                     (U32.shl (Z.land (ebx r) 0x007f0000) 1) in
      let c := Z.land (ecx r)
                 (lor_all [ feat SSE3; feat PCLMULQDQ; feat SSSE3; feat FMA;
                            feat CX16; feat PCID; feat SSE4_1; feat SSE4_2;
                            feat MOVBE; feat POPCNT; feat AESNI; feat F16C;
                            feat RDRAND;
                            (if negb (xfeature_mask info =? 0)
                             then Z.lor (feat AVX) (feat XSAVE) else 0) ]) in
      let c := Z.lor c (lor_all [ feat HYPERVISOR; feat TSC_DEADLINE;
                                  feat X2APIC ]) in
      let d := Z.land (edx r)
                 (lor_all [ feat FPU; feat VME; feat DE; feat PSE; feat TSC;
                            feat MSR; feat PAE; feat MCE; feat CX8; feat APIC;
                            feat SEP; feat MTRR; feat PGE; feat MCA;
                            feat CMOV; feat PAT; feat CLFLUSH; feat PSE36;
                            feat MMX; feat FXSR; feat SSE; feat SSE2;
                            feat HTT ]) in
      let d := Z.lor d (feat MTRR) in
      let d := if negb (pae info) then clear_feats [PAE; PSE36] d else d in
      mkRegs (eax r) b c d
    else if leaf =? 0x00000007 then
      if input1 input =? 0 then
        mkRegs 0
          (Z.land (ebx r)
             (lor_all [ feat TSC_ADJUST; feat BMI1; feat HLE; feat AVX2;
                        feat SMEP; feat BMI2; feat ERMS; feat INVPCID;
                        feat RTM;
                        (if negb (xfeature_mask info =? 0)
                         then feat MPX else 0);
                        feat RDSEED; feat ADX; feat SMAP; feat FSGSBASE;
                        feat PCOMMIT; feat CLWB; feat CLFLUSHOPT ]))
          (Z.land (ecx r) (feat PKU))
          0
      else zero_regs
    else if leaf =? 0x0000000d then
      xc_cpuid_config_xsave info input r
    else if leaf =? 0x80000000 then
      r
    else if leaf =? 0x80000001 then
      if negb (pae info) then
        mkRegs (eax r) (ebx r)
               (clear_feat LAHF_LM (ecx r))
               (clear_feats [LM; NX; PSE36; PAGE1GB] (edx r))
      else r
    else if leaf =? 0x80000007 then
      mkRegs 0 0 0 (Z.land (edx r) (U32.shl 1 8))
    else if leaf =? 0x80000008 then
      mkRegs (Z.land (eax r) 0x0000ffff) 0 (ecx r) 0
    else if (leaf =? 0x00000002) || (leaf =? 0x00000004) ||
            (leaf =? 0x0000000a) || (leaf =? 0x80000002) ||
            (leaf =? 0x80000003) || (leaf =? 0x80000004) ||
            (leaf =? 0x80000005) || (leaf =? 0x80000006) ||
            (leaf =? 0x8000000a) || (leaf =? 0x8000001c) then
      r
    else zero_regs in
  if vendor_eqb (vendor info) VENDOR_AMD
  then amd_xc_cpuid_policy info input r
  else intel_xc_cpuid_policy info input r.

Definition xc_cpuid_pv_policy (info : cpuid_domain_info)
    (input : cpuid_input) (r : regs) : regs :=
  let leaf := input0 input in
  let r :=
    if Z.land leaf 0x7fffffff =? 0x00000001 then
      let d := clear_feat VME (edx r) in
      let d := if negb (pvh info) then clear_feats [PSE; PGE] d else d in
      let d := clear_feats [MCE; MCA; MTRR; PSE36] d in
      mkRegs (eax r) (ebx r) (ecx r) d
    else r in
  if leaf =? 0x00000001 then
    let d := if vendor_eqb (vendor info) VENDOR_AMD
             then clear_feat SEP (edx r) else edx r in
    let d := clear_feats [DS; TM1; PBE] d in
    let c := clear_feats [DTES64; MONITOR; DSCPL; VMX; SMX; EIST; TM2]
               (ecx r) in
    let c := if negb (pv64 info) then clear_feat CX16 c else c in
    let c := if xfeature_mask info =? 0
             then clear_feats [XSAVE; AVX] c else c in
    let c := clear_feats [XTPR; PDCM; PCID; DCA] c in
    let c := set_feat HYPERVISOR c in
    mkRegs (eax r) (ebx r) c d
  else if leaf =? 0x00000007 then
    if input1 input =? 0 then
      let b := Z.land (ebx r)
                 (lor_all [ feat BMI1; feat HLE; feat AVX2; feat BMI2;
                            feat ERMS; feat RTM; feat RDSEED; feat ADX;
                            feat FSGSBASE ]) in
      let b := if xfeature_mask info =? 0 then clear_feat MPX b else b in
      mkRegs 0 b 0 0
    else zero_regs
  else if leaf =? 0x0000000d then
    xc_cpuid_config_xsave info input r
  else if leaf =? 0x80000001 then
    let '(c, d) :=
      if negb (pv64 info) then
        let d := clear_feat LM (edx r) in
        let c := clear_feat LAHF_LM (ecx r) in
        let d := if negb (vendor_eqb (vendor info) VENDOR_AMD)
                 then clear_feat SYSCALL d else d in
        (c, d)
      else (ecx r, set_feat SYSCALL (edx r)) in
    let d := if negb (pvh info) then clear_feat PAGE1GB d else d in
    let d := clear_feat RDTSCP d in
    let c := clear_feats [SVM; OSVW; IBS; SKINIT; WDT; LWP; NODEID_MSR;
                          TOPOEXT] c in
    mkRegs (eax r) (ebx r) c d
  else if (leaf =? 0x00000005) || (leaf =? 0x0000000a) ||
          (leaf =? 0x0000000b) || (leaf =? 0x8000000a) ||
          (leaf =? 0x8000001b) || (leaf =? 0x8000001c) ||
          (leaf =? 0x8000001e) then
    zero_regs
  else r.

(** [xc_cpuid_policy]: always returns 0, so only the quadruple is kept. *)
Definition xc_cpuid_policy (info : cpuid_domain_info)
    (input : cpuid_input) (r : regs) : regs :=
  if Z.land (input0 input) 0xffff0000 =? 0x40000000 then zero_regs
  else if hvm info then xc_cpuid_hvm_policy info input r
  else xc_cpuid_pv_policy info input r.

(** ** The Domain Context Resolver *)

(** [FEATURESET_NR_ENTRIES], from the generated header. *)
Variable FEATURESET_NR_ENTRIES : Z.

(** Whether the n-th request to the allocator is served. *)
Variable malloc_ok : nat -> bool.

Definition xc_get_cpu_featureset_size : Z := FEATURESET_NR_ENTRIES.

(** [malloc] and [calloc]: [true] when a block is handed out. *)
Definition malloc (h : heap) : bool * heap :=
  if malloc_ok (requests h)
  then (true, mkHeap (S (requests h)) (S (live h)))
  else (false, mkHeap (S (requests h)) (live h)).

(** The vendor test on the quadruple of leaf 0. *)
Definition vendor_of (r : regs) : cpu_vendor :=
  if (ebx r =? 0x756e6547) && (ecx r =? 0x6c65746e) &&
     (edx r =? 0x49656e69) then VENDOR_INTEL
  else if (ebx r =? 0x68747541) && (ecx r =? 0x444d4163) &&
          (edx r =? 0x69746e65) then VENDOR_AMD
  else VENDOR_UNKNOWN.

(** [for ( i = nr_features; i < host_nr_features; ++i )
       if ( featureset[i] != 0 ) return -EOPNOTSUPP;]
    with [n] iterations left; [true] when the return is taken. *)
Fixpoint truncated_bits (n : nat) (i : Z) (fs : list Z) : outcome bool :=
  match n with
  | O => Returns false
  | S n' =>
      match nth_error fs (Z.to_nat i) with
      | None => OutOfBounds
      | Some w =>
          if negb (w =? 0) then Returns true
          else truncated_bits n' (i + 1) fs
      end
  end.

(** [memcpy(dst, src, n * sizeof dst[0])] into a zeroed block of [len]
    words. *)
Definition memcpy_words (len : Z) (src : list Z) (n : Z)
    : outcome (list Z) :=
  if (Z.of_nat (List.length src) <? n) then OutOfBounds
  else Returns (firstn (Z.to_nat n) src ++
                repeat 0 (Z.to_nat (len - n))).

Definition set_featureset (info : cpuid_domain_info)
    (fs : option (list Z)) (nr : Z) : cpuid_domain_info :=
  mkInfo (vendor info) (hvm info) (pvh info) (xfeature_mask info)
         fs nr (pv64 info) (pae info) (nestedhvm info).

(** The tail of [get_cpuid_domain_info], from the xstate query on. *)
Definition get_cpuid_domain_info_tail (xch : xc_interface) (domid : Z)
    (di : xc_dominfo_t) (info : cpuid_domain_info)
    (featureset_given : bool) (host_nr_features : Z)
    : Z * cpuid_domain_info :=
  let '(rc, mask) := getvcpuextstate xch domid in
  if negb (rc =? 0) then (rc, info)
  else
    let info := mkInfo (vendor info) (hvm info) (pvh info) mask
                       (featureset info) (nr_features info)
                       (pv64 info) (pae info) (nestedhvm info) in
    if di_hvm di then
      let '(rc, val) := xc_hvm_param_get xch domid HVM_PARAM_PAE_ENABLED in
      if negb (rc =? 0) then (rc, info)
      else
        let info := mkInfo (vendor info) (hvm info) (pvh info)
                           (xfeature_mask info) (featureset info)
                           (nr_features info) (pv64 info)
                           (negb (val =? 0)) (nestedhvm info) in
        let '(rc, val) := xc_hvm_param_get xch domid HVM_PARAM_NESTEDHVM in
        if negb (rc =? 0) then (rc, info)
        else
          let info := mkInfo (vendor info) (hvm info) (pvh info)
                             (xfeature_mask info) (featureset info)
                             (nr_features info) (pv64 info) (pae info)
                             (negb (val =? 0)) in
          if negb featureset_given then
            let '(rc, words) :=
              xc_get_cpu_featureset xch XEN_SYSCTL_cpu_featureset_hvm
                                    host_nr_features in
            if negb (rc =? 0) then (rc, info)
            else (0, set_featureset info (Some words) (nr_features info))
          else (0, info)
    else
      let '(rc, width) := xc_domain_get_guest_width xch domid in
      if negb (rc =? 0) then (rc, info)
      else
        let info := mkInfo (vendor info) (hvm info) (pvh info)
                           (xfeature_mask info) (featureset info)
                           (nr_features info) (width =? 8)
                           (pae info) (nestedhvm info) in
        if negb featureset_given then
          let '(rc, words) :=
            xc_get_cpu_featureset xch XEN_SYSCTL_cpu_featureset_pv
                                  host_nr_features in
          if negb (rc =? 0) then (rc, info)
          else (0, set_featureset info (Some words) (nr_features info))
        else (0, info).

(** [get_cpuid_domain_info]: the return code, the [info] as far as it was
    filled in, and the heap.  [caller_set] is the array the caller passes
    as [featureset] (NULL is [None]) and [caller_nr] the [nr_features]
    the caller states for it. *)
Definition get_cpuid_domain_info (xch : xc_interface) (domid : Z)
    (info : cpuid_domain_info) (caller_set : option (list Z))
    (caller_nr : Z) (h : heap)
    : outcome (Z * cpuid_domain_info * heap) :=
  let host_nr_features := xc_get_cpu_featureset_size in
  let r := cpuid (mkInput 0 U32.max_unsigned) in
  let info := mkInfo (vendor_of r) (hvm info) (pvh info)
                     (xfeature_mask info) (featureset info)
                     (nr_features info) (pv64 info) (pae info)
                     (nestedhvm info) in
  let '(found, di) := xc_domain_getinfo xch domid in
  if negb (found =? 1) || negb (di_domid di =? domid) then
    Returns (- ESRCH, info, h)
  else
    let info := mkInfo (vendor info) (di_hvm di) (di_pvh di)
                       (xfeature_mask info) (featureset info)
                       (nr_features info) (pv64 info) (pae info)
                       (nestedhvm info) in
    let '(ok, h) := malloc h in
    if negb ok then Returns (- ENOMEM, info, h)
    else
      let zeroed := repeat 0 (Z.to_nat host_nr_features) in
      let info := set_featureset info (Some zeroed) host_nr_features in
      match caller_set with
      | Some fs =>
          match memcpy_words host_nr_features fs
                  (Z.min host_nr_features caller_nr) with
          | Returns words =>
              let info := set_featureset info (Some words)
                                         host_nr_features in
              match truncated_bits
                      (Z.to_nat (host_nr_features - caller_nr))
                      caller_nr fs with
              | Returns true => Returns (- EOPNOTSUPP, info, h)
              | Returns false =>
                  let '(rc, info) :=
                    get_cpuid_domain_info_tail xch domid di info true
                                               host_nr_features in
                  Returns (rc, info, h)
              | OutOfBounds => OutOfBounds
              | OutOfFuel => OutOfFuel
              end
          | OutOfBounds => OutOfBounds
          | OutOfFuel => OutOfFuel
          end
      | None =>
          let '(rc, info) :=
            get_cpuid_domain_info_tail xch domid di info false
                                       host_nr_features in
          Returns (rc, info, h)
      end.

Definition free_cpuid_domain_info (info : cpuid_domain_info) (h : heap)
    : heap :=
  free (featureset info) h.

(** ** Programming one leaf *)

(** [xc_cpuid_do_domctl], given the requests [done] made so far. *)
Definition xc_cpuid_do_domctl (xch : xc_interface)
    (done : list cpuid_entry) (domid : Z) (input : cpuid_input) (r : regs)
    : Z :=
  set_cpuid xch done (mkEntry domid input r).

(** ** The traversal of [xc_cpuid_apply_policy] *)

(** The bottom of the loop body: the next [input], or [None] at [break].
    [r] is the quadruple the policy has just produced for [input]. *)
Definition next_input (base_max ext_max : Z) (input : cpuid_input)
    (r : regs) : option cpuid_input :=
  let in0 := input0 input in
  let in1 := input1 input in
  (* Intel cache descriptor leaves. *)
  let in1 := if in0 =? 4 then U32.add in1 1 else in1 in
  if (in0 =? 4) && negb (Z.land (eax r) 0x1f =? 0) then
    Some (mkInput in0 in1)
  (* XSAVE information, subleaves 0-63. *)
  else if (in0 =? 0xd) && (in1 <? 63) then
    Some (mkInput in0 (U32.add in1 1))
  else
    let in0 := U32.add in0 1 in
    let in0 :=
      if (Z.land in0 0x80000000 =? 0) && (in0 >? base_max)
      then 0x80000000 else in0 in
    let in1 := XEN_CPUID_INPUT_UNUSED in
    let in1 :=
      if (in0 =? 4) || (in0 =? 7) || (in0 =? 0xd) then 0 else in1 in
    if negb (Z.land in0 0x80000000 =? 0) && (in0 >? ext_max) then None
    else Some (mkInput in0 in1).

(** What one run of the traversal leaves behind: the return code, the
    leaves programmed, and the inputs the loop body ran for, in order. *)
Record traversal : Type := mkTraversal {
  tr_rc : Z;
  tr_programmed : list cpuid_entry;
  tr_visited : list cpuid_input
}.

(** [for ( ; ; ) { ... }] *)
Fixpoint apply_loop (fuel : nat) (xch : xc_interface) (domid : Z)
    (info : cpuid_domain_info) (base_max ext_max : Z)
    (input : cpuid_input) (done : list cpuid_entry)
    (visited : list cpuid_input) : outcome traversal :=
  match fuel with
  | O => OutOfFuel
  | S fuel' =>
      let r := xc_cpuid_policy info input (cpuid input) in
      let visited := visited ++ [input] in
      let rc :=
        if regs_nonzero r then xc_cpuid_do_domctl xch done domid input r
        else 0 in
      if negb (rc =? 0) then Returns (mkTraversal rc done visited)
      else
        let done :=
          if regs_nonzero r then done ++ [mkEntry domid input r]
          else done in
        match next_input base_max ext_max input r with
        | Some input' =>
            apply_loop fuel' xch domid info base_max ext_max input'
                       done visited
        | None => Returns (mkTraversal 0 done visited)
        end
  end.

Definition base_max_of (r : regs) : Z :=
  if eax r <=? DEF_MAX_BASE then eax r else DEF_MAX_BASE.

Definition ext_max_of (v : cpu_vendor) (r : regs) : Z :=
  if vendor_eqb v VENDOR_AMD
  then (if eax r <=? DEF_MAX_AMDEXT then eax r else DEF_MAX_AMDEXT)
  else (if eax r <=? DEF_MAX_INTELEXT then eax r else DEF_MAX_INTELEXT).

(** [xc_cpuid_apply_policy]: the traversal and the heap it leaves. *)
Definition xc_cpuid_apply_policy (fuel : nat) (xch : xc_interface)
    (domid : Z) (caller_set : option (list Z)) (caller_nr : Z) (h : heap)
    : outcome (traversal * heap) :=
  match get_cpuid_domain_info xch domid empty_info caller_set caller_nr h
  with
  | Returns (rc, info, h) =>
      if negb (rc =? 0) then
        Returns (mkTraversal rc [] [], free_cpuid_domain_info info h)
      else
        let base_max := base_max_of (cpuid (mkInput 0 0)) in
        let ext_max :=
          ext_max_of (vendor info) (cpuid (mkInput 0x80000000 0)) in
        match apply_loop fuel xch domid info base_max ext_max
                (mkInput 0 XEN_CPUID_INPUT_UNUSED) [] [] with
        | Returns t => Returns (t, free_cpuid_domain_info info h)
        | OutOfBounds => OutOfBounds
        | OutOfFuel => OutOfFuel
        end
  | OutOfBounds => OutOfBounds
  | OutOfFuel => OutOfFuel
  end.

(** ** The Override Directive Compiler *)

(** [alloc_str]: 33 zeroed bytes, or NULL. *)
Definition alloc_str (h : heap) : option (list ascii) * heap :=
  let '(ok, h) := malloc h in
  ((if ok then Some (repeat NUL 33) else None), h).

(** [!!(reg & (1U << (31 - j)))] *)
Definition bit_of (reg : Z) (j : nat) : bool :=
  U32.nonzero (Z.land reg (U32.shl 1 (31 - Z.of_nat j))).

(** [memset(config_transformed, 0, 4 * sizeof(...))] *)
Definition no_strs : strs := [None; None; None; None].

(** The exit through [fail]: every slot is freed and set to NULL. *)
Definition release_all (ct : strs) (h : heap) : strs * heap :=
  fold_left
    (fun (st : strs * heap) (i : nat) =>
       (set_slot (fst st) i None, free (slot (fst st) i) (snd st)))
    [0; 1; 2; 3]%nat (ct, h).

(** What a directive entry point hands back: the return code, the four
    transformed strings, the leaf programmed (none for a check), and the
    heap. *)
Record directive_result : Type := mkResult {
  dr_rc : Z;
  dr_transformed : strs;
  dr_programmed : list cpuid_entry;
  dr_heap : heap
}.

(** The inner loop of [xc_cpuid_check] from [j] on, [n] iterations left:
    the transformed string, or [None] at [goto fail]. *)
Fixpoint check_bits (n j : nat) (reg : Z) (cfg out : list ascii)
    : option (list ascii) :=
  match n with
  | O => Some out
  | S n' =>
      let val := bit_of reg j in
      let c := char_at cfg j in
      if negb (strchr "10xs" c) ||
         (Ascii.eqb c "1" && negb val) ||
         (Ascii.eqb c "0" && val)
      then None
      else
        let out := store out j c in
        let out := if Ascii.eqb c "s" then store out j (digit val)
                   else out in
        check_bits n' (S j) reg cfg out
  end.

(** The outer loop of [xc_cpuid_check] from [i] on: return code 0 when it
    runs to the end, else the code set on the way to the exit labels. *)
Fixpoint check_regs (n i : nat) (r : regs) (config ct : strs) (h : heap)
    : Z * strs * heap :=
  match n with
  | O => (0, ct, h)
  | S n' =>
      match slot config i with
      | None => check_regs n' (S i) r config ct h
      | Some cfg =>
          let '(p, h) := alloc_str h in
          let ct := set_slot ct i p in
          match p with
          | None => (- ENOMEM, ct, h)
          | Some buf =>
              match check_bits 32 0 (reg_get r i) cfg buf with
              | None => (- EPERM, ct, h)
              | Some out =>
                  check_regs n' (S i) r config (set_slot ct i (Some out)) h
              end
          end
      end
  end.

Definition xc_cpuid_check (input : cpuid_input) (config : strs) (h : heap)
    : directive_result :=
  let ct := no_strs in
  let r := cpuid input in
  let '(rc, ct, h) := check_regs 4 0 r config ct h in
  if rc =? 0 then mkResult 0 ct [] h
  else
    let '(ct, h) := release_all ct h in
    mkResult rc ct [] h.

(** The inner loop of [xc_cpuid_set] from [j] on: the register and the
    transformed string, or [None] at [goto fail] (with [rc = -EINVAL]). *)
Fixpoint set_bits (n j : nat) (polreg : Z) (cfg : list ascii) (reg : Z)
    (out : list ascii) : option (Z * list ascii) :=
  match n with
  | O => Some (reg, out)
  | S n' =>
      let val := bit_of reg j in
      let polval := bit_of polreg j in
      let c := char_at cfg j in
      if negb (strchr "10xks" c) then None
      else
        let val :=
          if Ascii.eqb c "1" then true
          else if Ascii.eqb c "0" then false
          else if Ascii.eqb c "x" then polval
          else val in
        let reg :=
          if val then set_bit (31 - Z.of_nat j) reg
          else clear_bit (31 - Z.of_nat j) reg in
        let out := store out j c in
        let out := if Ascii.eqb c "s" then store out j (digit val)
                   else out in
        set_bits n' (S j) polreg cfg reg out
  end.

(** The outer loop of [xc_cpuid_set] from [i] on. *)
Fixpoint set_regs (n i : nat) (polregs : regs) (config : strs) (r : regs)
    (ct : strs) (h : heap) : Z * regs * strs * heap :=
  match n with
  | O => (0, r, ct, h)
  | S n' =>
      match slot config i with
      | None =>
          set_regs n' (S i) polregs config
                   (reg_set r i (reg_get polregs i)) ct h
      | Some cfg =>
          let '(p, h) := alloc_str h in
          let ct := set_slot ct i p in
          match p with
          | None => (- ENOMEM, r, ct, h)
          | Some buf =>
              match set_bits 32 0 (reg_get polregs i) cfg (reg_get r i) buf with
              | None => (- EINVAL, r, ct, h)
              | Some (v, out) =>
                  set_regs n' (S i) polregs config (reg_set r i v)
                           (set_slot ct i (Some out)) h
              end
          end
      end
  end.

Definition xc_cpuid_set (xch : xc_interface) (domid : Z)
    (input : cpuid_input) (config : strs) (h : heap)
    : outcome directive_result :=
  let ct := no_strs in
  match get_cpuid_domain_info xch domid empty_info None 0 h with
  | Returns (rc, info, h) =>
      if negb (rc =? 0) then
        Returns (mkResult rc ct [] (free_cpuid_domain_info info h))
      else
        let r := cpuid input in
        let polregs := xc_cpuid_policy info input r in
        let '(rc, r, ct, h) := set_regs 4 0 polregs config r ct h in
        let rc :=
          if rc =? 0 then xc_cpuid_do_domctl xch [] domid input r
          else rc in
        if rc =? 0 then
          Returns (mkResult 0 ct [mkEntry domid input r]
                            (free_cpuid_domain_info info h))
        else
          let '(ct, h) := release_all ct h in
          Returns (mkResult rc ct [] (free_cpuid_domain_info info h))
  | OutOfBounds => OutOfBounds
  | OutOfFuel => OutOfFuel
  end.

(** ** Vocabulary of the statements *)

(** The bit the set loop writes for character [c]. *)
Definition set_val (c : ascii) (raw pol : bool) : bool :=
  if Ascii.eqb c "1" then true
  else if Ascii.eqb c "0" then false
  else if Ascii.eqb c "x" then pol
  else raw.

(** The character either loop stores for [c] when the bit in hand is [v]. *)
Definition stored_char (c : ascii) (v : bool) : ascii :=
  if Ascii.eqb c "s" then digit v else c.

(** The test of the check loop: [true] when the loop goes on. *)
Definition check_accepts (c : ascii) (val : bool) : bool :=
  negb (negb (strchr "10xs" c) ||
        (Ascii.eqb c "1" && negb val) ||
        (Ascii.eqb c "0" && val)).

(** The number of slots that hold a string. *)
Definition count_some (ss : strs) : nat :=
  List.length
    (filter (fun p : option (list ascii) =>
               match p with Some _ => true | None => false end) ss).


(** The case labels of the two guest-type tables. *)
Definition leaf_in (leaves : list Z) (leaf : Z) : bool :=
  existsb (Z.eqb leaf) leaves.

(** Leaves with a rule of their own in [xc_cpuid_hvm_policy]. *)
Definition hvm_rule_leaves : list Z :=
  [0x00000000; 0x00000001; 0x00000007; 0x0000000d; 0x80000000; 0x80000001;
   0x80000007; 0x80000008].

(** Leaves [xc_cpuid_hvm_policy] lists only to [break]. *)
Definition hvm_passthrough_leaves : list Z :=
  [0x00000002; 0x00000004; 0x0000000a; 0x80000002; 0x80000003; 0x80000004;
   0x80000005; 0x80000006; 0x8000000a; 0x8000001c].

(** Those of them that neither vendor function mentions. *)
Definition hvm_untouched_leaves : list Z :=
  [0x0000000a; 0x80000002; 0x80000003; 0x80000004; 0x80000006; 0x8000001c].

(** Leaves with a rule of their own in [xc_cpuid_pv_policy]. *)
Definition pv_rule_leaves : list Z :=
  [0x00000001; 0x00000007; 0x0000000d; 0x80000001].

(** Leaves [xc_cpuid_pv_policy] lists to zero them. *)
Definition pv_zeroed_leaves : list Z :=
  [0x00000005; 0x0000000a; 0x0000000b; 0x8000000a; 0x8000001b; 0x8000001c;
   0x8000001e].

(** The sub-leaves of leaf 4 among the inputs a traversal visited. *)
Definition leaf4_visits (visited : list cpuid_input) : list cpuid_input :=
  filter (fun i => input0 i =? 4) visited.

(** The inputs the traversal can be at: a basic leaf up to [base_max]
    (leaf 4 is entered at sub-leaf 0, leaf 0xd walks sub-leaves 0 to 63) or
    an extended leaf up to [ext_max]. *)
Definition valid_input (base_max ext_max : Z) (i : cpuid_input) : Prop :=
  (0 <= input0 i <= base_max /\
   (input0 i = 4 -> input1 i = 0) /\
   (input0 i = 0xd -> 0 <= input1 i <= 63)) \/
  (0x80000000 <= input0 i <= ext_max).

(** A bound on the iterations left once leaf 4 cannot repeat. *)
Definition traversal_rank (i : cpuid_input) : Z :=
  if input0 i <? 0x80000000 then
    (if input0 i <? 0xd then 0xd - input0 i + 64 else 63 - input1 i) + 30
  else 0x8000001c - input0 i + 1.

(** ** Further source functions *)

(** The inner loop of [xc_cpuid_to_str]:
    [strs[i][j] = !!(regs[i] & (1U << (31 - j))) ? '1' : '0']. *)
Fixpoint to_str_bits (n j : nat) (reg : Z) (out : list ascii) : list ascii :=
  match n with
  | O => out
  | S n' =>
      to_str_bits n' (S j) reg
        (store out j (if bit_of reg j then "1"%char else "0"%char))
  end.

(** The outer loop of [xc_cpuid_to_str] from [i] on; a failed allocation
    leaves the slot NULL and the loop goes on ([continue]). *)
Fixpoint to_str_regs (n i : nat) (r : regs) (ss : strs) (h : heap)
    : strs * heap :=
  match n with
  | O => (ss, h)
  | S n' =>
      let '(p, h) := alloc_str h in
      let ss := set_slot ss i p in
      match p with
      | None => to_str_regs n' (S i) r ss h
      | Some buf =>
          to_str_regs n' (S i) r
            (set_slot ss i (Some (to_str_bits 32 0 (reg_get r i) buf))) h
      end
  end.

(** [xc_cpuid_to_str]; [ss] is the caller's array of four pointers as it
    is on entry. *)
Definition xc_cpuid_to_str (r : regs) (ss : strs) (h : heap) : strs * heap :=
  to_str_regs 4 0 r ss h.

(** One row of [deep_deps[]]: a feature and its feature set. *)
Definition deep_dep : Type := (Z * list Z)%type.

(** The loop of [xc_get_feature_deep_deps] over the table [deep_deps],
    which the generated header initialises: a pointer to the row's feature
    set, or NULL. *)
Fixpoint deep_deps_search (fuel : nat) (deep_deps : list deep_dep)
    (feature start end_ : Z) : outcome (option (list Z)) :=
  match fuel with
  | O => OutOfFuel
  | S fuel' =>
      if start <? end_ then
        let mid := start + (end_ - start) / 2 in
        match nth_error deep_deps (Z.to_nat mid) with
        | None => OutOfBounds
        | Some (f, fs) =>
            if f >? feature then
              deep_deps_search fuel' deep_deps feature start mid
            else if f <? feature then
              deep_deps_search fuel' deep_deps feature (mid + 1) end_
            else Returns (Some fs)
        end
      else Returns None
  end.

Definition xc_get_feature_deep_deps (fuel : nat) (deep_deps : list deep_dep)
    (feature : Z) : outcome (option (list Z)) :=
  deep_deps_search fuel deep_deps feature 0
    (Z.of_nat (List.length deep_deps)).

(** ** Further vocabulary *)

(** The values of an [unsigned int]. *)
Definition u32 (x : Z) : Prop := 0 <= x < 2 ^ 32.

Definition regs_u32 (r : regs) : Prop :=
  u32 (eax r) /\ u32 (ebx r) /\ u32 (ecx r) /\ u32 (edx r).

(** The inputs a traversal can be at, whatever the context is: leaf 4 may
    be at any sub-leaf, leaf 7 is at sub-leaf 0, leaf 0xd at 0 to 63, every
    other leaf at "unused". *)
Definition reachable_input (base_max ext_max : Z) (i : cpuid_input) : Prop :=
  (0 <= input0 i <= base_max /\
   (input0 i = 4 -> u32 (input1 i)) /\
   (input0 i = 7 -> input1 i = 0) /\
   (input0 i = 0xd -> 0 <= input1 i <= 63) /\
   (input0 i <> 4 -> input0 i <> 7 -> input0 i <> 0xd ->
    input1 i = XEN_CPUID_INPUT_UNUSED)) \/
  (0x80000000 <= input0 i <= ext_max /\
   input1 i = XEN_CPUID_INPUT_UNUSED).

(** The feature keys of a table are strictly ascending. *)
Fixpoint deep_deps_sorted (t : list deep_dep) : Prop :=
  match t with
  | [] => True
  | (f, _) :: t' =>
      match t' with
      | [] => True
      | (g, _) :: _ => f < g
      end /\ deep_deps_sorted t'
  end.

(** The leaf a programming request is for, and whether the policy's answer
    for an input is worth one. *)
Definition entry_of (domid : Z) (info : cpuid_domain_info)
    (i : cpuid_input) : cpuid_entry :=
  mkEntry domid i (xc_cpuid_policy info i (cpuid i)).

Definition answer_nonzero (info : cpuid_domain_info) (i : cpuid_input)
    : bool :=
  regs_nonzero (xc_cpuid_policy info i (cpuid i)).

(** The bit a feature occupies in its 32-bit word. *)
Definition feature_bit (f : cpufeature) : Z := Z.land (X86_FEATURE f) 31.

(** The numeral [xc_cpuid_to_str] writes for a register: bit 31 first,
    bit 0 last, then the NUL the zeroed block ends in. *)
Definition binary_string (v : Z) : list ascii :=
  map (fun j : nat => digit (Z.testbit v (31 - Z.of_nat j))) (seq 0 32)
  ++ [NUL].

(** A directive that spells out every bit of every register. *)
Definition explicit_directive (v : regs) : strs :=
  [Some (binary_string (eax v)); Some (binary_string (ebx v));
   Some (binary_string (ecx v)); Some (binary_string (edx v))].

(** Two values with the same bits 0 to 31. *)
Definition same_low32 (x y : Z) : Prop :=
  forall j : nat, (j < 32)%nat ->
    Z.testbit x (31 - Z.of_nat j) = Z.testbit y (31 - Z.of_nat j).

(** The inputs a traversal can be at when the walk over leaf 4 stops at
    sub-leaf [last4] at the latest, and a bound on the iterations left
    from there. *)
Definition walk_input (last4 base_max ext_max : Z) (i : cpuid_input)
    : Prop :=
  (0 <= input0 i <= base_max /\
   (input0 i = 4 -> 0 <= input1 i <= last4) /\
   (input0 i = 0xd -> 0 <= input1 i <= 63)) \/
  (0x80000000 <= input0 i <= ext_max).

Definition walk_rank (last4 : Z) (i : cpuid_input) : Z :=
  traversal_rank i +
  (if input0 i <? 4 then last4
   else if input0 i =? 4 then last4 - input1 i else 0).

(** The inputs the body of the loop of [xc_cpuid_apply_policy] runs for
    during its first [n] iterations, from [input] on (fewer than [n] when
    the loop has ended by then).  It follows the same body as [apply_loop]
    and is what a run that is still going after [n] iterations has
    visited. *)
Fixpoint apply_loop_visits (n : nat) (xch : xc_interface) (domid : Z)
    (info : cpuid_domain_info) (base_max ext_max : Z)
    (input : cpuid_input) (done : list cpuid_entry) : list cpuid_input :=
  match n with
  | O => []
  | S n' =>
      let r := xc_cpuid_policy info input (cpuid input) in
      let rc :=
        if regs_nonzero r then xc_cpuid_do_domctl xch done domid input r
        else 0 in
      input ::
      (if negb (rc =? 0) then []
       else
         let done :=
           if regs_nonzero r then done ++ [mkEntry domid input r]
           else done in
         match next_input base_max ext_max input r with
         | Some input' =>
             apply_loop_visits n' xch domid info base_max ext_max input'
                               done
         | None => []
         end)
  end.

(** The same for a call of [xc_cpuid_apply_policy]: nothing when the
    context is not resolved, else the first [n] iterations from leaf 0. *)
Definition xc_cpuid_apply_policy_visits (n : nat) (xch : xc_interface)
    (domid : Z) (caller_set : option (list Z)) (caller_nr : Z) (h : heap)
    : list cpuid_input :=
  match get_cpuid_domain_info xch domid empty_info caller_set caller_nr h
  with
  | Returns (rc, info, _) =>
      if negb (rc =? 0) then []
      else
        apply_loop_visits n xch domid info
          (base_max_of (cpuid (mkInput 0 0)))
          (ext_max_of (vendor info) (cpuid (mkInput 0x80000000 0)))
          (mkInput 0 XEN_CPUID_INPUT_UNUSED) []
  | OutOfBounds => []
  | OutOfFuel => []
  end.

(** * Properties *)

(** Drops the section variables a statement does not mention, so that no
    lemma is generalised over more than it is about. *)
Ltac prune :=
  try clear X86_FEATURE; try clear cpuid_insn;
  try clear FEATURESET_NR_ENTRIES; try clear malloc_ok.

(** Turns a negative membership test into the facts [leaf =? c = false]
    and rewrites with them. *)
Ltac leaf_facts H :=
  unfold leaf_in in H; simpl in H;
  repeat rewrite orb_false_iff in H;
  repeat match type of H with
         | _ /\ _ => let H1 := fresh "Hl" in
                     destruct H as [H1 H]; try rewrite H1
         end;
  try rewrite H.

(** Case analysis on the integer comparisons of the goal, innermost
    first. *)
Ltac no_branch t :=
  lazymatch t with
  | context [if _ then _ else _] => fail
  | _ => idtac
  end.

Ltac zbool :=
  repeat
    (match goal with
     | |- context [?a =? ?b] =>
         no_branch a; no_branch b; destruct (Z.eqb_spec a b); try lia
     | |- context [?a <? ?b] =>
         no_branch a; no_branch b; destruct (Z.ltb_spec a b); try lia
     | |- context [?a >? ?b] =>
         no_branch a; no_branch b; destruct (Z.gtb_spec a b); try lia
     | |- context [?a <=? ?b] =>
         no_branch a; no_branch b; destruct (Z.leb_spec a b); try lia
     end;
     cbn [andb orb negb input0 input1]).

(** Case analysis on every conditional of the goal. *)
Ltac split_ifs :=
  repeat match goal with
         | |- context [if ?c then _ else _] => destruct c
         end.

(** ** Bits of 32-bit words *)

Lemma shl_1_small (k : Z) : 0 <= k < 32 -> U32.shl 1 k = 2 ^ k.
Proof.
  prune.
intros Hk. unfold U32.shl, U32.wrap, U32.modulus.
rewrite Z.shiftl_1_l. apply Z.mod_small. split.
- apply Z.pow_nonneg; lia.
- apply Z.pow_lt_mono_r; lia.
Qed.

Lemma land_pow2 (a k : Z) :
0 <= k -> Z.land a (2 ^ k) = if Z.testbit a k then 2 ^ k else 0.
Proof.
  prune.
intros Hk. apply Z.bits_inj'. intros n Hn.
rewrite Z.land_spec, Z.pow2_bits_eqb by lia.
destruct (Z.eqb_spec k n) as [->|Hne].
- destruct (Z.testbit a n) eqn:E; simpl.
  + rewrite Z.pow2_bits_eqb, Z.eqb_refl by lia. reflexivity.
  + now rewrite Z.bits_0.
- rewrite andb_false_r. destruct (Z.testbit a k).
  + rewrite Z.pow2_bits_eqb by lia. symmetry. now apply Z.eqb_neq.
  + now rewrite Z.bits_0.
Qed.

Lemma land_31_small (k : Z) : 0 <= k < 32 -> Z.land k 31 = k.
Proof.
  prune.
intros Hk. change 31 with (Z.ones 5).
rewrite Z.land_ones by lia. apply Z.mod_small. simpl. lia.
Qed.

Lemma bitmaskof_small (k : Z) : 0 <= k < 32 -> bitmaskof k = 2 ^ k.
Proof.
  prune.
intros Hk. unfold bitmaskof. rewrite land_31_small by assumption.
now apply shl_1_small.
Qed.

Lemma bit_of_testbit (reg : Z) (j : nat) :
(j < 32)%nat -> bit_of reg j = Z.testbit reg (31 - Z.of_nat j).
Proof.
  prune.
intros Hj. unfold bit_of, U32.nonzero.
rewrite shl_1_small, land_pow2 by lia.
destruct (Z.testbit reg (31 - Z.of_nat j)); [|reflexivity].
apply negb_true_iff, Z.eqb_neq.
assert (0 < 2 ^ (31 - Z.of_nat j)) by (apply Z.pow_pos_nonneg; lia). lia.
Qed.

Lemma testbit_set_bit (k reg m : Z) :
0 <= k < 32 -> 0 <= m ->
Z.testbit (set_bit k reg) m = if m =? k then true else Z.testbit reg m.
Proof.
  prune.
intros Hk Hm. unfold set_bit.
rewrite bitmaskof_small, Z.lor_spec, Z.pow2_bits_eqb by lia.
rewrite (Z.eqb_sym m k).
destruct (k =? m); [apply orb_true_r | apply orb_false_r].
Qed.

Lemma testbit_clear_bit (k reg m : Z) :
0 <= k < 32 -> 0 <= m < 32 ->
Z.testbit (clear_bit k reg) m = if m =? k then false else Z.testbit reg m.
Proof.
  prune.
intros Hk Hm. unfold clear_bit, U32.not, U32.max_unsigned.
rewrite bitmaskof_small, Z.land_spec, Z.lxor_spec, Z.pow2_bits_eqb by lia.
change 0xFFFFFFFF with (Z.ones 32).
rewrite Z.ones_spec_low by lia. rewrite (Z.eqb_sym m k).
destruct (k =? m); simpl; [apply andb_false_r | apply andb_true_r].
Qed.

(** ** Strings and slots *)

Lemma store_length (s : list ascii) (j : nat) (c : ascii) :
List.length (store s j c) = List.length s.
Proof.
  prune.
revert j. induction s as [|a t IH]; intros [|j]; simpl; auto.
Qed.

Lemma char_at_store (s : list ascii) (j m : nat) (c : ascii) :
char_at (store s j c) m =
if (Nat.eqb m j && Nat.ltb m (List.length s))%bool then c else char_at s m.
Proof.
  prune.
unfold char_at. revert j m.
induction s as [|a t IH]; intros j m.
- destruct j, m; simpl; try reflexivity; now rewrite andb_false_r.
- destruct j as [|j], m as [|m]; simpl; try reflexivity.
  rewrite IH. reflexivity.
Qed.

Lemma set_slot_length (ss : strs) (i : nat) (p : option (list ascii)) :
List.length (set_slot ss i p) = List.length ss.
Proof.
  prune.
revert i. induction ss as [|a t IH]; intros [|i]; simpl; auto.
Qed.

Lemma slot_set_slot (ss : strs) (i k : nat) (p : option (list ascii)) :
slot (set_slot ss i p) k =
if (Nat.eqb k i && Nat.ltb k (List.length ss))%bool then p else slot ss k.
Proof.
  prune.
unfold slot. revert i k.
induction ss as [|a t IH]; intros i k.
- destruct i, k; simpl; try reflexivity; now rewrite andb_false_r.
- destruct i as [|i], k as [|k]; simpl; try reflexivity.
  rewrite IH. reflexivity.
Qed.

Lemma strchr_check_alphabet (c : ascii) :
strchr "10xs" c = true <->
c = "1"%char \/ c = "0"%char \/ c = "x"%char \/ c = "s"%char \/ c = NUL.
Proof.
  prune.
unfold strchr. simpl. rewrite !orb_true_iff, !Ascii.eqb_eq.
intuition congruence.
Qed.

Lemma strchr_set_alphabet (c : ascii) :
strchr "10xks" c = true <->
c = "1"%char \/ c = "0"%char \/ c = "x"%char \/ c = "k"%char \/
c = "s"%char \/ c = NUL.
Proof.
  prune.
unfold strchr. simpl. rewrite !orb_true_iff, !Ascii.eqb_eq.
intuition congruence.
Qed.

(** ** The inner loops of the directive compiler *)

Lemma set_bits_spec (n : nat) :
forall (j : nat) (polreg : Z) (cfg : list ascii) (reg : Z)
       (out : list ascii) (reg' : Z) (out' : list ascii),
  (j + n = 32)%nat ->
  set_bits n j polreg cfg reg out = Some (reg', out') ->
  List.length out' = List.length out /\
  (forall m, (m < 32)%nat ->
     Z.testbit reg' (31 - Z.of_nat m) =
     if Nat.ltb m j then Z.testbit reg (31 - Z.of_nat m)
     else set_val (char_at cfg m) (Z.testbit reg (31 - Z.of_nat m))
                  (Z.testbit polreg (31 - Z.of_nat m))) /\
  (forall m,
     char_at out' m =
     if (Nat.leb j m && Nat.ltb m 32 && Nat.ltb m (List.length out))%bool
     then stored_char (char_at cfg m)
            (set_val (char_at cfg m) (Z.testbit reg (31 - Z.of_nat m))
                     (Z.testbit polreg (31 - Z.of_nat m)))
     else char_at out m) /\
  (forall m, (j <= m < 32)%nat -> strchr "10xks" (char_at cfg m) = true).
Proof.
  prune.
induction n as [|n IH]; intros j polreg cfg reg out reg' out' Hj H.
- simpl in H. injection H as <- <-. split; [reflexivity|]. split; [|split].
  + intros m Hm. assert (Nat.ltb m j = true) as -> by (apply Nat.ltb_lt; lia).
    reflexivity.
  + intros m. destruct (Nat.leb_spec j m); simpl; [|reflexivity].
    assert (Nat.ltb m 32 = false) as -> by (apply Nat.ltb_ge; lia).
    reflexivity.
  + intros m Hm. lia.
- simpl in H.
  destruct (strchr "10xks" (char_at cfg j)) eqn:Hc; simpl in H;
    [|discriminate].
  rewrite !bit_of_testbit in H by lia.
  fold (set_val (char_at cfg j) (Z.testbit reg (31 - Z.of_nat j))
                (Z.testbit polreg (31 - Z.of_nat j))) in H.
  set (v := set_val (char_at cfg j) (Z.testbit reg (31 - Z.of_nat j))
                    (Z.testbit polreg (31 - Z.of_nat j))) in *.
  set (reg1 := if v then set_bit (31 - Z.of_nat j) reg
               else clear_bit (31 - Z.of_nat j) reg) in *.
  set (out1 := if Ascii.eqb (char_at cfg j) "s"
               then store (store out j (char_at cfg j)) j (digit v)
               else store out j (char_at cfg j)) in *.
  apply IH in H; [|lia].
  destruct H as (Hlen & Hbits & Hout & Hok).
  assert (Hlen1 : List.length out1 = List.length out).
  { unfold out1. destruct (Ascii.eqb (char_at cfg j) "s");
      now rewrite ?store_length. }
  assert (Hreg1 : forall m, (m < 32)%nat ->
            Z.testbit reg1 (31 - Z.of_nat m) =
            if Nat.eqb m j then v else Z.testbit reg (31 - Z.of_nat m)).
  { intros m Hm. unfold reg1. destruct v.
    - rewrite testbit_set_bit by lia.
      destruct (Nat.eqb_spec m j) as [->|Hne].
      + now rewrite Z.eqb_refl.
      + destruct (Z.eqb_spec (31 - Z.of_nat m) (31 - Z.of_nat j)); [lia|].
        reflexivity.
    - rewrite testbit_clear_bit by lia.
      destruct (Nat.eqb_spec m j) as [->|Hne].
      + now rewrite Z.eqb_refl.
      + destruct (Z.eqb_spec (31 - Z.of_nat m) (31 - Z.of_nat j)); [lia|].
        reflexivity. }
  assert (Hout1 : forall m,
            char_at out1 m =
            if (Nat.eqb m j && Nat.ltb m (List.length out))%bool
            then stored_char (char_at cfg j) v else char_at out m).
  { intros m. unfold out1, stored_char.
    destruct (Ascii.eqb (char_at cfg j) "s").
    - rewrite !char_at_store, store_length.
      destruct (Nat.eqb m j && Nat.ltb m (List.length out))%bool;
        reflexivity.
    - now rewrite char_at_store. }
  split; [congruence|]. split; [|split].
  + intros m Hm. rewrite Hbits by assumption.
    rewrite Hreg1 by assumption.
    destruct (Nat.eqb_spec m j) as [->|Hne].
    * assert (Nat.ltb j (S j) = true) as -> by (apply Nat.ltb_lt; lia).
      assert (Nat.ltb j j = false) as -> by (apply Nat.ltb_ge; lia).
      reflexivity.
    * destruct (Nat.ltb_spec m (S j)), (Nat.ltb_spec m j);
        try lia; reflexivity.
  + intros m. rewrite Hout, Hlen1, Hout1.
    destruct (Nat.eqb_spec m j) as [->|Hne].
    * assert (Nat.leb (S j) j = false) as -> by (apply Nat.leb_gt; lia).
      rewrite Nat.leb_refl.
      assert (Nat.ltb j 32 = true) as -> by (apply Nat.ltb_lt; lia).
      simpl. fold v. reflexivity.
    * rewrite andb_false_l.
      assert (Nat.leb (S j) m = Nat.leb j m) as ->.
      { destruct (Nat.leb_spec (S j) m), (Nat.leb_spec j m);
          try lia; reflexivity. }
      destruct (Nat.leb j m); [|reflexivity].
      destruct (Nat.ltb_spec m 32); [|reflexivity].
      rewrite Hreg1 by assumption.
      destruct (Nat.eqb_spec m j); [lia|reflexivity].
  + intros m Hm. destruct (Nat.eq_dec m j) as [->|Hne]; [assumption|].
    apply Hok. lia.
Qed.

Lemma check_bits_spec (n : nat) :
forall (j : nat) (reg : Z) (cfg out out' : list ascii),
  (j + n = 32)%nat ->
  check_bits n j reg cfg out = Some out' ->
  List.length out' = List.length out /\
  (forall m,
     char_at out' m =
     if (Nat.leb j m && Nat.ltb m 32 && Nat.ltb m (List.length out))%bool
     then stored_char (char_at cfg m) (Z.testbit reg (31 - Z.of_nat m))
     else char_at out m) /\
  (forall m, (j <= m < 32)%nat ->
     check_accepts (char_at cfg m) (Z.testbit reg (31 - Z.of_nat m)) = true).
Proof.
  prune.
induction n as [|n IH]; intros j reg cfg out out' Hj H.
- simpl in H. injection H as <-. split; [reflexivity|]. split.
  + intros m. destruct (Nat.leb_spec j m); simpl; [|reflexivity].
    assert (Nat.ltb m 32 = false) as -> by (apply Nat.ltb_ge; lia).
    reflexivity.
  + intros m Hm. lia.
- simpl in H. rewrite bit_of_testbit in H by lia.
  fold (check_accepts (char_at cfg j) (Z.testbit reg (31 - Z.of_nat j)))
    in H.
  destruct (check_accepts (char_at cfg j) (Z.testbit reg (31 - Z.of_nat j)))
    eqn:Hc.
  2:{ unfold check_accepts in Hc. apply negb_false_iff in Hc.
      rewrite Hc in H. discriminate. }
  assert (Hgo := Hc). unfold check_accepts in Hgo.
  apply negb_true_iff in Hgo. rewrite Hgo in H.
  set (out1 := if Ascii.eqb (char_at cfg j) "s"
               then store (store out j (char_at cfg j)) j
                      (digit (Z.testbit reg (31 - Z.of_nat j)))
               else store out j (char_at cfg j)) in *.
  apply IH in H; [|lia]. destruct H as (Hlen & Hout & Hok).
  assert (Hlen1 : List.length out1 = List.length out).
  { unfold out1. destruct (Ascii.eqb (char_at cfg j) "s");
      now rewrite ?store_length. }
  assert (Hout1 : forall m,
            char_at out1 m =
            if (Nat.eqb m j && Nat.ltb m (List.length out))%bool
            then stored_char (char_at cfg j)
                   (Z.testbit reg (31 - Z.of_nat j))
            else char_at out m).
  { intros m. unfold out1, stored_char.
    destruct (Ascii.eqb (char_at cfg j) "s").
    - rewrite !char_at_store, store_length.
      destruct (Nat.eqb m j && Nat.ltb m (List.length out))%bool;
        reflexivity.
    - now rewrite char_at_store. }
  split; [congruence|]. split.
  + intros m. rewrite Hout, Hlen1, Hout1.
    destruct (Nat.eqb_spec m j) as [->|Hne].
    * assert (Nat.leb (S j) j = false) as -> by (apply Nat.leb_gt; lia).
      rewrite Nat.leb_refl.
      assert (Nat.ltb j 32 = true) as -> by (apply Nat.ltb_lt; lia).
      reflexivity.
    * rewrite andb_false_l.
      assert (Nat.leb (S j) m = Nat.leb j m) as ->.
      { destruct (Nat.leb_spec (S j) m), (Nat.leb_spec j m);
          try lia; reflexivity. }
      reflexivity.
  + intros m Hm. destruct (Nat.eq_dec m j) as [->|Hne]; [assumption|].
    apply Hok. lia.
Qed.

Lemma check_bits_none (n : nat) :
forall (j : nat) (reg : Z) (cfg out : list ascii),
  (j + n = 32)%nat ->
  check_bits n j reg cfg out = None ->
  exists m, (j <= m < 32)%nat /\
    check_accepts (char_at cfg m) (Z.testbit reg (31 - Z.of_nat m)) = false.
Proof.
  prune.
induction n as [|n IH]; intros j reg cfg out Hj H.
- discriminate.
- simpl in H. rewrite bit_of_testbit in H by lia.
  destruct (check_accepts (char_at cfg j) (Z.testbit reg (31 - Z.of_nat j)))
    eqn:Hc.
  + assert (Hgo := Hc). unfold check_accepts in Hgo.
    apply negb_true_iff in Hgo. rewrite Hgo in H.
    apply IH in H; [|lia]. destruct H as (m & Hm & Hr).
    exists m. split; [lia|assumption].
  + exists j. split; [lia|assumption].
Qed.



(** ** Slots and the heap *)

Lemma count_some_set_slot (ss : strs) (i : nat) (p : option (list ascii)) :
  (i < List.length ss)%nat -> slot ss i = None ->
  count_some (set_slot ss i p) =
  (count_some ss + match p with Some _ => 1 | None => 0 end)%nat.
Proof.
  prune.
  unfold slot, count_some. revert i.
  induction ss as [|a t IH]; intros i Hi Hs; simpl in Hi; [lia|].
  destruct i as [|i]; simpl in *.
  - subst a. destruct p; simpl; lia.
  - specialize (IH i ltac:(lia) Hs).
    destruct a; simpl; rewrite IH; lia.
Qed.

Lemma set_slot_twice (ss : strs) (i : nat) (p q : option (list ascii)) :
  set_slot (set_slot ss i p) i q = set_slot ss i q.
Proof.
  prune.
  revert i. induction ss as [|a t IH]; intros [|i]; simpl; try reflexivity.
  now rewrite IH.
Qed.

Lemma release_all_four (a b c d : option (list ascii)) (h : heap) :
  release_all [a; b; c; d] h =
  (no_strs, mkHeap (requests h) (live h - count_some [a; b; c; d])).
Proof.
  prune.
  unfold release_all, no_strs, count_some.
  destruct a, b, c, d; simpl; f_equal; destruct h as [rq lv]; simpl;
    f_equal; lia.
Qed.

Lemma release_all_spec (ct : strs) (h : heap) :
  List.length ct = 4%nat ->
  release_all ct h = (no_strs, mkHeap (requests h) (live h - count_some ct)).
Proof.
  prune.
  intros Hl.
  destruct ct as [|a [|b [|c [|d [|e t]]]]]; try discriminate.
  apply release_all_four.
Qed.

Lemma alloc_str_cases (h : heap) :
  (malloc_ok (requests h) = true /\
   alloc_str h = (Some (repeat NUL 33),
                  mkHeap (S (requests h)) (S (live h)))) \/
  (malloc_ok (requests h) = false /\
   alloc_str h = (None, mkHeap (S (requests h)) (live h))).
Proof.
  prune.
  unfold alloc_str, malloc. destruct (malloc_ok (requests h)); auto.
Qed.

Lemma slot_after_set_slot (ct : strs) (i : nat) (p : option (list ascii)) :
  (forall k, (i <= k)%nat -> slot ct k = None) ->
  forall k, (S i <= k)%nat -> slot (set_slot ct i p) k = None.
Proof.
  prune.
  intros H k Hk. rewrite slot_set_slot.
  destruct (Nat.eqb_spec k i); [lia|]. simpl. apply H. lia.
Qed.

(** ** The outer loop of [xc_cpuid_check] *)

Lemma check_regs_inv (n : nat) :
  forall (i : nat) (r : regs) (config ct : strs) (h : heap)
         (rc : Z) (ct' : strs) (h' : heap),
    check_regs n i r config ct h = (rc, ct', h') ->
    List.length ct = 4%nat -> (i + n = 4)%nat ->
    (forall k, (i <= k)%nat -> slot ct k = None) ->
    List.length ct' = 4%nat /\
    (live h' + count_some ct = live h + count_some ct')%nat /\
    (rc = 0 \/ rc = - ENOMEM \/ rc = - EPERM) /\
    (rc = 0 ->
     forall k,
       ((k < i)%nat -> slot ct' k = slot ct k) /\
       ((i <= k < 4)%nat ->
        match slot config k with
        | None => slot ct' k = None
        | Some cfg =>
            exists out, slot ct' k = Some out /\
              check_bits 32 0 (reg_get r k) cfg (repeat NUL 33) = Some out
        end)) /\
    (rc = - EPERM ->
     exists k cfg, (i <= k < 4)%nat /\ slot config k = Some cfg /\
       check_bits 32 0 (reg_get r k) cfg (repeat NUL 33) = None) /\
    (rc = - ENOMEM -> exists q, malloc_ok q = false).
Proof.
  prune.
  induction n as [|n IH]; intros i r config ct h rc ct' h' H Hlen Hi Hnone.
  - simpl in H. injection H as <- <- <-.
    repeat split; auto; try discriminate; intros; lia.
  - cbn [check_regs] in H. destruct (slot config i) as [cfg|] eqn:Hcfg.
    + destruct (alloc_str_cases h) as [[Hok Ha]|[Hok Ha]]; rewrite Ha in H.
      * destruct (check_bits 32 0 (reg_get r i) cfg (repeat NUL 33))
          as [out|] eqn:Hcb.
        -- rewrite set_slot_twice in H.
           apply IH in H;
             [|now rewrite set_slot_length|lia
              |now apply slot_after_set_slot].
           destruct H as (Hl & Hlive & Hrc & H0 & Hperm & Hmem).
           rewrite count_some_set_slot in Hlive by (try apply Hnone; lia).
           simpl in Hlive.
           split; [assumption|]. split; [lia|]. split; [assumption|].
           split; [|split].
           ++ intros E k. specialize (H0 E). split.
              ** intros Hk. destruct (H0 k) as [Hlt _].
                 rewrite Hlt by lia. rewrite slot_set_slot.
                 destruct (Nat.eqb_spec k i); [lia|reflexivity].
              ** intros Hk. destruct (Nat.eq_dec k i) as [->|Hne].
                 --- destruct (H0 i) as [Hlt _]. rewrite Hcfg.
                     exists out. split; [|assumption].
                     rewrite Hlt by lia. rewrite slot_set_slot.
                     rewrite Nat.eqb_refl.
                     assert (Nat.ltb i (List.length ct) = true) as ->
                       by (apply Nat.ltb_lt; lia).
                     reflexivity.
                 --- destruct (H0 k) as [_ Hge]. apply Hge. lia.
           ++ intros E. destruct (Hperm E) as (k & c & Hk & Hc & Hb).
              exists k, c. split; [lia|]. split; assumption.
           ++ assumption.
        -- injection H as <- <- <-.
           split; [now rewrite set_slot_length|]. split.
           { rewrite count_some_set_slot by (try apply Hnone; lia).
             simpl. lia. }
           split; [auto|].
           split; [discriminate|]. split; [|discriminate].
           intros _. exists i, cfg. split; [lia|]. split; assumption.
      * injection H as <- <- <-.
        split; [now rewrite set_slot_length|]. split.
        { rewrite count_some_set_slot by (try apply Hnone; lia).
          simpl. lia. }
        split; [auto|].
        split; [discriminate|]. split; [discriminate|].
        intros _. eexists. exact Hok.
    + apply IH in H; [|assumption|lia|intros k Hk; apply Hnone; lia].
      destruct H as (Hl & Hlive & Hrc & H0 & Hperm & Hmem).
      split; [assumption|]. split; [assumption|]. split; [assumption|].
      split; [|split].
      * intros E k. specialize (H0 E). split.
        -- intros Hk. destruct (H0 k) as [Hlt _]. apply Hlt. lia.
        -- intros Hk. destruct (Nat.eq_dec k i) as [->|Hne].
           ++ rewrite Hcfg. destruct (H0 i) as [Hlt _].
              rewrite Hlt by lia. apply Hnone. lia.
           ++ destruct (H0 k) as [_ Hge]. apply Hge. lia.
      * intros E. destruct (Hperm E) as (k & c & Hk & Hc & Hb).
        exists k, c. split; [lia|]. split; assumption.
      * assumption.
Qed.

(** ** The outer loop of [xc_cpuid_set] *)

Lemma reg_get_set (r : regs) (i k : nat) (v : Z) :
  (i < 4)%nat -> (k < 4)%nat ->
  reg_get (reg_set r i v) k = if Nat.eqb k i then v else reg_get r k.
Proof.
  prune.
  intros Hi Hk.
  destruct i as [|[|[|[|i]]]]; try lia;
    destruct k as [|[|[|[|k]]]]; try lia; reflexivity.
Qed.

Lemma set_regs_inv (n : nat) :
  forall (i : nat) (polregs : regs) (config : strs) (r : regs) (ct : strs)
         (h : heap) (rc : Z) (r' : regs) (ct' : strs) (h' : heap),
    set_regs n i polregs config r ct h = (rc, r', ct', h') ->
    List.length ct = 4%nat -> (i + n = 4)%nat ->
    (forall k, (i <= k)%nat -> slot ct k = None) ->
    List.length ct' = 4%nat /\
    (live h' + count_some ct = live h + count_some ct')%nat /\
    (rc = 0 \/ rc = - ENOMEM \/ rc = - EINVAL) /\
    (rc = 0 ->
     forall k,
       ((k < i)%nat ->
        slot ct' k = slot ct k /\ reg_get r' k = reg_get r k) /\
       ((i <= k < 4)%nat ->
        match slot config k with
        | None => slot ct' k = None /\ reg_get r' k = reg_get polregs k
        | Some cfg =>
            exists out, slot ct' k = Some out /\
              set_bits 32 0 (reg_get polregs k) cfg (reg_get r k)
                       (repeat NUL 33) = Some (reg_get r' k, out)
        end)).
Proof.
  prune.
  induction n as [|n IH];
    intros i polregs config r ct h rc r' ct' h' H Hlen Hi Hnone.
  - simpl in H. injection H as <- <- <- <-.
    repeat split; auto; intros; lia.
  - cbn [set_regs] in H. destruct (slot config i) as [cfg|] eqn:Hcfg.
    + destruct (alloc_str_cases h) as [[Hok Ha]|[Hok Ha]]; rewrite Ha in H.
      * destruct (set_bits 32 0 (reg_get polregs i) cfg (reg_get r i)
                    (repeat NUL 33)) as [[v out]|] eqn:Hsb.
        -- rewrite set_slot_twice in H.
           apply IH in H;
             [|now rewrite set_slot_length|lia
              |now apply slot_after_set_slot].
           destruct H as (Hl & Hlive & Hrc & H0).
           rewrite count_some_set_slot in Hlive by (try apply Hnone; lia).
           simpl in Hlive.
           split; [assumption|]. split; [lia|]. split; [assumption|].
           intros E k. specialize (H0 E). split.
           ++ intros Hk. destruct (H0 k) as [Hlt _].
              destruct (Hlt ltac:(lia)) as [Hs Hr].
              rewrite Hs, Hr, slot_set_slot, reg_get_set by lia.
              destruct (Nat.eqb_spec k i); [lia|]. split; reflexivity.
           ++ intros Hk. destruct (Nat.eq_dec k i) as [->|Hne].
              ** destruct (H0 i) as [Hlt _].
                 destruct (Hlt ltac:(lia)) as [Hs Hr].
                 rewrite Hcfg. exists out. split.
                 --- rewrite Hs, slot_set_slot, Nat.eqb_refl.
                     assert (Nat.ltb i (List.length ct) = true) as ->
                       by (apply Nat.ltb_lt; lia).
                     reflexivity.
                 --- rewrite Hr, reg_get_set, Nat.eqb_refl by lia.
                     assumption.
              ** destruct (H0 k) as [_ Hge]. specialize (Hge ltac:(lia)).
                 rewrite reg_get_set in Hge by lia.
                 destruct (Nat.eqb_spec k i); [lia|]. exact Hge.
        -- injection H as <- <- <- <-.
           split; [now rewrite set_slot_length|]. split.
           { rewrite count_some_set_slot by (try apply Hnone; lia).
             simpl. lia. }
           split; [auto|]. discriminate.
      * injection H as <- <- <- <-.
        split; [now rewrite set_slot_length|]. split.
        { rewrite count_some_set_slot by (try apply Hnone; lia).
          simpl. lia. }
        split; [auto|]. discriminate.
    + apply IH in H; [|assumption|lia|intros k Hk; apply Hnone; lia].
      destruct H as (Hl & Hlive & Hrc & H0).
      split; [assumption|]. split; [assumption|]. split; [assumption|].
      intros E k. specialize (H0 E). split.
      * intros Hk. destruct (H0 k) as [Hlt _].
        destruct (Hlt ltac:(lia)) as [Hs Hr].
        rewrite Hs, Hr, reg_get_set by lia.
        destruct (Nat.eqb_spec k i); [lia|]. split; reflexivity.
      * intros Hk. destruct (Nat.eq_dec k i) as [->|Hne].
        -- rewrite Hcfg. destruct (H0 i) as [Hlt _].
           destruct (Hlt ltac:(lia)) as [Hs Hr].
           rewrite Hs, Hr, reg_get_set, Nat.eqb_refl by lia.
           split; [apply Hnone; lia|reflexivity].
        -- destruct (H0 k) as [_ Hge]. specialize (Hge ltac:(lia)).
           rewrite reg_get_set in Hge by lia.
           destruct (Nat.eqb_spec k i); [lia|]. exact Hge.
Qed.

(** ** The resolver when no feature set is passed *)

Lemma tail_keeps_block (xch : xc_interface) (domid : Z) (di : xc_dominfo_t)
    (info : cpuid_domain_info) (given : bool) (host_nr : Z) (blk : list Z) :
  featureset info = Some blk ->
  exists blk',
    featureset (snd (get_cpuid_domain_info_tail xch domid di info given
                       host_nr)) = Some blk'.
Proof.
  prune.
  intros Hb. unfold get_cpuid_domain_info_tail.
  destruct (getvcpuextstate xch domid) as [rc mask].
  destruct (negb (rc =? 0)); [simpl; eauto|].
  destruct (di_hvm di).
  - destruct (xc_hvm_param_get xch domid HVM_PARAM_PAE_ENABLED) as [rc1 v1].
    destruct (negb (rc1 =? 0)); [simpl; eauto|].
    destruct (xc_hvm_param_get xch domid HVM_PARAM_NESTEDHVM) as [rc2 v2].
    destruct (negb (rc2 =? 0)); [simpl; eauto|].
    destruct (negb given); [|simpl; eauto].
    destruct (xc_get_cpu_featureset xch XEN_SYSCTL_cpu_featureset_hvm host_nr)
      as [rc3 words].
    destruct (negb (rc3 =? 0)); simpl; eauto.
  - destruct (xc_domain_get_guest_width xch domid) as [rc1 w].
    destruct (negb (rc1 =? 0)); [simpl; eauto|].
    destruct (negb given); [|simpl; eauto].
    destruct (xc_get_cpu_featureset xch XEN_SYSCTL_cpu_featureset_pv host_nr)
      as [rc3 words].
    destruct (negb (rc3 =? 0)); simpl; eauto.
Qed.

(** Without a caller feature set the resolver always returns, and it holds
    one block exactly when [info->featureset] is set. *)
Lemma get_cpuid_domain_info_null (xch : xc_interface) (domid : Z) (h : heap) :
  exists rc info h',
    get_cpuid_domain_info xch domid empty_info None 0 h
      = Returns (rc, info, h') /\
    live h' = (live h + match featureset info with
                        | Some _ => 1 | None => 0 end)%nat.
Proof.
  prune.
  unfold get_cpuid_domain_info.
  destruct (xc_domain_getinfo xch domid) as [found di].
  destruct (negb (found =? 1) || negb (di_domid di =? domid))%bool.
  - do 3 eexists. split; [reflexivity|]. simpl. lia.
  - unfold malloc. destruct (malloc_ok (requests h)).
    + match goal with
      | |- context [get_cpuid_domain_info_tail ?x ?d ?i ?inf ?g ?n] =>
          destruct (tail_keeps_block x d i inf g n
                      (repeat 0 (Z.to_nat xc_get_cpu_featureset_size))
                      eq_refl) as [blk' Hblk];
          destruct (get_cpuid_domain_info_tail x d i inf g n)
            as [rc info'] eqn:Et
      end.
      simpl in Hblk. do 3 eexists. split; [reflexivity|].
      rewrite Hblk. simpl. lia.
    + do 3 eexists. split; [reflexivity|]. simpl. lia.
Qed.

Lemma live_free_info (info : cpuid_domain_info) (h : heap) (n : nat) :
  live h = (n + match featureset info with
                | Some _ => 1 | None => 0 end)%nat ->
  live (free_cpuid_domain_info info h) = n.
Proof.
  prune.
  unfold free_cpuid_domain_info, free. intros H.
  destruct (featureset info); simpl; lia.
Qed.

(** ** Check mode *)

Lemma no_strs_none (k : nat) : slot no_strs k = None.
Proof.
  prune.
  unfold slot, no_strs. destruct k as [|[|[|[|[|k]]]]]; reflexivity.
Qed.

Lemma xc_cpuid_check_unfold (input : cpuid_input) (config : strs) (h : heap) :
  exists rc ct h',
    check_regs 4 0 (cpuid input) config no_strs h = (rc, ct, h') /\
    List.length ct = 4%nat /\
    xc_cpuid_check input config h =
    if rc =? 0 then mkResult 0 ct [] h'
    else mkResult rc no_strs []
           (mkHeap (requests h') (live h' - count_some ct)).
Proof.
  prune.
  unfold xc_cpuid_check.
  destruct (check_regs 4 0 (cpuid input) config no_strs h)
    as [[rc ct] h'] eqn:E.
  exists rc, ct, h'. split; [reflexivity|].
  pose proof (check_regs_inv 4 0 _ _ _ _ _ _ _ E eq_refl eq_refl
                (fun k _ => no_strs_none k)) as (Hl & _).
  split; [assumption|].
  destruct (rc =? 0); [reflexivity|].
  now rewrite (release_all_spec ct h' Hl).
Qed.


(** C10.  When [xc_cpuid_check] succeeds, every register that has a
    directive gets a transformed string (33 bytes, NUL after the 32
    characters) that repeats the directive position by position, except
    that an 's' becomes '1' or '0' after the raw hardware bit of that
    position.  Every other character, 'x' included, is echoed: check mode
    never resolves an 'x'. *)
Theorem check_transformed_directive
    (input : cpuid_input) (config : strs) (h : heap)
    (i : nat) (cfg : list ascii) :
  let raw := cpuid input in
  let res := xc_cpuid_check input config h in
  dr_rc res = 0 ->
  (i < 4)%nat -> slot config i = Some cfg ->
  exists out,
    slot (dr_transformed res) i = Some out /\
    List.length out = 33%nat /\
    char_at out 32 = NUL /\
    forall j, (j < 32)%nat ->
      char_at out j =
      if Ascii.eqb (char_at cfg j) "s"
      then (if Z.testbit (reg_get raw i) (31 - Z.of_nat j)
            then "1"%char else "0"%char)
      else char_at cfg j.
Proof.
  prune.
  intros raw res. subst res.
  destruct (xc_cpuid_check_unfold input config h)
    as (rc & ct & h' & E & Hl & ->).
  pose proof (check_regs_inv 4 0 _ _ _ _ _ _ _ E eq_refl eq_refl
                (fun k _ => no_strs_none k))
    as (_ & _ & _ & H0 & _).
  destruct (Z.eqb_spec rc 0) as [->|Hne]; cbn [dr_rc dr_transformed];
    [|congruence].
  intros _ Hi Hc.
  destruct (H0 eq_refl i) as [_ Hge]. specialize (Hge ltac:(lia)).
  rewrite Hc in Hge. destruct Hge as (out & Hs & Hcb).
  apply check_bits_spec in Hcb; [|reflexivity].
  destruct Hcb as (Hlen & Hout & _).
  exists out. split; [assumption|]. split; [now rewrite Hlen|]. split.
  - rewrite Hout. reflexivity.
  - intros j Hj. rewrite Hout.
    assert (Nat.ltb j 32 = true) as -> by (apply Nat.ltb_lt; lia).
    assert (Nat.ltb j (List.length (repeat NUL 33)) = true) as ->
      by (apply Nat.ltb_lt; simpl; lia).
    cbn [Nat.leb andb]. unfold stored_char. subst raw.
    destruct (Ascii.eqb (char_at cfg j) "s"); [|reflexivity].
    destruct (Z.testbit (reg_get (cpuid input) i) (31 - Z.of_nat j));
      reflexivity.
Qed.

(** ** Set mode *)

(** The shape of a run of [xc_cpuid_set]: the resolver's answer, then the
    blend, then the programming call. *)
Lemma xc_cpuid_set_unfold (xch : xc_interface) (domid : Z)
    (input : cpuid_input) (config : strs) (h : heap) :
  exists rc0 info h1,
    get_cpuid_domain_info xch domid empty_info None 0 h
      = Returns (rc0, info, h1) /\
    ((rc0 <> 0 /\
      exists hf, live hf = live h /\
        xc_cpuid_set xch domid input config h
          = Returns (mkResult rc0 no_strs [] hf)) \/
     (rc0 = 0 /\
      exists rc r ct h2,
        set_regs 4 0 (xc_cpuid_policy info input (cpuid input)) config
                 (cpuid input) no_strs h1 = (rc, r, ct, h2) /\
        ((rc <> 0 /\
          exists hf, live hf = live h /\
            xc_cpuid_set xch domid input config h
              = Returns (mkResult rc no_strs [] hf)) \/
         (rc = 0 /\ xc_cpuid_do_domctl xch [] domid input r <> 0 /\
          exists hf, live hf = live h /\
            xc_cpuid_set xch domid input config h
              = Returns (mkResult (xc_cpuid_do_domctl xch [] domid input r)
                                  no_strs [] hf)) \/
         (rc = 0 /\ xc_cpuid_do_domctl xch [] domid input r = 0 /\
          exists hf, live hf = (live h + count_some ct)%nat /\
            xc_cpuid_set xch domid input config h
              = Returns (mkResult 0 ct [mkEntry domid input r] hf))))).
Proof.
  prune.
  destruct (get_cpuid_domain_info_null xch domid h)
    as (rc0 & info & h1 & Hget & Hlive1).
  exists rc0, info, h1. split; [assumption|].
  unfold xc_cpuid_set. rewrite Hget.
  destruct (Z.eqb_spec rc0 0) as [->|Hne0]; cbn [negb Z.eqb].
  2:{ left. split; [assumption|]. eexists. split; [|reflexivity].
      now apply live_free_info. }
  right. split; [reflexivity|].
  destruct (set_regs 4 0 (xc_cpuid_policy info input (cpuid input)) config
              (cpuid input) no_strs h1) as [[[rc r] ct] h2] eqn:E.
  exists rc, r, ct, h2. split; [reflexivity|].
  pose proof (set_regs_inv 4 0 _ _ _ _ _ _ _ _ _ E eq_refl eq_refl
                (fun k _ => no_strs_none k)) as (Hl & Hbal & _).
  change (count_some no_strs) with 0%nat in Hbal.
  destruct (Z.eq_dec rc 0) as [->|Hne].
  - cbn [Z.eqb].
    destruct (Z.eqb_spec (xc_cpuid_do_domctl xch [] domid input r) 0)
      as [Hd|Hd].
    + right; right. split; [reflexivity|]. split; [assumption|].
      eexists. split; [|reflexivity]. apply live_free_info. lia.
    + right; left. split; [reflexivity|]. split; [assumption|].
      rewrite (release_all_spec ct h2 Hl).
      eexists. split; [|reflexivity]. apply live_free_info.
      cbn [live]. lia.
  - left. split; [assumption|].
    pose proof (proj2 (Z.eqb_neq rc 0) Hne) as Hf.
    rewrite Hf. cbv iota. rewrite Hf.
    rewrite (release_all_spec ct h2 Hl).
    eexists. split; [|reflexivity]. apply live_free_info.
    cbn [live]. lia.
Qed.

Lemma set_val_cases (c : ascii) (raw pol : bool) :
  (c = "1"%char -> set_val c raw pol = true) /\
  (c = "0"%char -> set_val c raw pol = false) /\
  (c = "x"%char -> set_val c raw pol = pol) /\
  (c = "k"%char -> set_val c raw pol = raw) /\
  (c = "s"%char -> set_val c raw pol = raw).
Proof.
  prune.
  repeat split; intros ->; reflexivity.
Qed.

(** C1 (as amended).  When [xc_cpuid_set] succeeds it has programmed one
    quadruple [r] for the leaf.  A register without a directive is the
    policy's register as a whole.  In a register with a directive, bit
    [31 - j] is 1 for the character '1', 0 for '0', the policy's bit for
    'x', and the raw hardware bit for 'k' and also for 's' ("pass through"
    in the words of the function's header): the code has one and the same
    path for 'k' and 's'. *)
Theorem set_applies_directive
    (xch : xc_interface) (domid : Z) (input : cpuid_input) (config : strs)
    (h : heap) (res : directive_result) :
  xc_cpuid_set xch domid input config h = Returns res ->
  dr_rc res = 0 ->
  exists info h1 r,
    get_cpuid_domain_info xch domid empty_info None 0 h
      = Returns (0, info, h1) /\
    dr_programmed res = [mkEntry domid input r] /\
    let raw := cpuid input in
    let pol := xc_cpuid_policy info input raw in
    forall i, (i < 4)%nat ->
      match slot config i with
      | None => reg_get r i = reg_get pol i
      | Some cfg =>
          forall j, (j < 32)%nat ->
            let bit (x : regs) := Z.testbit (reg_get x i) (31 - Z.of_nat j) in
            (char_at cfg j = "1"%char -> bit r = true) /\
            (char_at cfg j = "0"%char -> bit r = false) /\
            (char_at cfg j = "x"%char -> bit r = bit pol) /\
            (char_at cfg j = "k"%char -> bit r = bit raw) /\
            (char_at cfg j = "s"%char -> bit r = bit raw)
      end.
Proof.
  prune.
  intros Hset Hrc.
  destruct (xc_cpuid_set_unfold xch domid input config h)
    as (rc0 & info & h1 & Hget & Hcases).
  destruct Hcases as [(Hne & hf & _ & E)|(-> & rc & r & ct & h2 & Hregs & Hc)].
  { rewrite E in Hset. injection Hset as <-. simpl in Hrc. contradiction. }
  destruct Hc as [(Hne & hf & _ & E)|[(-> & Hd & hf & _ & E)
                                     |(-> & Hd & hf & _ & E)]].
  { rewrite E in Hset. injection Hset as <-. simpl in Hrc. contradiction. }
  { rewrite E in Hset. injection Hset as <-. simpl in Hrc. contradiction. }
  rewrite E in Hset. injection Hset as <-.
  exists info, h1, r. split; [assumption|]. split; [reflexivity|].
  intros raw pol i Hi.
  pose proof (set_regs_inv 4 0 _ _ _ _ _ _ _ _ _ Hregs eq_refl eq_refl
                (fun k _ => no_strs_none k)) as (_ & _ & _ & H0).
  destruct (H0 eq_refl i) as [_ Hge]. specialize (Hge ltac:(lia)).
  destruct (slot config i) as [cfg|]; [|now destruct Hge].
  destruct Hge as (out & _ & Hsb).
  apply set_bits_spec in Hsb; [|reflexivity].
  destruct Hsb as (_ & Hbits & _).
  intros j Hj bit. unfold bit. rewrite (Hbits j Hj).
  assert (Nat.ltb j 0 = false) as -> by (apply Nat.ltb_ge; lia).
  apply set_val_cases.
Qed.

(** The transformed strings of a successful [xc_cpuid_set]: every
    character of the directive is echoed, except that an 's' becomes the
    digit of the bit applied there.  An 'x' stays an 'x'. *)
Lemma set_transformed_directive
    (xch : xc_interface) (domid : Z) (input : cpuid_input) (config : strs)
    (h : heap) (res : directive_result) (i : nat) (cfg : list ascii) :
  xc_cpuid_set xch domid input config h = Returns res ->
  dr_rc res = 0 ->
  (i < 4)%nat -> slot config i = Some cfg ->
  exists out,
    slot (dr_transformed res) i = Some out /\
    forall j, (j < 32)%nat ->
      char_at out j =
      if Ascii.eqb (char_at cfg j) "s"
      then (if Z.testbit (reg_get (cpuid input) i) (31 - Z.of_nat j)
            then "1"%char else "0"%char)
      else char_at cfg j.
Proof.
  prune.
  intros Hset Hrc Hi Hcfg.
  destruct (xc_cpuid_set_unfold xch domid input config h)
    as (rc0 & info & h1 & Hget & Hcases).
  destruct Hcases as [(Hne & hf & _ & E)|(-> & rc & r & ct & h2 & Hregs & Hc)].
  { rewrite E in Hset. injection Hset as <-. simpl in Hrc. contradiction. }
  destruct Hc as [(Hne & hf & _ & E)|[(-> & Hd & hf & _ & E)
                                     |(-> & Hd & hf & _ & E)]].
  { rewrite E in Hset. injection Hset as <-. simpl in Hrc. contradiction. }
  { rewrite E in Hset. injection Hset as <-. simpl in Hrc. contradiction. }
  rewrite E in Hset. injection Hset as <-. cbn [dr_transformed].
  pose proof (set_regs_inv 4 0 _ _ _ _ _ _ _ _ _ Hregs eq_refl eq_refl
                (fun k _ => no_strs_none k)) as (_ & _ & _ & H0).
  destruct (H0 eq_refl i) as [_ Hge]. specialize (Hge ltac:(lia)).
  rewrite Hcfg in Hge. destruct Hge as (out & Hs & Hsb).
  apply set_bits_spec in Hsb; [|reflexivity].
  destruct Hsb as (_ & _ & Hout & _).
  exists out. split; [assumption|]. intros j Hj. rewrite Hout.
  assert (Nat.ltb j 32 = true) as -> by (apply Nat.ltb_lt; lia).
  assert (Nat.ltb j (List.length (repeat NUL 33)) = true) as ->
    by (apply Nat.ltb_lt; simpl; lia).
  cbn [Nat.leb andb]. unfold stored_char, set_val.
  destruct (Ascii.eqb_spec (char_at cfg j) "s") as [->|Hns]; [|reflexivity].
  change (Ascii.eqb "s" "1") with false.
  change (Ascii.eqb "s" "0") with false.
  change (Ascii.eqb "s" "x") with false.
  destruct (Z.testbit (reg_get (cpuid input) i) (31 - Z.of_nat j));
    reflexivity.
Qed.

(** C6.  The transformed strings are all-or-nothing.  A failing
    [xc_cpuid_check] or [xc_cpuid_set] (whatever the cause: a violated
    expectation, a character outside the alphabet, a failed allocation, a
    failed resolution or a failed programming call) hands back four NULL
    slots and holds no block it allocated; a successful one hands back a
    string for exactly the registers that have a directive, and those are
    the only blocks it still holds.  [xc_cpuid_set] always returns. *)
Theorem directive_outputs_all_or_nothing
    (xch : xc_interface) (domid : Z) (input : cpuid_input) (config : strs)
    (h : heap) :
  (let res := xc_cpuid_check input config h in
   (dr_rc res <> 0 ->
    dr_transformed res = no_strs /\ live (dr_heap res) = live h) /\
   (dr_rc res = 0 ->
    (forall i, (i < 4)%nat ->
       slot (dr_transformed res) i = None <-> slot config i = None) /\
    live (dr_heap res) = (live h + count_some (dr_transformed res))%nat)) /\
  (exists res,
     xc_cpuid_set xch domid input config h = Returns res /\
     (dr_rc res <> 0 ->
      dr_transformed res = no_strs /\ dr_programmed res = [] /\
      live (dr_heap res) = live h) /\
     (dr_rc res = 0 ->
      (forall i, (i < 4)%nat ->
         slot (dr_transformed res) i = None <-> slot config i = None) /\
      live (dr_heap res) = (live h + count_some (dr_transformed res))%nat)).
Proof.
  prune.
  split.
  - intros res. subst res.
    destruct (xc_cpuid_check_unfold input config h)
      as (rc & ct & h' & E & Hl & ->).
    pose proof (check_regs_inv 4 0 _ _ _ _ _ _ _ E eq_refl eq_refl
                  (fun k _ => no_strs_none k))
      as (_ & Hbal & _ & H0 & _).
    change (count_some no_strs) with 0%nat in Hbal.
    destruct (Z.eqb_spec rc 0) as [->|Hne]; simpl.
    + split; [intros Hn; now contradiction Hn|]. intros _. split; [|lia].
      intros i Hi. destruct (H0 eq_refl i) as [_ Hge].
      specialize (Hge ltac:(lia)).
      destruct (slot config i) as [cfg|].
      * destruct Hge as (out & -> & _). split; discriminate.
      * rewrite Hge. tauto.
    + split; [|intros; contradiction]. intros _. split; [reflexivity|lia].
  - destruct (xc_cpuid_set_unfold xch domid input config h)
      as (rc0 & info & h1 & Hget & Hcases).
    destruct Hcases
      as [(Hne & hf & Hlive & E)|(-> & rc & r & ct & h2 & Hregs & Hc)].
    { eexists. split; [exact E|]. simpl. split; [auto|contradiction]. }
    destruct Hc as [(Hne & hf & Hlive & E)|[(-> & Hd & hf & Hlive & E)
                                           |(-> & Hd & hf & Hlive & E)]].
    { eexists. split; [exact E|]. simpl. split; [auto|contradiction]. }
    { eexists. split; [exact E|]. simpl. split; [auto|contradiction]. }
    eexists. split; [exact E|]. simpl.
    split; [intros Hn; now contradiction Hn|]. intros _.
    split; [|assumption].
    pose proof (set_regs_inv 4 0 _ _ _ _ _ _ _ _ _ Hregs eq_refl eq_refl
                  (fun k _ => no_strs_none k)) as (_ & _ & _ & H0).
    intros i Hi. destruct (H0 eq_refl i) as [_ Hge].
    specialize (Hge ltac:(lia)).
    destruct (slot config i) as [cfg|].
    + destruct Hge as (out & -> & _). split; discriminate.
    + destruct Hge as [-> _]. tauto.
Qed.

(** ** The Policy Engine *)

Lemma land_low31_not_1 (leaf : Z) :
  0 <= leaf < 2 ^ 32 -> leaf <> 0x00000001 -> leaf <> 0x80000001 ->
  Z.land leaf 0x7fffffff <> 1.
Proof.
  prune.
  intros Hr H1 H2. change 0x7fffffff with (Z.ones 31).
  rewrite Z.land_ones by lia.
  pose proof (Z.div_mod leaf (2 ^ 31) ltac:(lia)) as Hdm.
  assert (0 <= leaf / 2 ^ 31 < 2).
  { split; [apply Z.div_pos; lia|].
    apply Z.div_lt_upper_bound; [lia|]. simpl in *. lia. }
  intros E. rewrite E in Hdm.
  assert (leaf / 2 ^ 31 = 0 \/ leaf / 2 ^ 31 = 1) as [Hq|Hq] by lia;
    rewrite Hq in Hdm; simpl in Hdm; lia.
Qed.

(** C4.  With [xfeature_mask == 0] the policy's answer for leaf 0xd is the
    all-zero quadruple, for every sub-leaf (0 to 63 and any other), every
    raw quadruple, both guest types and every vendor. *)
Theorem xsave_leaf_zero_without_xstate
    (info : cpuid_domain_info) (input : cpuid_input) (r : regs) :
  xfeature_mask info = 0 ->
  input0 input = 0x0000000d ->
  xc_cpuid_policy info input r = zero_regs.
Proof.
  prune.
  intros Hm Hl. destruct input as [leaf sub]. simpl in Hl. subst leaf.
  unfold xc_cpuid_policy, xc_cpuid_hvm_policy, xc_cpuid_pv_policy,
    xc_cpuid_config_xsave.
  cbn [input0 input1]. rewrite Hm.
  change (Z.land 13 4294901760 =? 1073741824) with false.
  change (Z.land 13 2147483647 =? 1) with false.
  cbn -[Z.land Z.lor U32.shl U32.add].
  destruct (hvm info); [|reflexivity].
  destruct (vendor_eqb (vendor info) VENDOR_AMD); reflexivity.
Qed.

(** C8 (as amended).  For a leaf in the hypervisor range (top 16 bits
    0x4000) the policy's answer is the all-zero quadruple, the sub-leaf
    count in EAX[7:0] included, whatever the guest type, the vendor and the
    raw quadruple are. *)
Theorem hypervisor_leaves_zero
    (info : cpuid_domain_info) (input : cpuid_input) (r : regs) :
  Z.land (input0 input) 0xffff0000 = 0x40000000 ->
  xc_cpuid_policy info input r = zero_regs.
Proof.
  prune.
  intros Hl. unfold xc_cpuid_policy. rewrite Hl. reflexivity.
Qed.

(** C2 (as amended).  Default-deny is a rule of the HVM table only.
    - HVM: a leaf that has no rule of its own and is not one of the listed
      pass-through leaves is answered with the all-zero quadruple, whatever
      the raw quadruple is.  A pass-through leaf leaves the HVM table as the
      hardware gave it and is then handed to the vendor function; 0xa,
      0x80000002-4, 0x80000006 and 0x8000001c come out unmodified for every
      vendor.
    - PV: the table has no default.  Leaves 5, 0xa, 0xb, 0x8000000a,
      0x8000001b, 0x8000001c and 0x8000001e are zeroed; any other leaf
      without a PV rule (outside the hypervisor range) is answered with the
      raw quadruple, unmodified. *)
Theorem leaves_without_rule
    (info : cpuid_domain_info) (input : cpuid_input) (r : regs) :
  let leaf := input0 input in
  (hvm info = true ->
   leaf_in (hvm_rule_leaves ++ hvm_passthrough_leaves) leaf = false ->
   xc_cpuid_policy info input r = zero_regs) /\
  (hvm info = true ->
   leaf_in hvm_passthrough_leaves leaf = true ->
   xc_cpuid_policy info input r =
   if vendor_eqb (vendor info) VENDOR_AMD
   then amd_xc_cpuid_policy info input r
   else intel_xc_cpuid_policy info input r) /\
  (hvm info = true ->
   leaf_in hvm_untouched_leaves leaf = true ->
   xc_cpuid_policy info input r = r) /\
  (hvm info = false ->
   leaf_in pv_zeroed_leaves leaf = true ->
   xc_cpuid_policy info input r = zero_regs) /\
  (hvm info = false ->
   0 <= leaf < 2 ^ 32 ->
   Z.land leaf 0xffff0000 <> 0x40000000 ->
   leaf_in (pv_rule_leaves ++ pv_zeroed_leaves) leaf = false ->
   xc_cpuid_policy info input r = r).
Proof.
  prune.
  destruct input as [leaf sub]. cbn [input0].
  assert (Hmember : forall L, leaf_in L leaf = true ->
                      exists c, In c L /\ leaf = c).
  { intros L HL. unfold leaf_in in HL. apply existsb_exists in HL.
    destruct HL as (c & Hc & E). apply Z.eqb_eq in E. eauto. }
  split; [|split; [|split; [|split]]].
  - intros Hh Hn. unfold xc_cpuid_policy. rewrite Hh.
    destruct (Z.land (input0 (mkInput leaf sub)) 0xffff0000 =? 0x40000000);
      [reflexivity|].
    unfold xc_cpuid_hvm_policy, amd_xc_cpuid_policy, intel_xc_cpuid_policy.
    cbn [input0 input1]. leaf_facts Hn.
    cbn [orb]. destruct (vendor_eqb (vendor info) VENDOR_AMD); reflexivity.
  - intros Hh Hp. unfold xc_cpuid_policy. rewrite Hh.
    destruct (Hmember _ Hp) as (c & Hc & ->). simpl in Hc.
    decompose [or] Hc; try contradiction; subst c; reflexivity.
  - intros Hh Hp. unfold xc_cpuid_policy. rewrite Hh.
    destruct (Hmember _ Hp) as (c & Hc & ->). simpl in Hc.
    decompose [or] Hc; try contradiction; subst c;
      unfold xc_cpuid_hvm_policy; cbn -[Z.land Z.lor U32.shl U32.add];
      destruct (vendor_eqb (vendor info) VENDOR_AMD); reflexivity.
  - intros Hh Hp. unfold xc_cpuid_policy. rewrite Hh.
    destruct (Hmember _ Hp) as (c & Hc & ->). simpl in Hc.
    decompose [or] Hc; try contradiction; subst c; reflexivity.
  - intros Hh Hr Hhyp Hn. unfold xc_cpuid_policy. rewrite Hh.
    cbn [input0].
    destruct (Z.eqb_spec (Z.land leaf 0xffff0000) 0x40000000);
      [contradiction|].
    unfold xc_cpuid_pv_policy. cbn [input0 input1].
    assert (H1 : leaf <> 1 /\ leaf <> 0x80000001).
    { unfold leaf_in in Hn. simpl in Hn.
      repeat rewrite orb_false_iff in Hn.
      split; intros ->; simpl in Hn; intuition discriminate. }
    destruct (Z.eqb_spec (Z.land leaf 0x7fffffff) 1) as [E|_].
    { exfalso. revert E. apply land_low31_not_1; tauto. }
    leaf_facts Hn. cbn [orb]. destruct r; reflexivity.
Qed.

(** ** The traversal *)

Lemma high_bit_test (x : Z) :
  0 <= x < 2 ^ 32 -> (Z.land x 0x80000000 =? 0) = (x <? 0x80000000).
Proof.
  prune.
  intros Hx. change 0x80000000 with (2 ^ 31).
  rewrite land_pow2 by lia.
  destruct (Z.testbit x 31) eqn:Hb.
  - destruct (Z.ltb_spec x (2 ^ 31)) as [Hlt|Hge]; [|reflexivity].
    rewrite Z.bits_above_log2 in Hb; [discriminate|lia|].
    destruct (Z.eq_dec x 0) as [->|Hnz]; [simpl; lia|].
    apply Z.log2_lt_pow2; lia.
  - destruct (Z.ltb_spec x (2 ^ 31)) as [Hlt|Hge]; [reflexivity|].
    exfalso. assert (Z.testbit x 31 = true) as Ht; [|congruence].
    apply Z.testbit_true; [lia|].
    assert (x / 2 ^ 31 = 1) as E.
    { assert (1 <= x / 2 ^ 31) by (apply Z.div_le_lower_bound; lia).
      assert (x / 2 ^ 31 < 2) by (apply Z.div_lt_upper_bound; simpl in *; lia).
      lia. }
    rewrite E. reflexivity.
Qed.

Lemma u32_add_small (x y : Z) : 0 <= x + y < 2 ^ 32 -> U32.add x y = x + y.
Proof.
  prune.
  intros H. unfold U32.add, U32.wrap, U32.modulus. now apply Z.mod_small.
Qed.

(** The bottom of the loop body in plain arithmetic, for an input the
    traversal can be at. *)
Lemma next_input_arith (base_max ext_max in0 in1 : Z) (r : regs) :
  0 <= in0 < 2 ^ 32 - 1 ->
  next_input base_max ext_max (mkInput in0 in1) r =
  let s := if in0 =? 4 then U32.add in1 1 else in1 in
  if (in0 =? 4) && negb (Z.land (eax r) 0x1f =? 0) then Some (mkInput in0 s)
  else if (in0 =? 0xd) && (s <? 63) then Some (mkInput in0 (U32.add s 1))
  else
    let n := in0 + 1 in
    let n := if (n <? 0x80000000) && (n >? base_max) then 0x80000000 else n in
    if (0x80000000 <=? n) && (n >? ext_max) then None
    else Some (mkInput n (if (n =? 4) || (n =? 7) || (n =? 0xd)
                          then 0 else XEN_CPUID_INPUT_UNUSED)).
Proof.
  prune.
  intros Hr. unfold next_input. cbn [input0 input1].
  rewrite (u32_add_small in0 1) by lia.
  rewrite (high_bit_test (in0 + 1)) by lia.
  destruct ((in0 =? 4) && negb (Z.land (eax r) 0x1f =? 0))%bool;
    [reflexivity|].
  destruct ((in0 =? 0xd) &&
            ((if in0 =? 4 then U32.add in1 1 else in1) <? 63))%bool;
    [reflexivity|].
  cbv zeta.
  set (n := if ((in0 + 1 <? 0x80000000) && (in0 + 1 >? base_max))%bool
            then 0x80000000 else in0 + 1).
  assert (Hn : 0 <= n < 2 ^ 32).
  { unfold n.
    destruct ((in0 + 1 <? 0x80000000) && (in0 + 1 >? base_max))%bool; lia. }
  rewrite (high_bit_test n Hn).
  destruct (Z.ltb_spec n 0x80000000), (Z.leb_spec 0x80000000 n);
    try lia; reflexivity.
Qed.

(** The AMD rule empties eax of leaf 4 for an HVM context. *)
Lemma amd_hvm_leaf4_eax (info : cpuid_domain_info) (sub : Z) (r : regs) :
  vendor info = VENDOR_AMD -> hvm info = true ->
  eax (xc_cpuid_policy info (mkInput 4 sub) r) = 0.
Proof.
  prune.
  intros Hv Hh. unfold xc_cpuid_policy, xc_cpuid_hvm_policy.
  rewrite Hh, Hv. reflexivity.
Qed.

(** One iteration from a valid input, for an AMD HVM context: the loop ends
    or moves to a valid input of smaller rank, never back to leaf 4. *)
Lemma next_input_amd_hvm (base_max ext_max : Z) (i : cpuid_input) (r : regs) :
  0 <= base_max <= 0xd -> ext_max <= 0x8000001c ->
  valid_input base_max ext_max i ->
  (input0 i = 4 -> eax r = 0) ->
  match next_input base_max ext_max i r with
  | None => input0 i < 4 -> base_max < 4
  | Some i' =>
      valid_input base_max ext_max i' /\
      traversal_rank i' < traversal_rank i /\
      input0 i <= input0 i' /\
      (input0 i' = 4 -> input0 i = 3) /\
      (input0 i < 4 -> 4 <= base_max -> input0 i' <= 4)
  end.
Proof.
  prune.
  intros Hb He Hv H4. destruct i as [in0 in1].
  unfold valid_input in Hv. cbn [input0 input1] in *.
  rewrite next_input_arith by lia.
  assert (H4' : in0 = 4 -> (Z.land (eax r) 0x1f =? 0) = true).
  { intros E. rewrite (H4 E). reflexivity. }
  cbv zeta.
  destruct (Z.eqb_spec in0 4) as [E4|N4].
  - rewrite (H4' E4). cbn [negb andb]. subst in0.
    destruct Hv as [(Hr & Hs & _)|Hv]; [|lia].
    rewrite (Hs eq_refl).
    change (4 =? 13) with false. cbn [andb].
    unfold valid_input, traversal_rank. cbn [input0 input1].
    zbool; repeat split; try lia; intros; lia.
  - cbn [andb].
    destruct (Z.eqb_spec in0 0xd) as [Ed|Nd].
    + subst in0. destruct Hv as [(Hr & _ & Hs)|Hv]; [|lia].
      specialize (Hs eq_refl).
      destruct (Z.ltb_spec in1 63) as [Hlt|Hge]; cbn [andb].
      * rewrite u32_add_small by lia.
        unfold valid_input, traversal_rank. cbn [input0 input1].
        zbool; repeat split; try lia; intros; lia.
      * unfold valid_input, traversal_rank. cbn [input0 input1].
        zbool; repeat split; try lia; intros; lia.
    + cbn [andb]. unfold valid_input, traversal_rank. cbn [input0 input1].
      destruct Hv as [(Hr & _ & _)|Hv];
        zbool; repeat split; try lia; intros; lia.
Qed.

Lemma leaf4_visits_cons (i : cpuid_input) (l : list cpuid_input) :
  leaf4_visits (i :: l) =
  if input0 i =? 4 then i :: leaf4_visits l else leaf4_visits l.
Proof. prune. reflexivity. Qed.

(** The loop for an AMD HVM context, from any input it can be at: it
    returns within the fuel the rank asks for, and of leaf 4 it visits
    sub-leaf 0 and nothing else. *)
Lemma apply_loop_amd_hvm (xch : xc_interface) (domid : Z)
    (info : cpuid_domain_info) (base_max ext_max : Z) :
  vendor info = VENDOR_AMD -> hvm info = true ->
  0 <= base_max <= 0xd -> ext_max <= 0x8000001c ->
  forall (fuel : nat) (i : cpuid_input) (done : list cpuid_entry)
         (visited : list cpuid_input),
    valid_input base_max ext_max i ->
    traversal_rank i < Z.of_nat fuel ->
    exists t new,
      apply_loop fuel xch domid info base_max ext_max i done visited
        = Returns t /\
      tr_visited t = visited ++ new /\
      (4 < input0 i -> leaf4_visits new = []) /\
      (input0 i = 4 -> leaf4_visits new = [mkInput 4 0]) /\
      (input0 i < 4 ->
       (leaf4_visits new = [] \/ leaf4_visits new = [mkInput 4 0]) /\
       (tr_rc t = 0 -> 4 <= base_max ->
        leaf4_visits new = [mkInput 4 0])).
Proof.
  prune.
  intros Hv Hh Hb He.
  induction fuel as [|fuel IH]; intros i done visited Hval Hrank.
  - exfalso. assert (0 <= traversal_rank i); [|lia].
    destruct i as [in0 in1]. unfold valid_input, traversal_rank in *.
    cbn [input0 input1] in *. zbool.
  - cbn [apply_loop].
    set (r := xc_cpuid_policy info i (cpuid i)).
    set (rc := if regs_nonzero r
               then xc_cpuid_do_domctl xch done domid i r else 0).
    assert (Hi4 : input0 i = 4 -> i = mkInput 4 0).
    { intros E. destruct i as [in0 in1]. cbn [input0] in E. subst in0.
      destruct Hval as [(_ & Hs & _)|Hx]; cbn [input0 input1] in *; [|lia].
      now rewrite Hs. }
    destruct (Z.eqb_spec rc 0) as [Hrc|Hrc]; cbn [negb].
    2:{ exists (mkTraversal rc done (visited ++ [i])), [i].
        split; [reflexivity|]. split; [reflexivity|].
        rewrite leaf4_visits_cons.
        destruct (Z.eqb_spec (input0 i) 4) as [E|N]; cbn [leaf4_visits filter].
        - rewrite <- (Hi4 E). repeat split; intros; try lia; auto.
        - repeat split; intros; try lia; auto. cbn [tr_rc] in *. lia. }
    pose proof (next_input_amd_hvm base_max ext_max i r Hb He Hval) as Hstep.
    assert (H4 : input0 i = 4 -> eax r = 0).
    { intros E. unfold r. rewrite (Hi4 E). now apply amd_hvm_leaf4_eax. }
    specialize (Hstep H4).
    destruct (next_input base_max ext_max i r) as [i'|].
    + destruct Hstep as (Hval' & Hrank' & Hmono & Hfrom3 & Hto4).
      destruct (IH i'
                  (if regs_nonzero r then done ++ [mkEntry domid i r]
                   else done)
                  (visited ++ [i]) Hval' ltac:(lia))
        as (t & new & Hrun & Hvis & Hgt & Heq & Hlt).
      exists t, (i :: new). split; [exact Hrun|].
      split; [rewrite Hvis, <- app_assoc; reflexivity|].
      rewrite leaf4_visits_cons.
      destruct (Z.eqb_spec (input0 i) 4) as [E|N].
      * rewrite <- (Hi4 E).
        assert (4 < input0 i').
        { destruct (Z.eq_dec (input0 i') 4) as [E'|N'];
            [specialize (Hfrom3 E')|]; lia. }
        rewrite (Hgt ltac:(lia)).
        repeat split; intros; try lia; auto.
      * split; [intros; apply Hgt; lia|]. split; [intros; lia|].
        intros Hi.
        assert (Hcases : input0 i' < 4 \/ input0 i' = 4 \/ 4 < input0 i')
          by lia.
        destruct Hcases as [C|[C|C]].
        -- apply Hlt. assumption.
        -- rewrite (Heq C). auto.
        -- rewrite (Hgt C). split; [auto|]. intros _ Hb4.
           specialize (Hto4 Hi Hb4). lia.
    + exists (mkTraversal 0 (if regs_nonzero r
                             then done ++ [mkEntry domid i r] else done)
                          (visited ++ [i])), [i].
      split; [reflexivity|]. split; [reflexivity|].
      rewrite leaf4_visits_cons.
      destruct (Z.eqb_spec (input0 i) 4) as [E|N]; cbn [leaf4_visits filter].
      * rewrite <- (Hi4 E). repeat split; intros; try lia; auto.
      * repeat split; intros; try lia; auto.
Qed.

(** C9 (as amended).  For an AMD HVM domain context the traversal of
    [xc_cpuid_apply_policy] returns (128 iterations are enough), and of
    leaf 4 it visits sub-leaf 0 and no other: the AMD rule empties eax, so
    the test on the low 5 bits of the policy's eax never repeats the leaf.
    Sub-leaf 0 is visited whenever the traversal runs to its end and the
    hardware reports a maximum basic leaf of 4 or more; the only other
    possibility is that leaf 4 is not reached at all.  The vendor rule is
    part of the HVM table only, so nothing of this is promised for a PV
    context. *)
Theorem amd_hvm_leaf4_visited_once
    (xch : xc_interface) (domid : Z) (caller_set : option (list Z))
    (caller_nr : Z) (h : heap) (info : cpuid_domain_info) (h1 : heap)
    (fuel : nat) :
  0 <= eax (cpuid (mkInput 0 0)) ->
  get_cpuid_domain_info xch domid empty_info caller_set caller_nr h
    = Returns (0, info, h1) ->
  vendor info = VENDOR_AMD -> hvm info = true ->
  (128 <= fuel)%nat ->
  exists t h',
    xc_cpuid_apply_policy fuel xch domid caller_set caller_nr h
      = Returns (t, h') /\
    (leaf4_visits (tr_visited t) = [] \/
     leaf4_visits (tr_visited t) = [mkInput 4 0]) /\
    (tr_rc t = 0 -> 4 <= eax (cpuid (mkInput 0 0)) ->
     leaf4_visits (tr_visited t) = [mkInput 4 0]).
Proof.
  prune.
  intros Hhw Hget Hv Hh Hfuel.
  unfold xc_cpuid_apply_policy. rewrite Hget. cbn [Z.eqb negb].
  set (base_max := base_max_of (cpuid (mkInput 0 0))).
  set (ext_max := ext_max_of (vendor info) (cpuid (mkInput 0x80000000 0))).
  assert (Hb : 0 <= base_max <= 0xd).
  { unfold base_max, base_max_of, DEF_MAX_BASE. zbool. }
  assert (He : ext_max <= 0x8000001c).
  { unfold ext_max, ext_max_of, DEF_MAX_AMDEXT. rewrite Hv. cbn [vendor_eqb].
    zbool. }
  destruct (apply_loop_amd_hvm xch domid info base_max ext_max Hv Hh Hb He
              fuel (mkInput 0 XEN_CPUID_INPUT_UNUSED) [] [])
    as (t & new & Hrun & Hvis & _ & _ & Hlt).
  { left. cbn [input0 input1]. repeat split; lia. }
  { unfold traversal_rank. cbn [input0 input1]. simpl. lia. }
  rewrite Hrun. exists t, (free_cpuid_domain_info info h1).
  split; [reflexivity|]. rewrite Hvis. cbn [app].
  destruct (Hlt ltac:(cbn [input0]; lia)) as [Hor Hex].
  split; [assumption|]. intros Hrc H4. apply Hex; [assumption|].
  unfold base_max, base_max_of, DEF_MAX_BASE. zbool.
Qed.

(** ** The resolver and a longer caller set *)

(** The loop that checks for truncated bits starts at the caller's length
    and stops at the host's, so it has nothing to do as soon as the caller's
    set is at least as long as the host's. *)
Lemma truncated_bits_skips_excess (host_nr caller_nr : Z) (fs : list Z) :
  host_nr <= caller_nr ->
  truncated_bits (Z.to_nat (host_nr - caller_nr)) caller_nr fs
    = Returns false.
Proof.
  prune. intros H. replace (Z.to_nat (host_nr - caller_nr)) with 0%nat by lia.
  reflexivity.
Qed.

(** So the words of a caller set beyond the host's length are never
    looked at: two caller sets that agree on the host's words get the same
    answer, whatever the rest holds. *)
Lemma resolver_ignores_excess_words (xch : xc_interface) (domid : Z)
    (fs1 fs2 : list Z) (caller_nr : Z) (h : heap) :
  0 <= FEATURESET_NR_ENTRIES <= caller_nr ->
  caller_nr <= Z.of_nat (List.length fs1) ->
  caller_nr <= Z.of_nat (List.length fs2) ->
  firstn (Z.to_nat FEATURESET_NR_ENTRIES) fs1
    = firstn (Z.to_nat FEATURESET_NR_ENTRIES) fs2 ->
  get_cpuid_domain_info xch domid empty_info (Some fs1) caller_nr h
    = get_cpuid_domain_info xch domid empty_info (Some fs2) caller_nr h.
Proof.
  intros Hnr H1 H2 Hsame. unfold get_cpuid_domain_info.
  destruct (xc_domain_getinfo xch domid) as [found di].
  destruct (negb (found =? 1) || negb (di_domid di =? domid))%bool;
    [reflexivity|].
  destruct (malloc h) as [ok h']. destruct ok; [|reflexivity].
  unfold xc_get_cpu_featureset_size.
  rewrite Z.min_l by lia. unfold memcpy_words.
  assert ((Z.of_nat (List.length fs1) <? FEATURESET_NR_ENTRIES) = false)
    as ->
    by (apply Z.ltb_ge; lia).
  assert ((Z.of_nat (List.length fs2) <? FEATURESET_NR_ENTRIES) = false)
    as ->
    by (apply Z.ltb_ge; lia).
  rewrite !truncated_bits_skips_excess by lia.
  rewrite Hsame. reflexivity.
Qed.

(** ** Register values stay 32 bits wide *)

Lemma u32_iff_land (x : Z) : u32 x <-> Z.land x (Z.ones 32) = x.
Proof.
  prune. unfold u32. rewrite Z.land_ones by lia. split.
  - intros H. now apply Z.mod_small.
  - intros H. rewrite <- H. apply Z.mod_pos_bound. lia.
Qed.

Lemma u32_land_l (a b : Z) : u32 a -> u32 (Z.land a b).
Proof.
  prune. rewrite !u32_iff_land. intros H.
  rewrite <- Z.land_assoc, (Z.land_comm b), Z.land_assoc, H. reflexivity.
Qed.

Lemma u32_land_r (a b : Z) : u32 b -> u32 (Z.land a b).
Proof.
  prune. rewrite Z.land_comm. apply u32_land_l.
Qed.

Lemma u32_lor (a b : Z) : u32 a -> u32 b -> u32 (Z.lor a b).
Proof.
  prune. rewrite !u32_iff_land. intros Ha Hb.
  rewrite Z.land_lor_distr_l, Ha, Hb. reflexivity.
Qed.

Lemma u32_lxor (a b : Z) : u32 a -> u32 b -> u32 (Z.lxor a b).
Proof.
  prune. rewrite !u32_iff_land. intros Ha Hb.
  apply Z.bits_inj'. intros n Hn.
  rewrite Z.land_spec, Z.lxor_spec.
  apply (f_equal (fun z => Z.testbit z n)) in Ha, Hb.
  rewrite Z.land_spec in Ha, Hb.
  destruct (Z.testbit a n), (Z.testbit b n), (Z.testbit (Z.ones 32) n);
    simpl in *; congruence.
Qed.

Lemma u32_wrap (x : Z) : u32 (U32.wrap x).
Proof.
  prune. unfold u32, U32.wrap, U32.modulus. apply Z.mod_pos_bound. lia.
Qed.

Lemma u32_add (x y : Z) : u32 (U32.add x y).
Proof. prune. apply u32_wrap. Qed.

Lemma u32_shl (x n : Z) : u32 (U32.shl x n).
Proof. prune. apply u32_wrap. Qed.

Lemma u32_bitmaskof (idx : Z) : u32 (bitmaskof idx).
Proof. prune. apply u32_shl. Qed.

Lemma u32_not (x : Z) : u32 x -> u32 (U32.not x).
Proof.
  prune. intros H. apply u32_lxor; [assumption|].
  unfold u32, U32.max_unsigned. lia.
Qed.

(** [clear_bit] gives a 32-bit value whatever it is applied to. *)
Lemma u32_clear_bit (idx dst : Z) : u32 (clear_bit idx dst).
Proof.
  prune. apply u32_land_r, u32_not, u32_bitmaskof.
Qed.

Lemma u32_set_bit (idx dst : Z) : u32 dst -> u32 (set_bit idx dst).
Proof.
  prune. intros H. apply u32_lor; [assumption|apply u32_bitmaskof].
Qed.

Lemma u32_lor_all_from (ms : list Z) (acc : Z) :
  u32 acc -> Forall u32 ms -> u32 (fold_left Z.lor ms acc).
Proof.
  prune. revert acc. induction ms as [|m ms IH]; intros acc Ha Hms.
  - exact Ha.
  - inversion Hms; subst. simpl. apply IH; [now apply u32_lor|assumption].
Qed.

Lemma u32_lor_all (ms : list Z) : Forall u32 ms -> u32 (lor_all ms).
Proof.
  prune. apply u32_lor_all_from. unfold u32. lia.
Qed.

Lemma u32_const (c : Z) : (0 <=? c) && (c <? 2 ^ 32) = true -> u32 c.
Proof.
  prune. intros H. apply andb_true_iff in H. destruct H as [H1 H2].
  apply Z.leb_le in H1. apply Z.ltb_lt in H2. split; assumption.
Qed.

Lemma u32_clear_feats (fs : list cpufeature) (dst : Z) :
  u32 dst -> u32 (clear_feats fs dst).
Proof.
  prune. unfold clear_feats. revert dst.
  induction fs as [|f fs IH]; intros dst H; simpl; [assumption|].
  apply IH. apply u32_clear_bit.
Qed.

Ltac u32_auto :=
  repeat first
    [ assumption
    | apply u32_add | apply u32_shl | apply u32_bitmaskof
    | apply u32_clear_bit | apply u32_set_bit | apply u32_clear_feats
    | apply u32_lor | apply u32_lor_all
    | apply Forall_cons | apply Forall_nil
    | apply u32_const; reflexivity
    | apply u32_land_l; solve [u32_auto]
    | apply u32_land_r; solve [u32_auto] ].

Ltac regs_u32_goal :=
  try assumption;
  repeat match goal with
         | H : regs_u32 _ |- _ => destruct H as (? & ? & ? & ?)
         end;
  unfold regs_u32, zero_regs, feat, clear_feat, set_feat;
  cbn [eax ebx ecx edx] in *;
  (split; [|split; [|split]]); u32_auto.

Ltac regs_u32_auto :=
  cbv beta iota zeta; split_ifs; cbv beta iota zeta; regs_u32_goal.

Lemma xsave_max_size_u32 (n : nat) (from acc : Z) :
  u32 acc -> u32 (xsave_max_size n from acc).
Proof.
  revert from acc. induction n as [|n IH]; intros from acc H; simpl;
    [assumption|].
  apply IH. destruct (_ >? _); [apply u32_add|assumption].
Qed.

Lemma amd_policy_u32 (info : cpuid_domain_info) (input : cpuid_input)
    (r : regs) :
  regs_u32 r -> regs_u32 (amd_xc_cpuid_policy info input r).
Proof.
  intros H. unfold amd_xc_cpuid_policy, DEF_MAX_AMDEXT. regs_u32_auto.
Qed.

Lemma intel_policy_u32 (info : cpuid_domain_info) (input : cpuid_input)
    (r : regs) :
  regs_u32 r -> regs_u32 (intel_xc_cpuid_policy info input r).
Proof.
  intros H. unfold intel_xc_cpuid_policy, DEF_MAX_INTELEXT. regs_u32_auto.
Qed.

Lemma xsave_policy_u32 (info : cpuid_domain_info) (input : cpuid_input)
    (r : regs) :
  regs_u32 r -> regs_u32 (xc_cpuid_config_xsave info input r).
Proof.
  intros H. unfold xc_cpuid_config_xsave.
  pose proof (xsave_max_size_u32 62 2 0 ltac:(apply u32_const; reflexivity)).
  regs_u32_auto.
Qed.

Lemma hvm_policy_u32 (info : cpuid_domain_info) (input : cpuid_input)
    (r : regs) :
  regs_u32 r -> regs_u32 (xc_cpuid_hvm_policy info input r).
Proof.
  intros H. unfold xc_cpuid_hvm_policy. cbv zeta.
  match goal with
  | |- regs_u32 (if _ then amd_xc_cpuid_policy _ _ ?x
                 else intel_xc_cpuid_policy _ _ ?x) =>
      assert (Hx : regs_u32 x)
  end.
  { pose proof (xsave_policy_u32 info input r H).
    unfold DEF_MAX_BASE. regs_u32_auto. }
  destruct (vendor_eqb (vendor info) VENDOR_AMD);
    [now apply amd_policy_u32 | now apply intel_policy_u32].
Qed.

Lemma pv_policy_u32 (info : cpuid_domain_info) (input : cpuid_input)
    (r : regs) :
  regs_u32 r -> regs_u32 (xc_cpuid_pv_policy info input r).
Proof.
  intros H. unfold xc_cpuid_pv_policy.
  match goal with
  | |- context [xc_cpuid_config_xsave info input ?x] =>
      assert (Hx : regs_u32 x -> regs_u32 (xc_cpuid_config_xsave info input x))
        by apply xsave_policy_u32;
      generalize dependent (xc_cpuid_config_xsave info input x)
  end.
  intros xs Hxs.
  cbv beta iota zeta. split_ifs; cbv beta iota zeta;
    try (apply Hxs); split_ifs; regs_u32_goal.
Qed.

(** X1.  The policy keeps register values within 32 bits: a quadruple of
    32-bit values in, a quadruple of 32-bit values out, for every context,
    leaf and sub-leaf, whatever the feature numbering and the hardware
    are. *)
Theorem policy_keeps_u32 (info : cpuid_domain_info) (input : cpuid_input)
    (r : regs) :
  regs_u32 r -> regs_u32 (xc_cpuid_policy info input r).
Proof.
  intros H. unfold xc_cpuid_policy.
  destruct (Z.land (input0 input) 0xffff0000 =? 0x40000000).
  - unfold regs_u32, zero_regs, u32. cbn. lia.
  - destruct (hvm info); [now apply hvm_policy_u32|now apply pv_policy_u32].
Qed.

(** ** Single rules of the Policy Engine *)

Lemma land_31_range (idx : Z) : 0 <= Z.land idx 31 < 32.
Proof.
  prune. change 31 with (Z.ones 5). rewrite Z.land_ones by lia.
  apply Z.mod_pos_bound. lia.
Qed.

Lemma bitmaskof_pow2 (idx : Z) : bitmaskof idx = 2 ^ Z.land idx 31.
Proof.
  prune. unfold bitmaskof. apply shl_1_small, land_31_range.
Qed.

Lemma testbit_set_bit_any (idx x m : Z) :
  0 <= m ->
  Z.testbit (set_bit idx x) m =
  if m =? Z.land idx 31 then true else Z.testbit x m.
Proof.
  prune. intros Hm. pose proof (land_31_range idx).
  unfold set_bit. rewrite bitmaskof_pow2, Z.lor_spec, Z.pow2_bits_eqb by lia.
  rewrite (Z.eqb_sym m). destruct (Z.land idx 31 =? m);
    [apply orb_true_r|apply orb_false_r].
Qed.

Lemma testbit_clear_bit_any (idx x m : Z) :
  0 <= m < 32 ->
  Z.testbit (clear_bit idx x) m =
  if m =? Z.land idx 31 then false else Z.testbit x m.
Proof.
  prune. intros Hm. pose proof (land_31_range idx).
  unfold clear_bit, U32.not, U32.max_unsigned.
  rewrite bitmaskof_pow2, Z.land_spec, Z.lxor_spec, Z.pow2_bits_eqb by lia.
  change 0xFFFFFFFF with (Z.ones 32). rewrite Z.ones_spec_low by lia.
  rewrite (Z.eqb_sym m). destruct (Z.land idx 31 =? m); simpl;
    [apply andb_false_r|apply andb_true_r].
Qed.

(** A bit that is clear stays clear under masking and clearing. *)
Lemma clear_stays_land (x m k : Z) :
  Z.testbit x k = false -> Z.testbit (Z.land x m) k = false.
Proof.
  prune. intros H. now rewrite Z.land_spec, H.
Qed.

Lemma clear_stays_clear_bit (idx x k : Z) :
  0 <= k < 32 ->
  Z.testbit x k = false -> Z.testbit (clear_bit idx x) k = false.
Proof.
  prune. intros Hk H. rewrite testbit_clear_bit_any, H by assumption.
  now destruct (k =? Z.land idx 31).
Qed.

Lemma clear_bit_clears (idx x : Z) :
  Z.testbit (clear_bit idx x) (Z.land idx 31) = false.
Proof.
  prune. rewrite testbit_clear_bit_any by apply land_31_range.
  now rewrite Z.eqb_refl.
Qed.

Lemma clear_stays_clear_feats (fs : list cpufeature) (x k : Z) :
  0 <= k < 32 ->
  Z.testbit x k = false -> Z.testbit (clear_feats fs x) k = false.
Proof.
  intros Hk. unfold clear_feats. revert x.
  induction fs as [|f fs IH]; intros x H; simpl; [assumption|].
  apply IH. now apply clear_stays_clear_bit.
Qed.

Lemma clear_feats_clears (fs : list cpufeature) (f : cpufeature) (x : Z) :
  In f fs -> Z.testbit (clear_feats fs x) (feature_bit f) = false.
Proof.
  unfold clear_feats, feature_bit. revert x.
  induction fs as [|g fs IH]; intros x Hin; [contradiction|].
  simpl. destruct Hin as [->|Hin].
  - apply (clear_stays_clear_feats fs); [apply land_31_range|].
    apply clear_bit_clears.
  - now apply IH.
Qed.

Lemma set_stays_lor (x y k : Z) :
  Z.testbit y k = true -> Z.testbit (Z.lor x y) k = true.
Proof.
  prune. intros H. now rewrite Z.lor_spec, H, orb_true_r.
Qed.

Lemma set_stays_lor_l (x y k : Z) :
  Z.testbit x k = true -> Z.testbit (Z.lor x y) k = true.
Proof.
  prune. intros H. now rewrite Z.lor_spec, H.
Qed.

Lemma feat_bit_set (f : cpufeature) :
  Z.testbit (feat f) (feature_bit f) = true.
Proof.
  unfold feat, feature_bit. pose proof (land_31_range (X86_FEATURE f)).
  rewrite bitmaskof_pow2, Z.pow2_bits_eqb by lia. apply Z.eqb_refl.
Qed.

Lemma regs_eta (r : regs) : mkRegs (eax r) (ebx r) (ecx r) (edx r) = r.
Proof. prune. now destruct r. Qed.

(** X2.  What an HVM guest is told about the highest leaves: the maximum
    basic leaf is the hardware's, clamped to 0xd, and the maximum extended
    leaf is the hardware's, clamped to 0x8000001c for the AMD vendor and to
    0x80000008 otherwise; ebx, ecx and edx of both leaves are the
    hardware's. *)
Theorem hvm_max_leaves_clamped (info : cpuid_domain_info)
    (input : cpuid_input) (r : regs) :
  hvm info = true ->
  (input0 input = 0x00000000 ->
   xc_cpuid_policy info input r
     = mkRegs (Z.min (eax r) DEF_MAX_BASE) (ebx r) (ecx r) (edx r)) /\
  (input0 input = 0x80000000 ->
   xc_cpuid_policy info input r
     = mkRegs (Z.min (eax r)
                 (if vendor_eqb (vendor info) VENDOR_AMD
                  then DEF_MAX_AMDEXT else DEF_MAX_INTELEXT))
              (ebx r) (ecx r) (edx r)).
Proof.
  intros Hh. destruct input as [leaf sub]. cbn [input0].
  unfold xc_cpuid_policy, xc_cpuid_hvm_policy, amd_xc_cpuid_policy,
    intel_xc_cpuid_policy. rewrite Hh. cbn [input0 input1].
  split; intros ->; cbn -[Z.min DEF_MAX_BASE DEF_MAX_AMDEXT DEF_MAX_INTELEXT];
    destruct (vendor_eqb (vendor info) VENDOR_AMD);
    repeat match goal with
           | |- context [?a >? ?b] => destruct (Z.gtb_spec a b)
           end;
    cbn [eax ebx ecx edx];
    rewrite <- (regs_eta r) at 1; cbn [eax ebx ecx edx];
    f_equal; lia.
Qed.

(** X3.  An HVM guest with PAE disabled is never shown PAE or PSE36 in
    leaf 1, nor LM, NX, PSE36, PAGE1GB (edx) or LAHF_LM (ecx) in leaf
    0x80000001, whatever the hardware reports and whichever the vendor
    is. *)
Theorem hvm_pae_disabled_hides_features (info : cpuid_domain_info)
    (input : cpuid_input) (r : regs) :
  hvm info = true -> pae info = false ->
  let out := xc_cpuid_policy info input r in
  (input0 input = 0x00000001 ->
   Z.testbit (edx out) (feature_bit PAE) = false /\
   Z.testbit (edx out) (feature_bit PSE36) = false) /\
  (input0 input = 0x80000001 ->
   Z.testbit (edx out) (feature_bit LM) = false /\
   Z.testbit (edx out) (feature_bit NX) = false /\
   Z.testbit (edx out) (feature_bit PSE36) = false /\
   Z.testbit (edx out) (feature_bit PAGE1GB) = false /\
   Z.testbit (ecx out) (feature_bit LAHF_LM) = false).
Proof.
  intros Hh Hp out. subst out. destruct input as [leaf sub]. cbn [input0].
  unfold xc_cpuid_policy, xc_cpuid_hvm_policy, amd_xc_cpuid_policy,
    intel_xc_cpuid_policy. rewrite Hh, Hp. cbn [input0 input1 negb].
  split; intros ->.
  - change (Z.land 1 4294901760 =? 1073741824) with false.
    cbn -[Z.land Z.lor U32.shl clear_feats lor_all feat set_feat].
    destruct (vendor_eqb (vendor info) VENDOR_AMD); [|destruct (nestedhvm info)];
      cbn [edx]; split; apply clear_feats_clears; simpl; auto.
  - change (Z.land 2147483649 4294901760 =? 1073741824) with false.
    cbn -[Z.land Z.lor U32.shl clear_feats lor_all feat set_feat clear_feat].
    destruct (vendor_eqb (vendor info) VENDOR_AMD); cbn [edx ecx];
      repeat split;
      repeat lazymatch goal with
             | |- Z.testbit (Z.land _ _) _ = false => apply clear_stays_land
             | |- Z.testbit (clear_feats _ _) _ = false =>
                 apply clear_feats_clears; simpl; auto
             | |- Z.testbit (clear_feat ?f _) (feature_bit ?f) = false =>
                 apply clear_bit_clears
             | |- Z.testbit (clear_feat _ _) _ = false =>
                 apply clear_stays_clear_bit; [apply land_31_range|]
             end.
Qed.

(** X4.  Leaf 1 always announces the hypervisor: the HYPERVISOR bit of ecx
    is set for both guest types and every vendor, whatever the hardware
    reports; an HVM guest is shown TSC_DEADLINE and X2APIC as well. *)
Theorem leaf1_announces_hypervisor (info : cpuid_domain_info)
    (input : cpuid_input) (r : regs) :
  input0 input = 0x00000001 ->
  let out := xc_cpuid_policy info input r in
  Z.testbit (ecx out) (feature_bit HYPERVISOR) = true /\
  (hvm info = true ->
   Z.testbit (ecx out) (feature_bit TSC_DEADLINE) = true /\
   Z.testbit (ecx out) (feature_bit X2APIC) = true).
Proof.
  intros Hl out. subst out. destruct input as [leaf sub].
  cbn [input0] in Hl. subst leaf.
  unfold xc_cpuid_policy. cbn [input0].
  change (Z.land 1 4294901760 =? 1073741824) with false. cbv iota.
  assert (Hlor : forall a b c k,
            Z.testbit (lor_all [a; b; c]) k
            = (Z.testbit a k || Z.testbit b k || Z.testbit c k)%bool).
  { intros a b c k. unfold lor_all. simpl. now rewrite !Z.lor_spec. }
  destruct (hvm info).
  - unfold xc_cpuid_hvm_policy, amd_xc_cpuid_policy, intel_xc_cpuid_policy.
    cbn -[Z.land Z.lor U32.shl clear_feats lor_all feat set_feat].
    assert (Hc : forall x,
              Z.testbit (Z.lor x (lor_all [feat HYPERVISOR; feat TSC_DEADLINE;
                                           feat X2APIC]))
                        (feature_bit HYPERVISOR) = true /\
              Z.testbit (Z.lor x (lor_all [feat HYPERVISOR; feat TSC_DEADLINE;
                                           feat X2APIC]))
                        (feature_bit TSC_DEADLINE) = true /\
              Z.testbit (Z.lor x (lor_all [feat HYPERVISOR; feat TSC_DEADLINE;
                                           feat X2APIC]))
                        (feature_bit X2APIC) = true).
    { intros x. repeat split; apply set_stays_lor; rewrite Hlor;
        rewrite feat_bit_set; rewrite ?orb_true_r; reflexivity. }
    destruct (vendor_eqb (vendor info) VENDOR_AMD);
      [|destruct (nestedhvm info)]; cbn [ecx];
      unfold set_feat, set_bit;
      match goal with
      | |- context [Z.lor ?x (lor_all _)] => destruct (Hc x) as (H1 & H2 & H3)
      end;
      (split; [|intros _; split]);
      try assumption; now apply set_stays_lor_l.
  - split; [|discriminate].
    unfold xc_cpuid_pv_policy.
    cbn -[Z.land Z.lor U32.shl clear_feats lor_all feat set_feat clear_feat].
    unfold set_feat, set_bit. apply set_stays_lor. apply feat_bit_set.
Qed.

Ltac policy_at_leaf :=
  unfold xc_cpuid_policy, xc_cpuid_hvm_policy, xc_cpuid_pv_policy,
    amd_xc_cpuid_policy, intel_xc_cpuid_policy;
  cbn [input0 input1].

(** X5.  The SVM leaf 0x8000000a.  A PV guest and an AMD HVM guest without
    nested virtualisation get the all-zero quadruple.  An AMD HVM guest
    with nested virtualisation gets eax, ebx and ecx of the hardware and an
    edx in which VMCB-clean and TSC-ratio are always set and nothing lies
    outside NPT, LBRV, NRIPS, pause-filter, decode-assists and those two.
    For an HVM guest of another vendor the leaf is the hardware's. *)
Theorem svm_leaf_rule (info : cpuid_domain_info) (input : cpuid_input)
    (r : regs) :
  input0 input = 0x8000000a ->
  let out := xc_cpuid_policy info input r in
  (hvm info = false -> out = zero_regs) /\
  (hvm info = true -> vendor info = VENDOR_AMD -> nestedhvm info = false ->
   out = zero_regs) /\
  (hvm info = true -> vendor info = VENDOR_AMD -> nestedhvm info = true ->
   eax out = eax r /\ ebx out = ebx r /\ ecx out = ecx r /\
   Z.testbit (edx out) 5 = true /\ Z.testbit (edx out) 4 = true /\
   Z.land (edx out) 0x4bb = edx out) /\
  (hvm info = true -> vendor info <> VENDOR_AMD -> out = r).
Proof.
  intros Hl out. subst out. destruct input as [leaf sub].
  cbn [input0] in Hl. subst leaf. policy_at_leaf.
  change (Z.land 2147483658 4294901760 =? 1073741824) with false. cbv iota.
  split; [|split; [|split]].
  - intros ->. reflexivity.
  - intros -> -> ->. reflexivity.
  - intros -> -> ->.
    cbn -[Z.land Z.lor Z.testbit lor_all]. repeat split.
    + rewrite Z.lor_spec. apply orb_true_r.
    + rewrite Z.lor_spec. apply orb_true_r.
    + match goal with
      | |- Z.land (Z.lor (Z.land _ ?W) ?E) _ = _ =>
          change 1211 with (Z.lor W E);
          generalize W; generalize E
      end.
      intros E W. apply Z.bits_inj'. intros n Hn.
      rewrite !Z.land_spec, !Z.lor_spec, Z.land_spec.
      destruct (Z.testbit (edx r) n), (Z.testbit W n), (Z.testbit E n);
        reflexivity.
  - intros -> Hv. destruct (vendor info); try contradiction;
      reflexivity.
Qed.

(** X6.  Leaf 7.  eax and edx are always zero; a PV guest gets ecx zero as
    well; and every sub-leaf other than 0 is the all-zero quadruple, for
    both guest types and every vendor. *)
Theorem leaf7_rule (info : cpuid_domain_info) (input : cpuid_input)
    (r : regs) :
  input0 input = 0x00000007 ->
  let out := xc_cpuid_policy info input r in
  eax out = 0 /\ edx out = 0 /\
  (hvm info = false -> ecx out = 0) /\
  (input1 input <> 0 -> out = zero_regs).
Proof.
  intros Hl out. subst out. destruct input as [leaf sub].
  cbn [input0 input1] in *. subst leaf. policy_at_leaf.
  change (Z.land 7 4294901760 =? 1073741824) with false. cbv iota.
  destruct (hvm info), (Z.eqb_spec sub 0);
    cbn -[Z.land Z.lor lor_all feat clear_feat];
    try destruct (vendor_eqb (vendor info) VENDOR_AMD);
    repeat split; try reflexivity; try discriminate; try contradiction;
    try (intros; reflexivity).
Qed.

Lemma xsave_max_size_spec (n : nat) :
  forall from acc,
    let size k := U32.add (eax (cpuid (mkInput 0xd k)))
                          (ebx (cpuid (mkInput 0xd k))) in
    let m := xsave_max_size n from acc in
    acc <= m /\
    (forall k, from <= k < from + Z.of_nat n -> size k <= m) /\
    (m = acc \/ exists k, from <= k < from + Z.of_nat n /\ m = size k).
Proof.
  induction n as [|n IH]; intros from acc size m.
  - subst m. simpl. split; [lia|]. split; [intros; lia|auto].
  - subst m. cbn [xsave_max_size]. fold (size from).
    specialize (IH (from + 1) (if size from >? acc then size from else acc)).
    cbv zeta in IH. fold size in IH.
    destruct IH as (Hacc & Hub & Hatt).
    destruct (Z.gtb_spec (size from) acc) as [Hgt|Hle].
    + split; [lia|]. split.
      * intros k Hk. destruct (Z.eq_dec k from) as [->|Hne]; [lia|].
        apply Hub. lia.
      * right. destruct Hatt as [->|(k & Hk & ->)].
        -- exists from. split; [lia|reflexivity].
        -- exists k. split; [lia|reflexivity].
    + split; [lia|]. split.
      * intros k Hk. destruct (Z.eq_dec k from) as [->|Hne]; [lia|].
        apply Hub. lia.
      * destruct Hatt as [->|(k & Hk & ->)]; [auto|].
        right. exists k. split; [lia|reflexivity].
Qed.

(** X7.  The xsave leaf 0xd, sub-leaf 0, when extended state is configured.
    eax and edx are the low and the high half of the 64-bit feature mask,
    ebx is 576, and ecx is the largest size-plus-offset (eax + ebx, as an
    unsigned int) the hardware reports over the sub-leaves 2 to 63: no
    sub-leaf exceeds it, and it is zero or the value of one of them.  The
    raw quadruple of sub-leaf 0 itself plays no part. *)
Theorem xsave_subleaf0_rule (info : cpuid_domain_info) (r : regs) :
  xfeature_mask info <> 0 ->
  let out := xc_cpuid_policy info (mkInput 0xd 0) r in
  let size k := U32.add (eax (cpuid_insn 0xd k)) (ebx (cpuid_insn 0xd k)) in
  (0 <= xfeature_mask info < 2 ^ 64 ->
   eax out + 2 ^ 32 * edx out = xfeature_mask info) /\
  ebx out = 576 /\
  (forall k, 2 <= k <= 63 -> size k <= ecx out) /\
  (ecx out = 0 \/ exists k, 2 <= k <= 63 /\ ecx out = size k).
Proof.
  intros Hm out size.
  assert (Hout : out = mkRegs (Z.land (xfeature_mask info) 0xFFFFFFFF)
                              576 (xsave_max_size 62 2 0)
                              (Z.land (Z.shiftr (xfeature_mask info) 32)
                                      0xFFFFFFFF)).
  { subst out. policy_at_leaf. unfold xc_cpuid_config_xsave.
    cbn [input0 input1].
    change (Z.land 13 4294901760 =? 1073741824) with false.
    change (Z.land 13 2147483647 =? 1) with false.
    apply Z.eqb_neq in Hm. rewrite Hm.
    cbn -[Z.land Z.shiftr xsave_max_size].
    destruct (hvm info); [|reflexivity].
    destruct (vendor_eqb (vendor info) VENDOR_AMD); reflexivity. }
  rewrite Hout. cbn [eax ebx ecx edx].
  pose proof (xsave_max_size_spec 62 2 0) as Hs. cbv zeta in Hs.
  assert (Hsize : forall k, 2 <= k <= 63 ->
            U32.add (eax (cpuid (mkInput 0xd k)))
                    (ebx (cpuid (mkInput 0xd k))) = size k).
  { intros k Hk. unfold size, cpuid. cbn [input0 input1].
    unfold XEN_CPUID_INPUT_UNUSED.
    destruct (Z.eqb_spec k 4294967295); [lia|reflexivity]. }
  destruct Hs as (_ & Hub & Hatt).
  split; [|split; [reflexivity|split]].
  - intros Hr. change 0xFFFFFFFF with (Z.ones 32).
    rewrite !Z.land_ones, Z.shiftr_div_pow2 by lia.
    assert (0 <= xfeature_mask info / 2 ^ 32 < 2 ^ 32).
    { split; [apply Z.div_pos; lia|].
      apply Z.div_lt_upper_bound; [lia|].
      change (2 ^ 32 * 2 ^ 32) with (2 ^ 64). lia. }
    rewrite (Z.mod_small (xfeature_mask info / 2 ^ 32)) by assumption.
    pose proof (Z.div_mod (xfeature_mask info) (2 ^ 32) ltac:(lia)). lia.
  - intros k Hk. rewrite <- Hsize by assumption. apply Hub. lia.
  - destruct Hatt as [->|(k & Hk & ->)]; [auto|].
    right. exists k. split; [lia|]. apply Hsize. lia.
Qed.

(** X8.  The xsave leaf 0xd, sub-leaves 1 to 63, when extended state is
    configured.  A component sub-leaf (2 to 63) whose bit is absent from
    the mask is the all-zero quadruple; one whose bit is present keeps the
    hardware's eax and ebx and has ecx and edx zero.  Sub-leaf 1 is given
    exactly: eax keeps its bits 0 to 3 (XSAVEOPT, XSAVEC, XGETBV1 and
    XSAVES) as they come and loses every other bit, and for a PV guest
    bit 3 (XSAVES) as well; ebx is kept; a bit of ecx stays set exactly
    when it is set in the mask too; edx is zero. *)
Theorem xsave_subleaves_rule (info : cpuid_domain_info) (sub : Z)
    (r : regs) :
  xfeature_mask info <> 0 ->
  let out := xc_cpuid_policy info (mkInput 0xd sub) r in
  (2 <= sub <= 63 -> Z.testbit (xfeature_mask info) sub = false ->
   out = zero_regs) /\
  (2 <= sub <= 63 -> Z.testbit (xfeature_mask info) sub = true ->
   out = mkRegs (eax r) (ebx r) 0 0) /\
  (sub = 1 ->
   out = mkRegs (Z.land (eax r) (if hvm info then 0xf else 0x7))
                (ebx r) (Z.land (ecx r) (xfeature_mask info)) 0 /\
   (forall n, 0 <= n ->
      Z.testbit (eax out) n =
      Z.testbit (eax r) n && ((n <? 3) || ((n =? 3) && hvm info))) /\
   (forall n, 0 <= n ->
      Z.testbit (ecx out) n =
      Z.testbit (ecx r) n && Z.testbit (xfeature_mask info) n) /\
   Z.land (eax out) 0xf = eax out /\
   (hvm info = false -> Z.testbit (eax out) 3 = false) /\
   ebx out = ebx r /\
   Z.land (ecx out) (xfeature_mask info) = ecx out /\
   edx out = 0).
Proof.
  intros Hm out.
  assert (Hout : out = xc_cpuid_config_xsave info (mkInput 0xd sub) r).
  { subst out. policy_at_leaf.
    change (Z.land 13 4294901760 =? 1073741824) with false.
    change (Z.land 13 2147483647 =? 1) with false.
    cbn -[xc_cpuid_config_xsave].
    destruct (hvm info); [|reflexivity].
    set (x := xc_cpuid_config_xsave info (mkInput 0xd sub) r).
    destruct (vendor_eqb (vendor info) VENDOR_AMD); reflexivity. }
  rewrite Hout. clear Hout out. unfold xc_cpuid_config_xsave.
  cbn [input0 input1].
  apply Z.eqb_neq in Hm. rewrite Hm.
  split; [|split].
  - intros Hs Hb.
    destruct (Z.eqb_spec sub 0); [lia|]. destruct (Z.eqb_spec sub 1); [lia|].
    destruct (Z.leb_spec 2 sub); [|lia]. destruct (Z.leb_spec sub 63); [|lia].
    cbn [andb]. rewrite Z.shiftl_1_l, land_pow2, Hb by lia. reflexivity.
  - intros Hs Hb.
    destruct (Z.eqb_spec sub 0); [lia|]. destruct (Z.eqb_spec sub 1); [lia|].
    destruct (Z.leb_spec 2 sub); [|lia]. destruct (Z.leb_spec sub 63); [|lia].
    cbn [andb]. rewrite Z.shiftl_1_l, land_pow2, Hb by lia.
    assert (0 < 2 ^ sub) by (apply Z.pow_pos_nonneg; lia).
    destruct (Z.eqb_spec (2 ^ sub) 0); [lia|reflexivity].
  - intros ->. change (1 =? 0) with false. change (1 =? 1) with true.
    cbv iota zeta.
    change (lor_all [XSAVEOPT; XSAVEC; XGETBV1; XSAVES]) with 15.
    change (U32.not XSAVES) with 4294967287.
    assert (Ha : (if negb (hvm info)
                  then Z.land (Z.land (eax r) 15) 4294967287
                  else Z.land (eax r) 15)
                 = Z.land (eax r) (if hvm info then 15 else 7)).
    { destruct (hvm info); cbn [negb]; [reflexivity|].
      rewrite <- Z.land_assoc. reflexivity. }
    rewrite Ha. clear Ha. cbn [eax ebx ecx edx].
    split; [reflexivity|]. split; [|split].
    + intros n Hn. rewrite Z.land_spec. f_equal.
      destruct (hvm info).
      * change 15 with (Z.ones 4). rewrite Z.testbit_ones_nonneg by lia.
        destruct (Z.ltb_spec n 4), (Z.ltb_spec n 3), (Z.eqb_spec n 3);
          cbn [andb orb]; try reflexivity; lia.
      * change 7 with (Z.ones 3). rewrite Z.testbit_ones_nonneg by lia.
        rewrite andb_false_r, orb_false_r. reflexivity.
    + intros n Hn. apply Z.land_spec.
    + repeat split.
      * rewrite <- Z.land_assoc. f_equal. destruct (hvm info); reflexivity.
      * intros ->. rewrite Z.land_spec. apply andb_false_r.
      * rewrite <- Z.land_assoc, Z.land_diag. reflexivity.
Qed.

(** ** What a traversal programs and where it goes *)

Lemma apply_loop_programmed (xch : xc_interface) (domid : Z)
    (info : cpuid_domain_info) (base_max ext_max : Z) (fuel : nat) :
  forall (i : cpuid_input) (done : list cpuid_entry)
         (visited : list cpuid_input) (t : traversal),
    apply_loop fuel xch domid info base_max ext_max i done visited
      = Returns t ->
    exists new,
      tr_visited t = visited ++ i :: new /\
      ((tr_rc t = 0 /\
        tr_programmed t
          = done ++ map (entry_of domid info)
                        (filter (answer_nonzero info) (i :: new))) \/
       (tr_rc t <> 0 /\
        exists pre last,
          i :: new = pre ++ [last] /\
          answer_nonzero info last = true /\
          tr_programmed t
            = done ++ map (entry_of domid info)
                          (filter (answer_nonzero info) pre) /\
          tr_rc t = set_cpuid xch (tr_programmed t)
                      (entry_of domid info last))).
Proof.
  induction fuel as [|fuel IH]; intros i done visited t H; [discriminate|].
  cbn [apply_loop] in H.
  fold (answer_nonzero info i) in H.
  change (mkEntry domid i (xc_cpuid_policy info i (cpuid i)))
    with (entry_of domid info i) in H.
  unfold xc_cpuid_do_domctl in H.
  change (mkEntry domid i (xc_cpuid_policy info i (cpuid i)))
    with (entry_of domid info i) in H.
  destruct (answer_nonzero info i) eqn:Hnz.
  - destruct (Z.eqb_spec (set_cpuid xch done (entry_of domid info i)) 0)
      as [Hrc|Hrc]; cbn [negb] in H.
    + destruct (next_input base_max ext_max i
                  (xc_cpuid_policy info i (cpuid i))) as [i'|].
      * apply IH in H. destruct H as (new & Hvis & Hcases).
        exists (i' :: new). split.
        { rewrite Hvis, <- app_assoc. reflexivity. }
        cbn [filter]. rewrite Hnz.
        destruct Hcases as [(H0 & Hp)|(Hne & pre & last & Hsplit & Hl & Hp & Hrc')].
        -- left. split; [assumption|].
           rewrite Hp, <- app_assoc. reflexivity.
        -- right. split; [assumption|].
           exists (i :: pre), last. split; [now rewrite Hsplit|].
           split; [assumption|]. cbn [filter]. rewrite Hnz.
           split; [|assumption].
           rewrite Hp, <- app_assoc. reflexivity.
      * injection H as <-. exists []. split; [reflexivity|].
        left. split; [reflexivity|]. cbn [filter tr_programmed]. rewrite Hnz.
        reflexivity.
    + injection H as <-. exists []. split; [reflexivity|].
      right. split; [assumption|]. exists [], i.
      split; [reflexivity|]. split; [assumption|].
      cbn. rewrite app_nil_r. split; reflexivity.
  - cbn [Z.eqb negb] in H.
    destruct (next_input base_max ext_max i
                (xc_cpuid_policy info i (cpuid i))) as [i'|].
    + apply IH in H. destruct H as (new & Hvis & Hcases).
      exists (i' :: new). split.
      { rewrite Hvis, <- app_assoc. reflexivity. }
      cbn [filter]. rewrite Hnz.
      destruct Hcases as [(H0 & Hp)|(Hne & pre & last & Hsplit & Hl & Hp & Hrc')].
      * left. split; assumption.
      * right. split; [assumption|].
        exists (i :: pre), last. split; [now rewrite Hsplit|].
        split; [assumption|]. cbn [filter]. rewrite Hnz.
        split; assumption.
    + injection H as <-. exists []. split; [reflexivity|].
      left. split; [reflexivity|]. cbn [filter tr_programmed]. rewrite Hnz.
      now rewrite app_nil_r.
Qed.

(** The run of [xc_cpuid_apply_policy] once the resolver has succeeded. *)
Lemma xc_cpuid_apply_policy_unfold (fuel : nat) (xch : xc_interface)
    (domid : Z) (caller_set : option (list Z)) (caller_nr : Z) (h : heap)
    (t : traversal) (h' : heap) :
  xc_cpuid_apply_policy fuel xch domid caller_set caller_nr h
    = Returns (t, h') ->
  exists rc info h1,
    get_cpuid_domain_info xch domid empty_info caller_set caller_nr h
      = Returns (rc, info, h1) /\
    h' = free_cpuid_domain_info info h1 /\
    ((rc <> 0 /\ t = mkTraversal rc [] []) \/
     (rc = 0 /\
      apply_loop fuel xch domid info
        (base_max_of (cpuid (mkInput 0 0)))
        (ext_max_of (vendor info) (cpuid (mkInput 0x80000000 0)))
        (mkInput 0 XEN_CPUID_INPUT_UNUSED) [] [] = Returns t)).
Proof.
  unfold xc_cpuid_apply_policy. intros H.
  destruct (get_cpuid_domain_info xch domid empty_info caller_set caller_nr h)
    as [[[rc info] h1]| |]; try discriminate.
  exists rc, info, h1. split; [reflexivity|].
  destruct (Z.eqb_spec rc 0) as [->|Hne]; cbn [negb] in H.
  - destruct (apply_loop fuel xch domid info _ _ _ [] []) as [t'| |] eqn:E;
      try discriminate.
    injection H as <- <-. split; [reflexivity|]. right. split; reflexivity.
  - injection H as <- <-. split; [reflexivity|]. left. split; [assumption|].
    reflexivity.
Qed.

(** X9.  A traversal that completes has programmed exactly the leaves it
    visited whose policy answer is not the all-zero quadruple, in the order
    of the visit, each with that answer and for the domain asked for;
    all-zero answers are skipped. *)
Theorem completed_traversal_programs_nonzero_answers
    (fuel : nat) (xch : xc_interface) (domid : Z)
    (caller_set : option (list Z)) (caller_nr : Z) (h : heap)
    (info : cpuid_domain_info) (h1 : heap) (t : traversal) (h' : heap) :
  get_cpuid_domain_info xch domid empty_info caller_set caller_nr h
    = Returns (0, info, h1) ->
  xc_cpuid_apply_policy fuel xch domid caller_set caller_nr h
    = Returns (t, h') ->
  tr_rc t = 0 ->
  tr_programmed t
    = map (entry_of domid info)
          (filter (answer_nonzero info) (tr_visited t)).
Proof.
  intros Hget Hrun Hrc.
  destruct (xc_cpuid_apply_policy_unfold _ _ _ _ _ _ _ _ Hrun)
    as (rc & info' & h1' & Hget' & _ & Hcases).
  rewrite Hget in Hget'. injection Hget' as <- <- <-.
  destruct Hcases as [(Hne & _)|(_ & Hloop)]; [contradiction|].
  apply apply_loop_programmed in Hloop.
  destruct Hloop as (new & Hvis & [(_ & Hp)|(Hne & _)]); [|contradiction].
  rewrite Hvis, Hp. reflexivity.
Qed.


Lemma next_input_reachable (base_max ext_max : Z) (i : cpuid_input)
    (r : regs) :
  base_max < 0x80000000 -> ext_max < 2 ^ 32 - 1 ->
  reachable_input base_max ext_max i ->
  match next_input base_max ext_max i r with
  | Some i' => reachable_input base_max ext_max i'
  | None => True
  end.
Proof.
  prune.
  intros Hb He Hi. destruct i as [in0 in1].
  unfold reachable_input in Hi. cbn [input0 input1] in Hi.
  assert (Hr : 0 <= in0 < 2 ^ 32 - 1) by lia.
  rewrite (next_input_arith _ _ _ _ _ Hr). cbv zeta.
  destruct ((in0 =? 4) && negb (Z.land (eax r) 31 =? 0))%bool eqn:C4.
  { apply andb_prop in C4. destruct C4 as [E4 _].
    apply Z.eqb_eq in E4. rewrite E4. change (4 =? 4) with true. cbv iota.
    left. cbn [input0 input1].
    pose proof (u32_add in1 1) as Hu. unfold u32 in *.
    repeat split; intros; lia. }
  destruct ((in0 =? 13) &&
            ((if in0 =? 4 then U32.add in1 1 else in1) <? 63))%bool eqn:Cd.
  { apply andb_prop in Cd. destruct Cd as [Ed Hlt].
    apply Z.eqb_eq in Ed. rewrite Ed in Hlt |- *.
    change (13 =? 4) with false in *. cbv iota in Hlt |- *.
    apply Z.ltb_lt in Hlt.
    left. cbn [input0 input1].
    assert (0 <= in1 <= 63) by lia.
    rewrite u32_add_small by lia.
    unfold u32. repeat split; intros; lia. }
  clear C4 Cd.
  destruct (Z.ltb_spec (in0 + 1) 0x80000000); cbn [andb].
  - destruct (Z.gtb_spec (in0 + 1) base_max).
    + change (0x80000000 <=? 0x80000000) with true. cbn [andb].
      destruct (Z.gtb_spec 0x80000000 ext_max); [exact I|].
      right. cbn [input0 input1 Z.eqb orb Pos.eqb]. lia.
    + destruct (Z.leb_spec 0x80000000 (in0 + 1)); [lia|]. cbn [andb].
      left. cbn [input0 input1]. unfold u32.
      destruct (Z.eqb_spec (in0 + 1) 4), (Z.eqb_spec (in0 + 1) 7),
        (Z.eqb_spec (in0 + 1) 13); cbn [orb];
        repeat split; intros; try reflexivity; lia.
  - destruct (Z.leb_spec 0x80000000 (in0 + 1)); [|lia]. cbn [andb].
    destruct (Z.gtb_spec (in0 + 1) ext_max); [exact I|].
    right. cbn [input0 input1].
    destruct (Z.eqb_spec (in0 + 1) 4), (Z.eqb_spec (in0 + 1) 7),
      (Z.eqb_spec (in0 + 1) 13); cbn [orb]; try lia.
Qed.

Lemma tail_keeps_vendor (xch : xc_interface) (domid : Z) (di : xc_dominfo_t)
    (info : cpuid_domain_info) (given : bool) (host_nr : Z) :
  vendor (snd (get_cpuid_domain_info_tail xch domid di info given host_nr))
    = vendor info.
Proof.
  prune.
  unfold get_cpuid_domain_info_tail.
  destruct (getvcpuextstate xch domid) as [rc mask].
  destruct (negb (rc =? 0)); [reflexivity|].
  destruct (di_hvm di).
  - destruct (xc_hvm_param_get xch domid HVM_PARAM_PAE_ENABLED) as [rc1 v1].
    destruct (negb (rc1 =? 0)); [reflexivity|].
    destruct (xc_hvm_param_get xch domid HVM_PARAM_NESTEDHVM) as [rc2 v2].
    destruct (negb (rc2 =? 0)); [reflexivity|].
    destruct (negb given); [|reflexivity].
    destruct (xc_get_cpu_featureset xch XEN_SYSCTL_cpu_featureset_hvm host_nr)
      as [rc3 words].
    destruct (negb (rc3 =? 0)); reflexivity.
  - destruct (xc_domain_get_guest_width xch domid) as [rc1 w].
    destruct (negb (rc1 =? 0)); [reflexivity|].
    destruct (negb given); [|reflexivity].
    destruct (xc_get_cpu_featureset xch XEN_SYSCTL_cpu_featureset_pv host_nr)
      as [rc3 words].
    destruct (negb (rc3 =? 0)); reflexivity.
Qed.

(** Whatever the resolver returns, the vendor it reports is the one read
    off hardware leaf 0, and it holds one block exactly when
    [info->featureset] is set. *)
Lemma get_cpuid_domain_info_returns (xch : xc_interface) (domid : Z)
    (caller_set : option (list Z)) (caller_nr : Z) (h : heap)
    (rc : Z) (info : cpuid_domain_info) (h' : heap) :
  get_cpuid_domain_info xch domid empty_info caller_set caller_nr h
    = Returns (rc, info, h') ->
  vendor info = vendor_of (cpuid (mkInput 0 U32.max_unsigned)) /\
  live h' = (live h + match featureset info with
                      | Some _ => 1 | None => 0 end)%nat.
Proof.
  unfold get_cpuid_domain_info.
  destruct (xc_domain_getinfo xch domid) as [found di].
  destruct (negb (found =? 1) || negb (di_domid di =? domid))%bool.
  { intros H. injection H as <- <- <-. split; [reflexivity|]. cbn. lia. }
  unfold malloc. destruct (malloc_ok (requests h)); cbn [negb].
  2:{ intros H. injection H as <- <- <-. split; [reflexivity|]. cbn. lia. }
  destruct caller_set as [fs|].
  - destruct (memcpy_words _ fs _) as [words| |]; try discriminate.
    destruct (truncated_bits _ _ fs) as [[|]| |]; try discriminate.
    + intros H. injection H as <- <- <-. split; [reflexivity|]. cbn. lia.
    + match goal with
      | |- context [get_cpuid_domain_info_tail ?x ?d ?i ?inf ?g ?n] =>
          destruct (tail_keeps_block x d i inf g n words eq_refl)
            as [blk' Hblk];
          pose proof (tail_keeps_vendor x d i inf g n) as Hven;
          destruct (get_cpuid_domain_info_tail x d i inf g n)
            as [rc' info'] eqn:Et
      end.
      cbn [snd] in Hblk, Hven.
      intros H. injection H as <- <- <-. split; [exact Hven|].
      rewrite Hblk. cbn. lia.
  - match goal with
    | |- context [get_cpuid_domain_info_tail ?x ?d ?i ?inf ?g ?n] =>
        destruct (tail_keeps_block x d i inf g n
                    (repeat 0 (Z.to_nat xc_get_cpu_featureset_size))
                    eq_refl) as [blk' Hblk];
        pose proof (tail_keeps_vendor x d i inf g n) as Hven;
        destruct (get_cpuid_domain_info_tail x d i inf g n)
          as [rc' info'] eqn:Et
    end.
    cbn [snd] in Hblk, Hven.
    intros H. injection H as <- <- <-. split; [exact Hven|].
    rewrite Hblk. cbn. lia.
Qed.

(** The resolver has no unbounded loop: it never runs out of fuel. *)
Lemma truncated_bits_ends (n : nat) :
  forall (i : Z) (fs : list Z), truncated_bits n i fs <> OutOfFuel.
Proof.
  prune.
  induction n as [|n IH]; intros i fs; cbn [truncated_bits];
    [discriminate|].
  destruct (nth_error fs (Z.to_nat i)) as [w|]; [|discriminate].
  destruct (negb (w =? 0)); [discriminate|apply IH].
Qed.

Lemma get_cpuid_domain_info_ends (xch : xc_interface) (domid : Z)
    (caller_set : option (list Z)) (caller_nr : Z) (h : heap) :
  get_cpuid_domain_info xch domid empty_info caller_set caller_nr h
    <> OutOfFuel.
Proof.
  unfold get_cpuid_domain_info.
  destruct (xc_domain_getinfo xch domid) as [found di].
  destruct (negb (found =? 1) || negb (di_domid di =? domid))%bool;
    [discriminate|].
  unfold malloc. destruct (malloc_ok (requests h)); cbn [negb];
    [|discriminate].
  destruct caller_set as [fs|].
  - unfold memcpy_words.
    destruct (Z.of_nat (List.length fs) <? _); [discriminate|].
    pose proof (truncated_bits_ends
                  (Z.to_nat (xc_get_cpu_featureset_size - caller_nr))
                  caller_nr fs) as Hends.
    destruct (truncated_bits _ caller_nr fs) as [[|]| |];
      try discriminate; [|congruence].
    destruct (get_cpuid_domain_info_tail _ _ _ _ _ _); discriminate.
  - destruct (get_cpuid_domain_info_tail _ _ _ _ _ _); discriminate.
Qed.

(** The inputs of the first iterations are the ones a run that returns
    reports, and a run that has not returned after [fuel] iterations has
    run the body [fuel] times. *)
Lemma apply_loop_visits_returns (xch : xc_interface) (domid : Z)
    (info : cpuid_domain_info) (base_max ext_max : Z) (fuel : nat) :
  forall (i : cpuid_input) (done : list cpuid_entry)
         (visited : list cpuid_input) (t : traversal),
    apply_loop fuel xch domid info base_max ext_max i done visited
      = Returns t ->
    tr_visited t =
    visited ++ apply_loop_visits fuel xch domid info base_max ext_max i done.
Proof.
  induction fuel as [|fuel IH]; intros i done visited t H; [discriminate|].
  cbn [apply_loop apply_loop_visits] in H |- *. cbv zeta in H |- *.
  destruct (negb ((if regs_nonzero (xc_cpuid_policy info i (cpuid i))
                   then xc_cpuid_do_domctl xch done domid i
                          (xc_cpuid_policy info i (cpuid i))
                   else 0) =? 0)).
  { injection H as <-. reflexivity. }
  destruct (next_input base_max ext_max i
              (xc_cpuid_policy info i (cpuid i))) as [i'|].
  - rewrite (IH _ _ _ _ H), <- app_assoc. reflexivity.
  - injection H as <-. reflexivity.
Qed.

Lemma apply_loop_visits_out_of_fuel (xch : xc_interface) (domid : Z)
    (info : cpuid_domain_info) (base_max ext_max : Z) (fuel : nat) :
  forall (i : cpuid_input) (done : list cpuid_entry)
         (visited : list cpuid_input),
    apply_loop fuel xch domid info base_max ext_max i done visited
      = OutOfFuel ->
    List.length
      (apply_loop_visits fuel xch domid info base_max ext_max i done)
    = fuel.
Proof.
  induction fuel as [|fuel IH]; intros i done visited H; [reflexivity|].
  cbn [apply_loop apply_loop_visits] in H |- *. cbv zeta in H |- *.
  destruct (negb ((if regs_nonzero (xc_cpuid_policy info i (cpuid i))
                   then xc_cpuid_do_domctl xch done domid i
                          (xc_cpuid_policy info i (cpuid i))
                   else 0) =? 0)); [discriminate|].
  destruct (next_input base_max ext_max i
              (xc_cpuid_policy info i (cpuid i))) as [i'|]; [|discriminate].
  cbn [List.length]. f_equal. exact (IH _ _ _ H).
Qed.

Lemma apply_loop_visits_reachable (xch : xc_interface) (domid : Z)
    (info : cpuid_domain_info) (base_max ext_max : Z) (n : nat) :
  base_max < 0x80000000 -> ext_max < 2 ^ 32 - 1 ->
  forall (i : cpuid_input) (done : list cpuid_entry),
    reachable_input base_max ext_max i ->
    Forall (reachable_input base_max ext_max)
      (apply_loop_visits n xch domid info base_max ext_max i done).
Proof.
  intros Hb He.
  induction n as [|n IH]; intros i done Hi; [constructor|].
  cbn [apply_loop_visits]. cbv zeta.
  constructor; [exact Hi|].
  destruct (negb _); [constructor|].
  pose proof (next_input_reachable base_max ext_max i
                (xc_cpuid_policy info i (cpuid i)) Hb He Hi) as Hn.
  destruct (next_input base_max ext_max i
              (xc_cpuid_policy info i (cpuid i))) as [i'|]; [|constructor].
  apply IH. exact Hn.
Qed.

(** X11.  On hardware whose leaf 0 reports a non-negative maximum, every
    input a traversal visits is within the ceilings computed at its start:
    a basic leaf up to the smaller of the hardware maximum and 0xd, or an
    extended leaf from 0x80000000 up to the smaller of the hardware maximum
    and the vendor's ceiling (0x8000001c for AMD, 0x80000008 otherwise);
    only leaf 4 carries an arbitrary sub-leaf, leaf 7 is at sub-leaf 0,
    leaf 0xd at sub-leaves 0 to 63, and every other leaf at "unused".
    This holds for the inputs of the first [n] iterations, for every [n],
    whether the call ever returns or not: a call that returns reports
    exactly these inputs, and a call that has not returned after [fuel]
    iterations has visited [fuel] of them. *)
Theorem traversal_stays_within_ceilings
    (xch : xc_interface) (domid : Z)
    (caller_set : option (list Z)) (caller_nr : Z) (h : heap) :
  0 <= eax (cpuid (mkInput 0 0)) ->
  let base_max := Z.min (eax (cpuid (mkInput 0 0))) DEF_MAX_BASE in
  let ext_max :=
    Z.min (eax (cpuid (mkInput 0x80000000 0)))
          (if vendor_eqb (vendor_of (cpuid (mkInput 0 0))) VENDOR_AMD
           then DEF_MAX_AMDEXT else DEF_MAX_INTELEXT) in
  (forall n : nat,
     Forall (reachable_input base_max ext_max)
       (xc_cpuid_apply_policy_visits n xch domid caller_set caller_nr h)) /\
  (forall (fuel : nat) (t : traversal) (h' : heap),
     xc_cpuid_apply_policy fuel xch domid caller_set caller_nr h
       = Returns (t, h') ->
     tr_visited t
       = xc_cpuid_apply_policy_visits fuel xch domid caller_set caller_nr h
     /\ Forall (reachable_input base_max ext_max) (tr_visited t)) /\
  (forall fuel : nat,
     xc_cpuid_apply_policy fuel xch domid caller_set caller_nr h
       = OutOfFuel ->
     List.length
       (xc_cpuid_apply_policy_visits fuel xch domid caller_set caller_nr h)
     = fuel).
Proof.
  intros H0 base_max ext_max.
  assert (Hb : base_max < 0x80000000).
  { unfold base_max, DEF_MAX_BASE. lia. }
  assert (He : ext_max < 2 ^ 32 - 1).
  { unfold ext_max, DEF_MAX_AMDEXT, DEF_MAX_INTELEXT.
    destruct (vendor_eqb _ VENDOR_AMD); lia. }
  assert (Eb : base_max_of (cpuid (mkInput 0 0)) = base_max).
  { unfold base_max_of, base_max.
    destruct (Z.leb_spec (eax (cpuid (mkInput 0 0))) DEF_MAX_BASE); lia. }
  assert (Hstart : reachable_input base_max ext_max
                     (mkInput 0 XEN_CPUID_INPUT_UNUSED)).
  { left. cbn [input0 input1]. unfold base_max, DEF_MAX_BASE.
    repeat split; try lia; try discriminate. }
  assert (Hall : forall n : nat,
            Forall (reachable_input base_max ext_max)
              (xc_cpuid_apply_policy_visits n xch domid caller_set
                 caller_nr h)).
  { intros n. unfold xc_cpuid_apply_policy_visits.
    destruct (get_cpuid_domain_info xch domid empty_info caller_set
                caller_nr h) as [[[rc info] h1]| |] eqn:Hget;
      try constructor.
    destruct (negb (rc =? 0)); [constructor|].
    apply get_cpuid_domain_info_returns in Hget. destruct Hget as [Hven _].
    assert (Ee : ext_max_of (vendor info) (cpuid (mkInput 0x80000000 0))
                 = ext_max).
    { unfold ext_max_of, ext_max. rewrite Hven.
      change (cpuid (mkInput 0 U32.max_unsigned)) with (cpuid (mkInput 0 0)).
      destruct (vendor_eqb _ VENDOR_AMD);
        match goal with
        | |- context [?a <=? ?b] => destruct (Z.leb_spec a b)
        end; lia. }
    rewrite Eb, Ee.
    apply apply_loop_visits_reachable; assumption. }
  split; [exact Hall|]. split.
  - intros fuel t h' Hrun.
    assert (Heq : tr_visited t
                  = xc_cpuid_apply_policy_visits fuel xch domid caller_set
                      caller_nr h).
    { unfold xc_cpuid_apply_policy, xc_cpuid_apply_policy_visits in *.
      destruct (get_cpuid_domain_info xch domid empty_info caller_set
                  caller_nr h) as [[[rc info] h1]| |]; try discriminate.
      destruct (negb (rc =? 0)).
      { injection Hrun as <- _. reflexivity. }
      destruct (apply_loop fuel xch domid info _ _ _ [] [])
        as [t'| |] eqn:Hloop; try discriminate.
      injection Hrun as <- _.
      exact (apply_loop_visits_returns _ _ _ _ _ _ _ _ _ _ Hloop). }
    split; [exact Heq|]. rewrite Heq. apply Hall.
  - intros fuel Hrun.
    pose proof (get_cpuid_domain_info_ends xch domid caller_set caller_nr h)
      as Hends.
    unfold xc_cpuid_apply_policy, xc_cpuid_apply_policy_visits in *.
    destruct (get_cpuid_domain_info xch domid empty_info caller_set
                caller_nr h) as [[[rc info] h1]| |];
      try discriminate; [|congruence].
    destruct (negb (rc =? 0)); [discriminate|].
    destruct (apply_loop fuel xch domid info _ _ _ [] [])
      as [t'| |] eqn:Hloop; try discriminate.
    exact (apply_loop_visits_out_of_fuel _ _ _ _ _ _ _ _ _ Hloop).
Qed.

(** X12.  [xc_cpuid_apply_policy] gives back the feature-set block on every
    path by which it returns: as many blocks are live afterwards as before.
    When the domain context cannot be resolved, the resolver's code is
    returned and no leaf is visited or programmed. *)
Theorem apply_policy_releases_context
    (fuel : nat) (xch : xc_interface) (domid : Z)
    (caller_set : option (list Z)) (caller_nr : Z) (h : heap)
    (t : traversal) (h' : heap) :
  xc_cpuid_apply_policy fuel xch domid caller_set caller_nr h
    = Returns (t, h') ->
  live h' = live h /\
  forall rc info h1,
    get_cpuid_domain_info xch domid empty_info caller_set caller_nr h
      = Returns (rc, info, h1) ->
    rc <> 0 -> t = mkTraversal rc [] [].
Proof.
  intros Hrun.
  destruct (xc_cpuid_apply_policy_unfold _ _ _ _ _ _ _ _ Hrun)
    as (rc & info & h1 & Hget & -> & Hcases).
  split.
  - apply get_cpuid_domain_info_returns in Hget. destruct Hget as [_ Hl].
    apply live_free_info. lia.
  - intros rc' info' h1' Hget' Hne. rewrite Hget in Hget'.
    injection Hget' as <- <- <-.
    destruct Hcases as [(_ & Ht)|(Hz & _)]; [exact Ht|contradiction].
Qed.

(** ** Numerals and explicit directives *)

Lemma chars_ext (s t : list ascii) :
  List.length s = List.length t ->
  (forall m, char_at s m = char_at t m) -> s = t.
Proof.
  prune. intros Hl H. apply (nth_ext s t NUL NUL Hl). intros n _. apply H.
Qed.

Lemma strs_ext (a b : strs) :
  List.length a = 4%nat -> List.length b = 4%nat ->
  (forall k, (k < 4)%nat -> slot a k = slot b k) -> a = b.
Proof.
  prune. intros Ha Hb H. apply (nth_ext a b None None); [congruence|].
  intros n Hn. apply H. lia.
Qed.

Lemma regs_ext (a b : regs) :
  (forall k, (k < 4)%nat -> reg_get a k = reg_get b k) -> a = b.
Proof.
  prune. intros H. destruct a, b.
  pose proof (H 0%nat ltac:(lia)). pose proof (H 1%nat ltac:(lia)).
  pose proof (H 2%nat ltac:(lia)). pose proof (H 3%nat ltac:(lia)).
  cbn in *. congruence.
Qed.

Lemma binary_string_length (v : Z) : List.length (binary_string v) = 33%nat.
Proof.
  prune. unfold binary_string.
  rewrite length_app, length_map, length_seq. reflexivity.
Qed.

Lemma char_at_binary_string (v : Z) (m : nat) :
  char_at (binary_string v) m =
  if Nat.ltb m 32 then digit (Z.testbit v (31 - Z.of_nat m)) else NUL.
Proof.
  prune. unfold char_at, binary_string.
  destruct (Nat.ltb_spec m 32) as [Hlt|Hge].
  - rewrite app_nth1 by (rewrite length_map, length_seq; exact Hlt).
    rewrite (nth_indep _ NUL (digit (Z.testbit v (31 - Z.of_nat 0))))
      by (rewrite length_map, length_seq; exact Hlt).
    rewrite (map_nth (fun j : nat => digit (Z.testbit v (31 - Z.of_nat j)))).
    rewrite seq_nth by exact Hlt. reflexivity.
  - rewrite app_nth2 by (rewrite length_map, length_seq; exact Hge).
    rewrite length_map, length_seq.
    destruct (m - 32)%nat as [|[|k]]; reflexivity.
Qed.

Lemma char_at_nul_block (m : nat) : char_at (repeat NUL 33) m = NUL.
Proof.
  prune. unfold char_at.
  destruct (Nat.ltb_spec m 33) as [Hlt|Hge].
  - apply nth_repeat_lt. exact Hlt.
  - apply nth_overflow. rewrite repeat_length. exact Hge.
Qed.

Lemma to_str_bits_spec (n : nat) :
  forall (j : nat) (reg : Z) (out : list ascii),
    (j + n = 32)%nat ->
    List.length (to_str_bits n j reg out) = List.length out /\
    forall m,
      char_at (to_str_bits n j reg out) m =
      if (Nat.leb j m && Nat.ltb m 32 && Nat.ltb m (List.length out))%bool
      then digit (Z.testbit reg (31 - Z.of_nat m))
      else char_at out m.
Proof.
  prune.
  induction n as [|n IH]; intros j reg out Hj; cbn [to_str_bits].
  - split; [reflexivity|]. intros m.
    destruct (Nat.leb_spec j m), (Nat.ltb_spec m 32); cbn [andb];
      try reflexivity; lia.
  - destruct (IH (S j) reg
                (store out j (if bit_of reg j then "1"%char else "0"%char))
                ltac:(lia)) as [Hl Hc].
    rewrite store_length in Hl, Hc. split; [exact Hl|].
    intros m. rewrite Hc, char_at_store.
    rewrite (bit_of_testbit reg j) by lia.
    destruct (Nat.eqb_spec m j) as [->|Hne].
    + destruct (Nat.leb_spec (S j) j); [lia|].
      destruct (Nat.leb_spec j j); [|lia].
      destruct (Nat.ltb_spec j 32); [|lia]. cbn [andb].
      destruct (Nat.ltb j (List.length out)); [|reflexivity].
      destruct (Z.testbit reg (31 - Z.of_nat j)); reflexivity.
    + cbn [andb].
      destruct (Nat.leb_spec (S j) m), (Nat.leb_spec j m); try lia;
        reflexivity.
Qed.

Lemma to_str_bits_binary (reg : Z) :
  to_str_bits 32 0 reg (repeat NUL 33) = binary_string reg.
Proof.
  prune.
  destruct (to_str_bits_spec 32 0 reg (repeat NUL 33) eq_refl) as [Hl Hc].
  apply chars_ext.
  - rewrite Hl, binary_string_length. apply repeat_length.
  - intros m. rewrite Hc, char_at_binary_string, repeat_length,
      char_at_nul_block.
    cbn [Nat.leb andb].
    destruct (Nat.ltb_spec m 32), (Nat.ltb_spec m 33); cbn [andb];
      try reflexivity; lia.
Qed.

Lemma to_str_regs_step (n i : nat) (r : regs) (ss : strs) (h : heap) :
  to_str_regs (S n) i r ss h =
  to_str_regs n (S i) r
    (set_slot ss i (if malloc_ok (requests h)
                    then Some (binary_string (reg_get r i)) else None))
    (mkHeap (S (requests h))
            (if malloc_ok (requests h) then S (live h) else live h)).
Proof.
  cbn [to_str_regs]. unfold alloc_str, malloc.
  destruct (malloc_ok (requests h)); cbv beta iota zeta.
  - rewrite set_slot_twice, to_str_bits_binary. reflexivity.
  - reflexivity.
Qed.

(** X13.  [xc_cpuid_to_str] asks for four blocks, one per register, and
    overwrites every slot of the caller's array whatever it held: a slot is
    NULL exactly when its allocation failed, and the registers after a
    failed one are still converted; otherwise it holds the 32 binary digits
    of the register, bit 31 first, followed by NUL. *)
Theorem to_str_writes_binary (r : regs) (ss : strs) (h : heap) :
  List.length ss = 4%nat ->
  (forall i, (i < 4)%nat ->
     slot (fst (xc_cpuid_to_str r ss h)) i =
     if malloc_ok (requests h + i)
     then Some (binary_string (reg_get r i)) else None) /\
  requests (snd (xc_cpuid_to_str r ss h)) = (requests h + 4)%nat /\
  live (snd (xc_cpuid_to_str r ss h))
    = (live h + count_some (fst (xc_cpuid_to_str r ss h)))%nat.
Proof.
  intros Hl.
  destruct ss as [|a [|b [|c [|d [|e t]]]]]; try discriminate Hl.
  unfold xc_cpuid_to_str. rewrite !to_str_regs_step.
  cbn [to_str_regs requests live set_slot fst snd].
  split.
  { intros [|[|[|[|i]]]] Hi; try lia;
      rewrite ?Nat.add_succ_r, ?Nat.add_0_r; reflexivity. }
  split; [rewrite ?Nat.add_succ_r, ?Nat.add_0_r; reflexivity|].
  unfold count_some.
  destruct (malloc_ok (requests h)), (malloc_ok (S (requests h))),
    (malloc_ok (S (S (requests h)))), (malloc_ok (S (S (S (requests h)))));
    cbn [filter List.length]; lia.
Qed.

Lemma check_accepts_digit (b raw : bool) :
  check_accepts (digit b) raw = Bool.eqb b raw.
Proof. prune. destruct b, raw; reflexivity. Qed.

Lemma stored_char_digit (b v : bool) : stored_char (digit b) v = digit b.
Proof. prune. destruct b; reflexivity. Qed.

Lemma set_val_digit (b raw pol : bool) : set_val (digit b) raw pol = b.
Proof. prune. destruct b; reflexivity. Qed.

Lemma slot_explicit_directive (v : regs) (k : nat) :
  (k < 4)%nat ->
  slot (explicit_directive v) k = Some (binary_string (reg_get v k)).
Proof.
  prune. intros Hk. destruct k as [|[|[|[|k]]]]; try lia; reflexivity.
Qed.

Lemma u32_high_bits (x n : Z) : u32 x -> 32 <= n -> Z.testbit x n = false.
Proof.
  prune. intros Hx Hn. apply u32_iff_land in Hx. rewrite <- Hx.
  rewrite Z.land_spec, Z.ones_spec_high by lia. apply andb_false_r.
Qed.

Lemma u32_ext (x y : Z) : u32 x -> u32 y -> same_low32 x y -> x = y.
Proof.
  prune. intros Hx Hy H. apply Z.bits_inj'. intros n Hn.
  destruct (Z_lt_ge_dec n 32) as [Hlt|Hge].
  - specialize (H (Z.to_nat (31 - n)) ltac:(lia)).
    replace (31 - Z.of_nat (Z.to_nat (31 - n))) with n in H by lia.
    exact H.
  - rewrite !u32_high_bits by (assumption || lia). reflexivity.
Qed.

Lemma set_bits_u32 (n : nat) :
  forall (j : nat) (polreg : Z) (cfg : list ascii) (reg : Z)
         (out : list ascii) (reg' : Z) (out' : list ascii),
    u32 reg ->
    set_bits n j polreg cfg reg out = Some (reg', out') -> u32 reg'.
Proof.
  prune.
  induction n as [|n IH]; intros j polreg cfg reg out reg' out' Hu H;
    cbn [set_bits] in H.
  - now injection H as <- <-.
  - destruct (negb (strchr "10xks" (char_at cfg j))); [discriminate|].
    eapply IH; [|exact H].
    match goal with
    | |- u32 (if ?b then _ else _) => destruct b
    end; [now apply u32_set_bit|apply u32_clear_bit].
Qed.

(** X14.  A directive that spells out every bit (the strings
    [xc_cpuid_to_str] writes for a quadruple [v]) passes [xc_cpuid_check]
    exactly when [v] is the hardware answer in bits 0 to 31 of every
    register; the strings come back unchanged; and when they do not pass,
    the code is -EPERM.  Allocation is taken to succeed. *)
Theorem check_explicit_directive (input : cpuid_input) (v : regs)
    (h : heap) :
  (forall q, malloc_ok q = true) ->
  (dr_rc (xc_cpuid_check input (explicit_directive v) h) = 0 <->
   forall k, (k < 4)%nat ->
     same_low32 (reg_get v k) (reg_get (cpuid input) k)) /\
  (dr_rc (xc_cpuid_check input (explicit_directive v) h) = 0 ->
   dr_transformed (xc_cpuid_check input (explicit_directive v) h)
     = explicit_directive v) /\
  (dr_rc (xc_cpuid_check input (explicit_directive v) h) <> 0 ->
   dr_rc (xc_cpuid_check input (explicit_directive v) h) = - EPERM).
Proof.
  intros Hm.
  destruct (xc_cpuid_check_unfold input (explicit_directive v) h)
    as (rc & ct & h' & Hregs & Hlen & Hres).
  rewrite Hres.
  destruct (check_regs_inv 4 0 (cpuid input) (explicit_directive v) no_strs
              h rc ct h' Hregs eq_refl eq_refl
              (fun k _ => no_strs_none k))
    as (_ & _ & Hcodes & Hok & Hperm & Hnomem).
  assert (Hfwd : rc = 0 ->
            (forall k, (k < 4)%nat ->
               same_low32 (reg_get v k) (reg_get (cpuid input) k)) /\
            ct = explicit_directive v).
  { intros H0. specialize (Hok H0).
    assert (Hk : forall k, (k < 4)%nat ->
              same_low32 (reg_get v k) (reg_get (cpuid input) k) /\
              slot ct k = Some (binary_string (reg_get v k))).
    { intros k Hk. destruct (Hok k) as [_ Hs].
      specialize (Hs ltac:(lia)).
      rewrite (slot_explicit_directive v k Hk) in Hs.
      destruct Hs as (out & Hslot & Hbits).
      destruct (check_bits_spec 32 0 _ _ _ _ eq_refl Hbits)
        as (Hl & Hc & Hacc).
      split.
      - intros j Hj. specialize (Hacc j ltac:(lia)).
        rewrite char_at_binary_string in Hacc.
        destruct (Nat.ltb_spec j 32); [|lia].
        rewrite check_accepts_digit in Hacc.
        now apply Bool.eqb_prop in Hacc.
      - rewrite Hslot. f_equal. apply chars_ext.
        + rewrite Hl, binary_string_length. apply repeat_length.
        + intros m. rewrite Hc, repeat_length, char_at_nul_block.
          rewrite !char_at_binary_string. cbn [Nat.leb andb].
          destruct (Nat.ltb_spec m 32), (Nat.ltb_spec m 33); cbn [andb];
            try lia; try reflexivity.
          apply stored_char_digit. }
    split; [intros k Hk'; apply (Hk k Hk')|].
    apply strs_ext; [exact Hlen|reflexivity|].
    intros k Hk'. rewrite slot_explicit_directive by exact Hk'.
    apply (Hk k Hk'). }
  assert (Hbwd : (forall k, (k < 4)%nat ->
                    same_low32 (reg_get v k) (reg_get (cpuid input) k)) ->
                 rc = 0).
  { intros Hsame. destruct Hcodes as [H0|[Hn|Hp]]; [exact H0| |].
    - destruct (Hnomem Hn) as [q Hq]. rewrite Hm in Hq. discriminate.
    - destruct (Hperm Hp) as (k & cfg & Hk & Hslot & Hnone).
      rewrite slot_explicit_directive in Hslot by lia.
      injection Hslot as <-.
      destruct (check_bits_none 32 0 _ _ _ eq_refl Hnone) as (m & Hm' & Hrej).
      rewrite char_at_binary_string in Hrej.
      destruct (Nat.ltb_spec m 32); [|lia].
      rewrite check_accepts_digit, (Hsame k ltac:(lia) m ltac:(lia)) in Hrej.
      rewrite Bool.eqb_reflx in Hrej. discriminate. }
  destruct (Z.eqb_spec rc 0) as [H0|Hne]; cbn [dr_rc dr_transformed].
  - destruct (Hfwd H0) as [Hsame Hct].
    split; [split; [intros _; exact Hsame|reflexivity]|].
    split; [intros _; exact Hct|]. intros Hc. now contradiction Hc.
  - split; [split; [intros Hc; contradiction|intros Hs; exact (Hbwd Hs)]|].
    split; [intros Hc; contradiction|]. intros _.
    destruct Hcodes as [H0|[Hn|Hp]]; [contradiction| |exact Hp].
    destruct (Hnomem Hn) as [q Hq]. rewrite Hm in Hq. discriminate.
Qed.

(** ** Set mode: what a successful call did *)

Lemma xc_cpuid_set_success (xch : xc_interface) (domid : Z)
    (input : cpuid_input) (config : strs) (h : heap)
    (res : directive_result) :
  xc_cpuid_set xch domid input config h = Returns res ->
  dr_rc res = 0 ->
  exists info h1 r ct h2,
    get_cpuid_domain_info xch domid empty_info None 0 h
      = Returns (0, info, h1) /\
    set_regs 4 0 (xc_cpuid_policy info input (cpuid input)) config
             (cpuid input) no_strs h1 = (0, r, ct, h2) /\
    dr_programmed res = [mkEntry domid input r] /\
    dr_transformed res = ct.
Proof.
  intros Hrun Hrc.
  destruct (xc_cpuid_set_unfold xch domid input config h)
    as (rc0 & info & h1 & Hget & Hcases).
  destruct Hcases as [(Hne & hf & _ & Hres)|(-> & rc & r & ct & h2 & Hset & Hc)].
  { rewrite Hres in Hrun. injection Hrun as <-. contradiction. }
  destruct Hc as [(Hne & hf & _ & Hres)|[(_ & Hne & hf & _ & Hres)
                                        |(-> & _ & hf & _ & Hres)]].
  - rewrite Hres in Hrun. injection Hrun as <-. contradiction.
  - rewrite Hres in Hrun. injection Hrun as <-. contradiction.
  - rewrite Hres in Hrun. injection Hrun as <-.
    exists info, h1, r, ct, h2. repeat split; assumption.
Qed.

Lemma reg_get_u32 (r : regs) (k : nat) : regs_u32 r -> u32 (reg_get r k).
Proof.
  prune. intros (Ha & Hb & Hc & Hd).
  destruct k as [|[|[|k]]]; assumption.
Qed.

(** X15.  On hardware that answers in 32-bit values, a directive that
    spells out every bit of a 32-bit quadruple [v] makes a successful
    [xc_cpuid_set] program exactly [v], whatever the policy and the
    hardware say, and the strings come back unchanged. *)
Theorem set_explicit_directive (xch : xc_interface) (domid : Z)
    (input : cpuid_input) (v : regs) (h : heap) (res : directive_result) :
  regs_u32 (cpuid input) -> regs_u32 v ->
  xc_cpuid_set xch domid input (explicit_directive v) h = Returns res ->
  dr_rc res = 0 ->
  dr_programmed res = [mkEntry domid input v] /\
  dr_transformed res = explicit_directive v.
Proof.
  intros Hhw Hv Hrun Hrc.
  destruct (xc_cpuid_set_success _ _ _ _ _ _ Hrun Hrc)
    as (info & h1 & r & ct & h2 & _ & Hset & -> & ->).
  destruct (set_regs_inv 4 0 _ _ _ _ _ _ _ _ _ Hset eq_refl eq_refl
              (fun k _ => no_strs_none k))
    as (Hlen & _ & _ & Hok).
  specialize (Hok eq_refl).
  assert (Hk : forall k, (k < 4)%nat ->
            reg_get r k = reg_get v k /\
            slot ct k = Some (binary_string (reg_get v k))).
  { intros k Hk. destruct (Hok k) as [_ Hs]. specialize (Hs ltac:(lia)).
    rewrite (slot_explicit_directive v k Hk) in Hs.
    destruct Hs as (out & Hslot & Hbits).
    pose proof (set_bits_u32 _ _ _ _ _ _ _ _ (reg_get_u32 _ k Hhw) Hbits)
      as Hu.
    destruct (set_bits_spec 32 0 _ _ _ _ _ _ eq_refl Hbits)
      as (Hl & Hb & Hc & _).
    split.
    - apply u32_ext; [exact Hu|apply reg_get_u32; exact Hv|].
      intros j Hj. rewrite (Hb j Hj). cbn [Nat.ltb Nat.leb].
      rewrite char_at_binary_string.
      destruct (Nat.ltb_spec j 32); [|lia]. apply set_val_digit.
    - rewrite Hslot. f_equal. apply chars_ext.
      + rewrite Hl, binary_string_length. apply repeat_length.
      + intros m. rewrite Hc, repeat_length, char_at_nul_block.
        rewrite !char_at_binary_string. cbn [Nat.leb andb].
        destruct (Nat.ltb_spec m 32), (Nat.ltb_spec m 33); cbn [andb];
          try lia; try reflexivity.
        apply stored_char_digit. }
  split.
  - f_equal. f_equal. apply regs_ext. intros k Hk'. apply (Hk k Hk').
  - apply strs_ext; [exact Hlen|reflexivity|].
    intros k Hk'. rewrite slot_explicit_directive by exact Hk'.
    apply (Hk k Hk').
Qed.

(** ** Feeding a transformed directive back *)

Lemma store_store (s : list ascii) (j : nat) (a b : ascii) :
  store (store s j a) j b = store s j b.
Proof.
  prune. revert j. induction s as [|c t IH]; intros [|j]; cbn [store];
    try reflexivity.
  now rewrite IH.
Qed.

Lemma set_val_stored_char (c : ascii) (raw pol : bool) :
  set_val (stored_char c (set_val c raw pol)) raw pol = set_val c raw pol.
Proof.
  prune. unfold stored_char. destruct (Ascii.eqb_spec c "s") as [->|Hne].
  - apply set_val_digit.
  - reflexivity.
Qed.

Lemma stored_char_not_s (c : ascii) (v : bool) :
  Ascii.eqb (stored_char c v) "s" = false.
Proof.
  prune. unfold stored_char. destruct (Ascii.eqb c "s") eqn:E.
  - destruct v; reflexivity.
  - exact E.
Qed.

Lemma strchr_set_stored_char (c : ascii) (v : bool) :
  strchr "10xks" c = true -> strchr "10xks" (stored_char c v) = true.
Proof.
  prune. unfold stored_char. destruct (Ascii.eqb c "s").
  - intros _. destruct v; reflexivity.
  - trivial.
Qed.

Lemma set_bits_step (n j : nat) (polreg : Z) (cfg : list ascii) (reg : Z)
    (out : list ascii) :
  set_bits (S n) j polreg cfg reg out =
  if negb (strchr "10xks" (char_at cfg j)) then None
  else
    set_bits n (S j) polreg cfg
      (if set_val (char_at cfg j) (bit_of reg j) (bit_of polreg j)
       then set_bit (31 - Z.of_nat j) reg
       else clear_bit (31 - Z.of_nat j) reg)
      (store out j
         (stored_char (char_at cfg j)
            (set_val (char_at cfg j) (bit_of reg j) (bit_of polreg j)))).
Proof.
  prune. cbn [set_bits]. unfold set_val, stored_char.
  destruct (negb (strchr "10xks" (char_at cfg j))); [reflexivity|].
  destruct (Ascii.eqb (char_at cfg j) "s");
    [rewrite store_store|]; reflexivity.
Qed.

Lemma bit_of_after_step (reg : Z) (j m : nat) (v : bool) :
  (j < 32)%nat -> (m < 32)%nat -> m <> j ->
  bit_of (if v then set_bit (31 - Z.of_nat j) reg
          else clear_bit (31 - Z.of_nat j) reg) m = bit_of reg m.
Proof.
  prune. intros Hj Hm Hne. rewrite !bit_of_testbit by assumption.
  destruct v.
  - rewrite testbit_set_bit by lia.
    destruct (Z.eqb_spec (31 - Z.of_nat m) (31 - Z.of_nat j)); [lia|].
    reflexivity.
  - rewrite testbit_clear_bit by lia.
    destruct (Z.eqb_spec (31 - Z.of_nat m) (31 - Z.of_nat j)); [lia|].
    reflexivity.
Qed.

(** The set loop run on a string that agrees, from [j] on, with what the
    loop stores for [cfg] does what it does for [cfg]. *)
Lemma set_bits_resupply (n : nat) :
  forall (j : nat) (polreg : Z) (cfg cfg2 : list ascii) (reg : Z)
         (out : list ascii) (reg' : Z) (out' : list ascii),
    (j + n = 32)%nat ->
    (forall m, (j <= m < 32)%nat ->
       char_at cfg2 m =
       stored_char (char_at cfg m)
         (set_val (char_at cfg m) (bit_of reg m) (bit_of polreg m))) ->
    set_bits n j polreg cfg reg out = Some (reg', out') ->
    set_bits n j polreg cfg2 reg out = Some (reg', out').
Proof.
  prune.
  induction n as [|n IH]; intros j polreg cfg cfg2 reg out reg' out' Hj Hc H.
  - exact H.
  - rewrite set_bits_step in H |- *.
    destruct (strchr "10xks" (char_at cfg j)) eqn:Hs; cbn [negb] in H;
      [|discriminate].
    rewrite (Hc j ltac:(lia)).
    rewrite strchr_set_stored_char by exact Hs. cbn [negb].
    rewrite set_val_stored_char.
    assert (Hsc : forall c v, stored_char (stored_char c v) v
                              = stored_char c v).
    { intros c v. unfold stored_char at 1.
      now rewrite stored_char_not_s. }
    rewrite Hsc.
    eapply IH; [lia| |exact H].
    intros m Hm. rewrite bit_of_after_step by lia. apply Hc. lia.
Qed.

Lemma set_bits_own_output (polreg : Z) (cfg : list ascii) (reg reg' : Z)
    (out' : list ascii) :
  set_bits 32 0 polreg cfg reg (repeat NUL 33) = Some (reg', out') ->
  set_bits 32 0 polreg out' reg (repeat NUL 33) = Some (reg', out').
Proof.
  prune. intros H.
  apply (set_bits_resupply 32 0 polreg cfg out' reg _ reg' out' eq_refl);
    [|exact H].
  destruct (set_bits_spec 32 0 _ _ _ _ _ _ eq_refl H) as (_ & _ & Hc & _).
  intros m Hm. rewrite Hc, repeat_length.
  destruct (Nat.leb_spec 0 m); [|lia].
  destruct (Nat.ltb_spec m 32); [|lia].
  destruct (Nat.ltb_spec m 33); [|lia]. cbn [andb].
  rewrite !bit_of_testbit by lia. reflexivity.
Qed.

(** A resolution that succeeds gives the same context whatever the heap
    is. *)
Lemma resolved_info_unique (xch : xc_interface) (domid : Z)
    (caller_set : option (list Z)) (caller_nr : Z) (h h' : heap)
    (info info' : cpuid_domain_info) (h1 h1' : heap) :
  get_cpuid_domain_info xch domid empty_info caller_set caller_nr h
    = Returns (0, info, h1) ->
  get_cpuid_domain_info xch domid empty_info caller_set caller_nr h'
    = Returns (0, info', h1') ->
  info = info'.
Proof.
  unfold get_cpuid_domain_info.
  destruct (xc_domain_getinfo xch domid) as [found di].
  destruct (negb (found =? 1) || negb (di_domid di =? domid))%bool.
  { intros H. injection H as H _ _. discriminate H. }
  unfold malloc.
  destruct (malloc_ok (requests h)); cbn [negb];
    [|intros H; injection H as H _ _; discriminate H].
  destruct (malloc_ok (requests h')); cbn [negb];
    [|intros _ H; injection H as H _ _; discriminate H].
  destruct caller_set as [fs|].
  - destruct (memcpy_words _ fs _) as [words| |]; try discriminate.
    destruct (truncated_bits _ _ fs) as [[|]| |]; try discriminate.
    destruct (get_cpuid_domain_info_tail _ _ _ _ _ _) as [rc i1].
    intros H H'. injection H as _ <- _. injection H' as _ <- _.
    reflexivity.
  - destruct (get_cpuid_domain_info_tail _ _ _ _ _ _) as [rc i1].
    intros H H'. injection H as _ <- _. injection H' as _ <- _.
    reflexivity.
Qed.

(** X16.  The strings a successful [xc_cpuid_set] returns are a fixed
    point: supplied as the directive of a second call for the same leaf
    and domain, they program the same quadruple and come back unchanged,
    whenever that call succeeds. *)
Theorem set_transformed_is_fixed_point (xch : xc_interface) (domid : Z)
    (input : cpuid_input) (config : strs) (h h2 : heap)
    (res res2 : directive_result) :
  xc_cpuid_set xch domid input config h = Returns res ->
  dr_rc res = 0 ->
  xc_cpuid_set xch domid input (dr_transformed res) h2 = Returns res2 ->
  dr_rc res2 = 0 ->
  dr_programmed res2 = dr_programmed res /\
  dr_transformed res2 = dr_transformed res.
Proof.
  intros Hrun Hrc Hrun2 Hrc2.
  destruct (xc_cpuid_set_success _ _ _ _ _ _ Hrun Hrc)
    as (info & h1 & r & ct & ha & Hget & Hset & Hp & Ht).
  rewrite Ht in Hrun2.
  destruct (xc_cpuid_set_success _ _ _ _ _ _ Hrun2 Hrc2)
    as (info' & h1' & r' & ct' & hb & Hget' & Hset' & Hp' & Ht').
  rewrite <- (resolved_info_unique _ _ _ _ _ _ _ _ _ _ Hget Hget') in Hset'.
  rewrite Hp, Ht, Hp', Ht'.
  destruct (set_regs_inv 4 0 _ _ _ _ _ _ _ _ _ Hset eq_refl eq_refl
              (fun k _ => no_strs_none k)) as (Hlen & _ & _ & Hok).
  destruct (set_regs_inv 4 0 _ _ _ _ _ _ _ _ _ Hset' eq_refl eq_refl
              (fun k _ => no_strs_none k)) as (Hlen' & _ & _ & Hok').
  specialize (Hok eq_refl). specialize (Hok' eq_refl).
  assert (Hk : forall k, (k < 4)%nat ->
            reg_get r' k = reg_get r k /\ slot ct' k = slot ct k).
  { intros k Hk. destruct (Hok k) as [_ Hs], (Hok' k) as [_ Hs'].
    specialize (Hs ltac:(lia)). specialize (Hs' ltac:(lia)).
    destruct (slot config k) as [cfg|].
    - destruct Hs as (out & Hslot & Hbits). rewrite Hslot in Hs' |- *.
      destruct Hs' as (out2 & Hslot' & Hbits').
      rewrite (set_bits_own_output _ _ _ _ _ Hbits) in Hbits'.
      injection Hbits' as -> ->. split; [reflexivity|exact Hslot'].
    - destruct Hs as [Hslot Hreg]. rewrite Hslot in Hs' |- *.
      destruct Hs' as [Hslot' Hreg']. split; congruence. }
  split.
  - f_equal. f_equal. apply regs_ext. intros k Hk'. apply (Hk k Hk').
  - apply strs_ext; [exact Hlen'|exact Hlen|].
    intros k Hk'. apply (Hk k Hk').
Qed.

(** ** Check mode on its own output, and check before set *)

Lemma check_accepts_stored_char (c : ascii) (raw : bool) :
  check_accepts c raw = true -> check_accepts (stored_char c raw) raw = true.
Proof.
  prune. unfold stored_char. destruct (Ascii.eqb c "s").
  - intros _. rewrite check_accepts_digit. apply Bool.eqb_reflx.
  - trivial.
Qed.

Lemma stored_char_twice (c : ascii) (v : bool) :
  stored_char (stored_char c v) v = stored_char c v.
Proof.
  prune. unfold stored_char at 1. now rewrite stored_char_not_s.
Qed.

Lemma check_bits_own_output (reg : Z) (cfg out : list ascii) :
  check_bits 32 0 reg cfg (repeat NUL 33) = Some out ->
  check_bits 32 0 reg out (repeat NUL 33) = Some out.
Proof.
  prune. intros H.
  destruct (check_bits_spec 32 0 _ _ _ _ eq_refl H) as (Hl & Hc & Hacc).
  assert (Hchar : forall m, (m < 32)%nat ->
            char_at out m =
            stored_char (char_at cfg m) (Z.testbit reg (31 - Z.of_nat m))).
  { intros m Hm. rewrite Hc, repeat_length. cbn [Nat.leb andb].
    destruct (Nat.ltb_spec m 32); [|lia].
    destruct (Nat.ltb_spec m 33); [|lia]. reflexivity. }
  destruct (check_bits 32 0 reg out (repeat NUL 33)) as [out2|] eqn:H2.
  - destruct (check_bits_spec 32 0 _ _ _ _ eq_refl H2) as (Hl2 & Hc2 & _).
    f_equal. apply chars_ext; [congruence|].
    intros m. rewrite Hc2, repeat_length. cbn [Nat.leb andb].
    destruct (Nat.ltb_spec m 32) as [Hlt|Hge].
    + destruct (Nat.ltb_spec m 33); [|lia]. cbn [andb].
      rewrite Hchar by assumption. apply stored_char_twice.
    + cbn [andb]. rewrite Hc, repeat_length. cbn [Nat.leb andb].
      destruct (Nat.ltb_spec m 32); [lia|]. reflexivity.
  - destruct (check_bits_none 32 0 _ _ _ eq_refl H2) as (m & Hm & Hrej).
    rewrite Hchar in Hrej by lia.
    rewrite check_accepts_stored_char in Hrej by (apply Hacc; lia).
    discriminate.
Qed.

(** X17.  The strings a successful [xc_cpuid_check] returns pass a second
    check of the same leaf: that check never fails with -EPERM, and when it
    succeeds it returns the strings unchanged. *)
Theorem check_transformed_is_fixed_point (input : cpuid_input)
    (config : strs) (h h2 : heap) :
  dr_rc (xc_cpuid_check input config h) = 0 ->
  dr_rc (xc_cpuid_check input
           (dr_transformed (xc_cpuid_check input config h)) h2) <> - EPERM /\
  (dr_rc (xc_cpuid_check input
            (dr_transformed (xc_cpuid_check input config h)) h2) = 0 ->
   dr_transformed (xc_cpuid_check input
                     (dr_transformed (xc_cpuid_check input config h)) h2)
     = dr_transformed (xc_cpuid_check input config h)).
Proof.
  destruct (xc_cpuid_check_unfold input config h)
    as (rc & ct & h' & Hregs & Hlen & Hres).
  rewrite Hres.
  destruct (Z.eqb_spec rc 0) as [->|Hne]; cbn [dr_rc dr_transformed];
    [intros _|intros Hc; contradiction].
  destruct (check_regs_inv 4 0 _ _ _ _ _ _ _ Hregs eq_refl eq_refl
              (fun k _ => no_strs_none k)) as (_ & _ & _ & Hok & _).
  specialize (Hok eq_refl).
  destruct (xc_cpuid_check_unfold input ct h2)
    as (rc2 & ct2 & h2' & Hregs2 & Hlen2 & Hres2).
  rewrite Hres2.
  destruct (check_regs_inv 4 0 _ _ _ _ _ _ _ Hregs2 eq_refl eq_refl
              (fun k _ => no_strs_none k)) as (_ & _ & _ & Hok2 & Hperm2 & _).
  assert (Hown : forall k cfg2, (k < 4)%nat -> slot ct k = Some cfg2 ->
            check_bits 32 0 (reg_get (cpuid input) k) cfg2 (repeat NUL 33)
              = Some cfg2).
  { intros k cfg2 Hk Hs. destruct (Hok k) as [_ Hge].
    specialize (Hge ltac:(lia)).
    destruct (slot config k) as [cfg|].
    - destruct Hge as (out & Hslot & Hbits).
      rewrite Hslot in Hs. injection Hs as <-.
      now apply check_bits_own_output in Hbits.
    - congruence. }
  destruct (Z.eqb_spec rc2 0) as [->|Hne2]; cbn [dr_rc dr_transformed].
  - split; [unfold EPERM; lia|]. intros _.
    specialize (Hok2 eq_refl).
    apply strs_ext; [exact Hlen2|exact Hlen|].
    intros k Hk. destruct (Hok2 k) as [_ Hge]. specialize (Hge ltac:(lia)).
    destruct (slot ct k) as [cfg2|] eqn:Hs; [|exact Hge].
    destruct Hge as (out & Hslot & Hbits).
    rewrite (Hown k cfg2 Hk Hs) in Hbits. injection Hbits as <-.
    exact Hslot.
  - split; [|intros Hc; contradiction].
    intros Hp. destruct (Hperm2 Hp) as (k & cfg2 & Hk & Hs & Hnone).
    rewrite (Hown k cfg2 ltac:(lia) Hs) in Hnone. discriminate.
Qed.

Lemma set_bits_none (n : nat) :
  forall (j : nat) (polreg : Z) (cfg : list ascii) (reg : Z)
         (out : list ascii),
    (j + n = 32)%nat ->
    set_bits n j polreg cfg reg out = None ->
    exists m, (j <= m < 32)%nat /\ strchr "10xks" (char_at cfg m) = false.
Proof.
  prune.
  induction n as [|n IH]; intros j polreg cfg reg out Hj H.
  - discriminate.
  - rewrite set_bits_step in H.
    destruct (strchr "10xks" (char_at cfg j)) eqn:Hs; cbn [negb] in H.
    + apply IH in H; [|lia]. destruct H as (m & Hm & Hbad).
      exists m. split; [lia|exact Hbad].
    + exists j. split; [lia|exact Hs].
Qed.

(** Why the outer loop of [xc_cpuid_set] leaves through [fail]. *)
Lemma set_regs_fail (n : nat) :
  forall (i : nat) (polregs : regs) (config : strs) (r : regs) (ct : strs)
         (h : heap) (rc : Z) (r' : regs) (ct' : strs) (h' : heap),
    set_regs n i polregs config r ct h = (rc, r', ct', h') ->
    (rc = - ENOMEM -> exists q, malloc_ok q = false) /\
    (rc = - EINVAL ->
     exists k cfg v, (i <= k < i + n)%nat /\ slot config k = Some cfg /\
       set_bits 32 0 (reg_get polregs k) cfg v (repeat NUL 33) = None).
Proof.
  induction n as [|n IH];
    intros i polregs config r ct h rc r' ct' h' H.
  - cbn [set_regs] in H. injection H as <- <- <- <-.
    split; intros Hc; discriminate Hc.
  - cbn [set_regs] in H. destruct (slot config i) as [cfg|] eqn:Hcfg.
    + destruct (alloc_str_cases h) as [[Hok Ha]|[Hok Ha]]; rewrite Ha in H.
      * destruct (set_bits 32 0 (reg_get polregs i) cfg (reg_get r i)
                    (repeat NUL 33)) as [[v out]|] eqn:Hsb.
        -- apply IH in H. destruct H as [Hn Hi]. split; [exact Hn|].
           intros E. destruct (Hi E) as (k & cfg' & v' & Hk & Hs & Hb).
           exists k, cfg', v'. split; [lia|]. split; assumption.
        -- injection H as <- <- <- <-. split.
           ++ intros Hc. discriminate Hc.
           ++ intros _. exists i, cfg, (reg_get r i).
              split; [lia|]. split; assumption.
      * injection H as <- <- <- <-. split.
        -- intros _. exists (requests h). exact Hok.
        -- intros Hc. discriminate Hc.
    + apply IH in H. destruct H as [Hn Hi]. split; [exact Hn|].
      intros E. destruct (Hi E) as (k & cfg' & v' & Hk & Hs & Hb).
      exists k, cfg', v'. split; [lia|]. split; assumption.
Qed.

Lemma strchr_check_in_set (c : ascii) :
  strchr "10xs" c = true -> strchr "10xks" c = true.
Proof.
  prune. intros H. apply strchr_check_alphabet in H.
  apply strchr_set_alphabet. tauto.
Qed.

Lemma check_accepts_in_alphabet (c : ascii) (raw : bool) :
  check_accepts c raw = true -> strchr "10xs" c = true.
Proof.
  prune. unfold check_accepts. intros H. apply negb_true_iff in H.
  apply orb_false_iff in H. destruct H as [H _].
  apply orb_false_iff in H. destruct H as [Hs _].
  now apply negb_false_iff in Hs.
Qed.

(** What the set loop writes at a character the check loop accepts. *)
Lemma set_val_checked (c : ascii) (raw pol : bool) :
  check_accepts c raw = true ->
  set_val c raw pol = if Ascii.eqb c "x" then pol else raw.
Proof.
  prune. unfold check_accepts, set_val.
  destruct (Ascii.eqb_spec c "1") as [->|N1].
  { destruct raw; [reflexivity|discriminate]. }
  destruct (Ascii.eqb_spec c "0") as [->|N0].
  { destruct raw; [discriminate|reflexivity]. }
  reflexivity.
Qed.

(** The run of [xc_cpuid_set] once the context is resolved. *)
Lemma xc_cpuid_set_resolved (xch : xc_interface) (domid : Z)
    (input : cpuid_input) (config : strs) (h : heap)
    (info : cpuid_domain_info) (h1 : heap) :
  get_cpuid_domain_info xch domid empty_info None 0 h
    = Returns (0, info, h1) ->
  exists rc r ct h2,
    set_regs 4 0 (xc_cpuid_policy info input (cpuid input)) config
             (cpuid input) no_strs h1 = (rc, r, ct, h2) /\
    ((rc <> 0 /\
      exists hf,
        xc_cpuid_set xch domid input config h
          = Returns (mkResult rc no_strs [] hf)) \/
     (rc = 0 /\
      set_cpuid xch [] (mkEntry domid input r) <> 0 /\
      exists hf,
        xc_cpuid_set xch domid input config h
          = Returns (mkResult (set_cpuid xch [] (mkEntry domid input r))
                              no_strs [] hf)) \/
     (rc = 0 /\
      set_cpuid xch [] (mkEntry domid input r) = 0 /\
      exists hf,
        xc_cpuid_set xch domid input config h
          = Returns (mkResult 0 ct [mkEntry domid input r] hf))).
Proof.
  intros Hget.
  destruct (xc_cpuid_set_unfold xch domid input config h)
    as (rc0 & info' & h1' & Hget' & Hcases).
  rewrite Hget in Hget'. injection Hget' as <- <- <-.
  destruct Hcases as [(Hne & _)|(_ & rc & r & ct & h2 & Hset & Hc)];
    [contradiction|].
  exists rc, r, ct, h2. split; [exact Hset|].
  unfold xc_cpuid_do_domctl in Hc.
  destruct Hc as [(Hne & hf & _ & Hres)|[(H0 & Hne & hf & _ & Hres)
                                        |(H0 & Hz & hf & _ & Hres)]].
  - left. split; [exact Hne|]. exists hf. exact Hres.
  - right. left. split; [exact H0|]. split; [exact Hne|]. exists hf.
    exact Hres.
  - right. right. split; [exact H0|]. split; [exact Hz|]. exists hf.
    exact Hres.
Qed.

(** X18.  A directive that [xc_cpuid_check] accepts for a leaf is never
    refused by [xc_cpuid_set] for its characters.  With the context
    resolved and allocation succeeding, set sends one quadruple to the
    hypervisor and returns the hypervisor's code; in a register that has a
    directive the quadruple holds, in bits 0 to 31, the policy's bit where
    the directive says 'x' and the hardware's bit everywhere else; a
    register without a directive is the policy's. *)
Theorem checked_directive_sets_hardware_bits (xch : xc_interface)
    (domid : Z) (input : cpuid_input) (config : strs) (hc h : heap)
    (info : cpuid_domain_info) (h1 : heap) :
  (forall q, malloc_ok q = true) ->
  dr_rc (xc_cpuid_check input config hc) = 0 ->
  get_cpuid_domain_info xch domid empty_info None 0 h
    = Returns (0, info, h1) ->
  exists r res,
    xc_cpuid_set xch domid input config h = Returns res /\
    dr_rc res = set_cpuid xch [] (mkEntry domid input r) /\
    (dr_rc res = 0 -> dr_programmed res = [mkEntry domid input r]) /\
    forall k, (k < 4)%nat ->
      match slot config k with
      | None =>
          reg_get r k = reg_get (xc_cpuid_policy info input (cpuid input)) k
      | Some cfg =>
          forall j, (j < 32)%nat ->
            Z.testbit (reg_get r k) (31 - Z.of_nat j) =
            if Ascii.eqb (char_at cfg j) "x"
            then Z.testbit
                   (reg_get (xc_cpuid_policy info input (cpuid input)) k)
                   (31 - Z.of_nat j)
            else Z.testbit (reg_get (cpuid input) k) (31 - Z.of_nat j)
      end.
Proof.
  intros Hm Hchk Hget.
  destruct (xc_cpuid_check_unfold input config hc)
    as (rcc & ctc & hc' & Hregsc & _ & Hresc).
  rewrite Hresc in Hchk.
  destruct (Z.eqb_spec rcc 0) as [->|Hne]; cbn [dr_rc] in Hchk;
    [|contradiction].
  destruct (check_regs_inv 4 0 _ _ _ _ _ _ _ Hregsc eq_refl eq_refl
              (fun k _ => no_strs_none k)) as (_ & _ & _ & Hokc & _).
  specialize (Hokc eq_refl).
  assert (Hacc : forall k cfg, (k < 4)%nat -> slot config k = Some cfg ->
            forall m, (m < 32)%nat ->
              check_accepts (char_at cfg m)
                (Z.testbit (reg_get (cpuid input) k) (31 - Z.of_nat m))
                = true).
  { intros k cfg Hk Hs m Hm'. destruct (Hokc k) as [_ Hge].
    specialize (Hge ltac:(lia)). rewrite Hs in Hge.
    destruct Hge as (out & _ & Hbits).
    destruct (check_bits_spec 32 0 _ _ _ _ eq_refl Hbits) as (_ & _ & Ha).
    apply Ha. lia. }
  destruct (xc_cpuid_set_resolved xch domid input config h info h1 Hget)
    as (rc & r & ct & h2 & Hset & Hcases).
  destruct (set_regs_inv 4 0 _ _ _ _ _ _ _ _ _ Hset eq_refl eq_refl
              (fun k _ => no_strs_none k)) as (_ & _ & Hcodes & Hok).
  destruct (set_regs_fail 4 0 _ _ _ _ _ _ _ _ _ Hset) as [Hnomem Hinval].
  assert (Hrc : rc = 0).
  { destruct Hcodes as [H0|[Hn|Hi]]; [exact H0| |].
    - destruct (Hnomem Hn) as [q Hq]. rewrite Hm in Hq. discriminate.
    - destruct (Hinval Hi) as (k & cfg & v & Hk & Hs & Hnone).
      destruct (set_bits_none 32 0 _ _ _ _ eq_refl Hnone) as (m & Hm' & Hbad).
      pose proof (check_accepts_in_alphabet _ _
                    (Hacc k cfg ltac:(lia) Hs m ltac:(lia))) as Hin.
      rewrite (strchr_check_in_set _ Hin) in Hbad. discriminate. }
  specialize (Hok Hrc).
  assert (Hbits : forall k, (k < 4)%nat ->
    match slot config k with
    | None =>
        reg_get r k = reg_get (xc_cpuid_policy info input (cpuid input)) k
    | Some cfg =>
        forall j, (j < 32)%nat ->
          Z.testbit (reg_get r k) (31 - Z.of_nat j) =
          if Ascii.eqb (char_at cfg j) "x"
          then Z.testbit
                 (reg_get (xc_cpuid_policy info input (cpuid input)) k)
                 (31 - Z.of_nat j)
          else Z.testbit (reg_get (cpuid input) k) (31 - Z.of_nat j)
    end).
  { intros k Hk. destruct (Hok k) as [_ Hge]. specialize (Hge ltac:(lia)).
    destruct (slot config k) as [cfg|] eqn:Hs; [|apply Hge].
    destruct Hge as (out & _ & Hsb). intros j Hj.
    destruct (set_bits_spec 32 0 _ _ _ _ _ _ eq_refl Hsb) as (_ & Hb & _).
    rewrite (Hb j Hj). cbn [Nat.ltb Nat.leb].
    apply set_val_checked. exact (Hacc k cfg Hk Hs j Hj). }
  destruct Hcases as [(Hne & _)|[(_ & Hne & hf & Hres)|(_ & Hz & hf & Hres)]];
    [contradiction| |].
  - exists r. eexists. split; [exact Hres|]. cbn [dr_rc dr_programmed].
    split; [reflexivity|]. split; [intros Hc; contradiction|exact Hbits].
  - exists r. eexists. split; [exact Hres|]. cbn [dr_rc dr_programmed].
    split; [now rewrite Hz|]. split; [reflexivity|exact Hbits].
Qed.

(** X19.  A directive with a character outside "10xks" among the first 32
    of some register is never programmed, not even in part: whatever
    [xc_cpuid_set] returns is a failure with no leaf programmed and no
    string returned, although the registers before the offending one were
    merged; when the context resolves and allocation succeeds the code is
    -EINVAL. *)
Theorem set_rejects_foreign_character (xch : xc_interface) (domid : Z)
    (input : cpuid_input) (config : strs) (h : heap)
    (res : directive_result) (k : nat) (cfg : list ascii) (j : nat) :
  (k < 4)%nat -> slot config k = Some cfg -> (j < 32)%nat ->
  strchr "10xks" (char_at cfg j) = false ->
  xc_cpuid_set xch domid input config h = Returns res ->
  dr_rc res <> 0 /\ dr_programmed res = [] /\ dr_transformed res = no_strs /\
  ((forall q, malloc_ok q = true) ->
   (exists info h1,
      get_cpuid_domain_info xch domid empty_info None 0 h
        = Returns (0, info, h1)) ->
   dr_rc res = - EINVAL).
Proof.
  intros Hk Hs Hj Hbad Hrun.
  assert (Hfail : forall polregs r0 rc r ct h1 h2,
            set_regs 4 0 polregs config r0 no_strs h1 = (rc, r, ct, h2) ->
            rc <> 0).
  { intros polregs r0 rc r ct h1 h2 Hset ->.
    destruct (set_regs_inv 4 0 _ _ _ _ _ _ _ _ _ Hset eq_refl eq_refl
                (fun k _ => no_strs_none k)) as (_ & _ & _ & Hok).
    destruct (Hok eq_refl k) as [_ Hge]. specialize (Hge ltac:(lia)).
    rewrite Hs in Hge. destruct Hge as (out & _ & Hsb).
    destruct (set_bits_spec 32 0 _ _ _ _ _ _ eq_refl Hsb) as (_ & _ & _ & Ha).
    rewrite (Ha j ltac:(lia)) in Hbad. discriminate. }
  destruct (xc_cpuid_set_unfold xch domid input config h)
    as (rc0 & info & h1 & Hget & Hcases).
  destruct Hcases as [(Hne & hf & _ & Hres)|(-> & rc & r & ct & h2 & Hset & Hc)].
  { rewrite Hres in Hrun. injection Hrun as <-. cbn.
    repeat split; try assumption.
    intros _ (info' & h1' & Hget'). rewrite Hget in Hget'.
    injection Hget' as Hc _ _. contradiction. }
  pose proof (Hfail _ _ _ _ _ _ _ Hset) as Hne.
  destruct Hc as [(_ & hf & _ & Hres)|[(H0 & _)|(H0 & _)]];
    [|contradiction|contradiction].
  rewrite Hres in Hrun. injection Hrun as <-. cbn.
  repeat split; try assumption.
  intros Hm _.
  destruct (set_regs_inv 4 0 _ _ _ _ _ _ _ _ _ Hset eq_refl eq_refl
              (fun k _ => no_strs_none k)) as (_ & _ & Hcodes & _).
  destruct (set_regs_fail 4 0 _ _ _ _ _ _ _ _ _ Hset) as [Hnomem _].
  destruct Hcodes as [H0|[Hn|Hi]]; [contradiction| |exact Hi].
  destruct (Hnomem Hn) as [q Hq]. rewrite Hm in Hq. discriminate.
Qed.

(** ** The resolver's answers *)

(** X20.  When the hypervisor has no domain with the identifier asked for
    (the lookup finds nothing, or finds a domain with another identifier),
    the resolver returns -ESRCH before it allocates or queries anything,
    and both entry points that resolve a context hand that code back with
    nothing visited, nothing programmed, no string returned and the heap as
    it was. *)
Theorem absent_domain_is_esrch (fuel : nat) (xch : xc_interface)
    (domid : Z) (caller_set : option (list Z)) (caller_nr : Z) (h : heap)
    (input : cpuid_input) (config : strs) :
  fst (xc_domain_getinfo xch domid) <> 1 \/
  di_domid (snd (xc_domain_getinfo xch domid)) <> domid ->
  (exists info,
     get_cpuid_domain_info xch domid empty_info caller_set caller_nr h
       = Returns (- ESRCH, info, h) /\
     featureset info = None) /\
  xc_cpuid_apply_policy fuel xch domid caller_set caller_nr h
    = Returns (mkTraversal (- ESRCH) [] [], h) /\
  xc_cpuid_set xch domid input config h
    = Returns (mkResult (- ESRCH) no_strs [] h).
Proof.
  intros Habs.
  assert (Hc : (negb (fst (xc_domain_getinfo xch domid) =? 1) ||
                negb (di_domid (snd (xc_domain_getinfo xch domid)) =? domid))
               %bool = true).
  { apply orb_true_iff.
    destruct Habs as [H|H]; [left|right]; apply negb_true_iff;
      now apply Z.eqb_neq. }
  assert (Hget : forall cs cn,
            exists info,
              get_cpuid_domain_info xch domid empty_info cs cn h
                = Returns (- ESRCH, info, h) /\ featureset info = None).
  { intros cs cn. unfold get_cpuid_domain_info.
    destruct (xc_domain_getinfo xch domid) as [found di].
    cbn [fst snd] in Hc. rewrite Hc. eexists. split; reflexivity. }
  split; [apply Hget|]. split.
  - unfold xc_cpuid_apply_policy.
    destruct (Hget caller_set caller_nr) as (info & -> & Hfs).
    change (negb (- ESRCH =? 0)) with true. cbv iota.
    unfold free_cpuid_domain_info. rewrite Hfs. reflexivity.
  - unfold xc_cpuid_set.
    destruct (Hget None 0) as (info & -> & Hfs).
    change (negb (- ESRCH =? 0)) with true. cbv iota.
    unfold free_cpuid_domain_info. rewrite Hfs. reflexivity.
Qed.

Lemma tail_success (xch : xc_interface) (domid : Z) (di : xc_dominfo_t)
    (info : cpuid_domain_info) (given : bool) (host_nr : Z)
    (info' : cpuid_domain_info) :
  get_cpuid_domain_info_tail xch domid di info given host_nr = (0, info') ->
  vendor info' = vendor info /\ hvm info' = hvm info /\
  pvh info' = pvh info /\ nr_features info' = nr_features info /\
  xfeature_mask info' = snd (getvcpuextstate xch domid) /\
  (if di_hvm di
   then pae info' =
          negb (snd (xc_hvm_param_get xch domid HVM_PARAM_PAE_ENABLED) =? 0)
        /\ nestedhvm info' =
             negb (snd (xc_hvm_param_get xch domid HVM_PARAM_NESTEDHVM) =? 0)
        /\ pv64 info' = pv64 info
   else pv64 info' = (snd (xc_domain_get_guest_width xch domid) =? 8)
        /\ pae info' = pae info /\ nestedhvm info' = nestedhvm info) /\
  featureset info' =
    (if given then featureset info
     else Some (snd (xc_get_cpu_featureset xch
                       (if di_hvm di then XEN_SYSCTL_cpu_featureset_hvm
                        else XEN_SYSCTL_cpu_featureset_pv) host_nr))).
Proof.
  prune.
  unfold get_cpuid_domain_info_tail.
  destruct (getvcpuextstate xch domid) as [rc mask].
  destruct (Z.eqb_spec rc 0) as [_|Hne]; cbn [negb];
    [|intros H; injection H as H _; contradiction].
  destruct (di_hvm di).
  - destruct (xc_hvm_param_get xch domid HVM_PARAM_PAE_ENABLED) as [rc1 v1].
    destruct (Z.eqb_spec rc1 0) as [_|Hne]; cbn [negb];
      [|intros H; injection H as H _; contradiction].
    destruct (xc_hvm_param_get xch domid HVM_PARAM_NESTEDHVM) as [rc2 v2].
    destruct (Z.eqb_spec rc2 0) as [_|Hne]; cbn [negb];
      [|intros H; injection H as H _; contradiction].
    destruct given; cbn [negb].
    + intros H. injection H as <-. cbn. repeat split.
    + destruct (xc_get_cpu_featureset xch XEN_SYSCTL_cpu_featureset_hvm
                  host_nr) as [rc3 words].
      destruct (Z.eqb_spec rc3 0) as [_|Hne]; cbn [negb];
        [|intros H; injection H as H _; contradiction].
      intros H. injection H as <-. cbn. repeat split.
  - destruct (xc_domain_get_guest_width xch domid) as [rc1 w].
    destruct (Z.eqb_spec rc1 0) as [_|Hne]; cbn [negb];
      [|intros H; injection H as H _; contradiction].
    destruct given; cbn [negb].
    + intros H. injection H as <-. cbn. repeat split.
    + destruct (xc_get_cpu_featureset xch XEN_SYSCTL_cpu_featureset_pv
                  host_nr) as [rc3 words].
      destruct (Z.eqb_spec rc3 0) as [_|Hne]; cbn [negb];
        [|intros H; injection H as H _; contradiction].
      intros H. injection H as <-. cbn. repeat split.
Qed.

(** X21.  What a successful resolution reports.  The vendor is read off
    hardware leaf 0 and the guest type off the domain lookup; the
    extended-state mask is the hypervisor's; an HVM domain gets its PAE and
    nested-virtualisation switches from the two HVM parameters (non-zero is
    on) and is never 64-bit PV, a PV domain is 64-bit exactly when its
    guest width is 8 bytes and has both switches off; the feature-set count
    is the host's, and the set is the caller's words (as many as fit, then
    zeros) when the caller passed one, otherwise the hypervisor's default
    set for the guest type. *)
Theorem resolved_context_fields (xch : xc_interface) (domid : Z)
    (caller_set : option (list Z)) (caller_nr : Z) (h : heap)
    (info : cpuid_domain_info) (h1 : heap) :
  get_cpuid_domain_info xch domid empty_info caller_set caller_nr h
    = Returns (0, info, h1) ->
  let di := snd (xc_domain_getinfo xch domid) in
  vendor info = vendor_of (cpuid (mkInput 0 0)) /\
  hvm info = di_hvm di /\ pvh info = di_pvh di /\
  xfeature_mask info = snd (getvcpuextstate xch domid) /\
  nr_features info = FEATURESET_NR_ENTRIES /\
  (if di_hvm di
   then pae info =
          negb (snd (xc_hvm_param_get xch domid HVM_PARAM_PAE_ENABLED) =? 0)
        /\ nestedhvm info =
             negb (snd (xc_hvm_param_get xch domid HVM_PARAM_NESTEDHVM) =? 0)
        /\ pv64 info = false
   else pv64 info = (snd (xc_domain_get_guest_width xch domid) =? 8)
        /\ pae info = false /\ nestedhvm info = false) /\
  featureset info =
    Some (match caller_set with
          | Some fs =>
              firstn (Z.to_nat (Z.min FEATURESET_NR_ENTRIES caller_nr)) fs
              ++ repeat 0 (Z.to_nat (FEATURESET_NR_ENTRIES
                                     - Z.min FEATURESET_NR_ENTRIES caller_nr))
          | None =>
              snd (xc_get_cpu_featureset xch
                     (if di_hvm di then XEN_SYSCTL_cpu_featureset_hvm
                      else XEN_SYSCTL_cpu_featureset_pv)
                     FEATURESET_NR_ENTRIES)
          end).
Proof.
  unfold get_cpuid_domain_info, xc_get_cpu_featureset_size.
  destruct (xc_domain_getinfo xch domid) as [found di]. cbn [snd].
  destruct (negb (found =? 1) || negb (di_domid di =? domid))%bool;
    [discriminate|].
  unfold malloc. destruct (malloc_ok (requests h)); cbn [negb];
    [|discriminate].
  destruct caller_set as [fs|].
  - unfold memcpy_words.
    destruct (Z.of_nat (List.length fs) <?
              Z.min FEATURESET_NR_ENTRIES caller_nr); [discriminate|].
    destruct (truncated_bits _ _ fs) as [[|]| |]; try discriminate.
    destruct (get_cpuid_domain_info_tail _ _ _ _ _ _) as [rc info'] eqn:Et.
    intros H. injection H as -> <- _.
    apply tail_success in Et. cbn in Et.
    destruct Et as (A & B & C & D & E & F & G).
    split; [exact A|]. split; [exact B|]. split; [exact C|].
    split; [exact E|]. split; [exact D|]. split; [exact F|exact G].
  - destruct (get_cpuid_domain_info_tail _ _ _ _ _ _) as [rc info'] eqn:Et.
    intros H. injection H as -> <- _.
    apply tail_success in Et. cbn in Et.
    destruct Et as (A & B & C & D & E & F & G).
    split; [exact A|]. split; [exact B|]. split; [exact C|].
    split; [exact E|]. split; [exact D|]. split; [exact F|exact G].
Qed.

(** ** The search of the dependency table *)

Lemma deep_deps_sorted_lt (t : list deep_dep) :
  deep_deps_sorted t ->
  forall i j f fs g gs,
    (i < j)%nat ->
    nth_error t i = Some (f, fs) -> nth_error t j = Some (g, gs) -> f < g.
Proof.
  prune.
  induction t as [|[a afs] t IH]; intros Hs i j f fs g gs Hij Hi Hj.
  - destruct i; discriminate.
  - cbn [deep_deps_sorted] in Hs. destruct Hs as [Hhd Htl].
    destruct j as [|j]; [lia|]. cbn [nth_error] in Hj.
    destruct i as [|i].
    + cbn [nth_error] in Hi. injection Hi as <- <-.
      destruct t as [|[b bfs] t']; [destruct j; discriminate|].
      destruct j as [|j].
      * cbn [nth_error] in Hj. injection Hj as <- <-. exact Hhd.
      * assert (b < g).
        { apply (IH Htl 0%nat (S j) b bfs g gs); [lia|reflexivity|exact Hj]. }
        lia.
    + cbn [nth_error] in Hi.
      apply (IH Htl i j f fs g gs); [lia|exact Hi|exact Hj].
Qed.

Lemma deep_deps_search_spec (t : list deep_dep) (feature : Z) :
  deep_deps_sorted t ->
  forall (fuel : nat) (start end_ : Z),
    0 <= start <= end_ -> end_ <= Z.of_nat (List.length t) ->
    (Z.to_nat (end_ - start) < fuel)%nat ->
    (forall i f fs, nth_error t i = Some (f, fs) ->
       Z.of_nat i < start -> f < feature) ->
    (forall i f fs, nth_error t i = Some (f, fs) ->
       end_ <= Z.of_nat i -> feature < f) ->
    exists res,
      deep_deps_search fuel t feature start end_ = Returns res /\
      match res with
      | Some fs => In (feature, fs) t
      | None => forall fs, ~ In (feature, fs) t
      end.
Proof.
  prune.
  intros Hs. induction fuel as [|fuel IH];
    intros start end_ Hse Hend Hfuel Hlo Hhi; [lia|].
  cbn [deep_deps_search].
  destruct (Z.ltb_spec start end_) as [Hlt|Hge].
  - set (mid := start + (end_ - start) / 2).
    assert (Hmid : start <= mid < end_).
    { unfold mid.
      pose proof (Z.div_pos (end_ - start) 2 ltac:(lia) ltac:(lia)).
      pose proof (Z.div_lt_upper_bound (end_ - start) 2 (end_ - start)
                    ltac:(lia) ltac:(lia)).
      lia. }
    destruct (nth_error t (Z.to_nat mid)) as [[f fs]|] eqn:Hn.
    2:{ apply nth_error_None in Hn. lia. }
    destruct (Z.gtb_spec f feature) as [Hgt|Hle].
    + apply IH; try lia; [exact Hlo|].
      intros i g gs Hi Hge.
      destruct (Nat.eq_dec i (Z.to_nat mid)) as [->|Hne].
      * rewrite Hn in Hi. injection Hi as <- <-. lia.
      * assert (f < g).
        { apply (deep_deps_sorted_lt t Hs (Z.to_nat mid) i f fs g gs);
            [lia|exact Hn|exact Hi]. }
        lia.
    + destruct (Z.ltb_spec f feature) as [Hlt'|Hge'].
      * apply IH; try lia; [|exact Hhi].
        intros i g gs Hi Hlt2.
        destruct (Nat.eq_dec i (Z.to_nat mid)) as [->|Hne].
        -- rewrite Hn in Hi. injection Hi as <- <-. lia.
        -- assert (g < f).
           { apply (deep_deps_sorted_lt t Hs i (Z.to_nat mid) g gs f fs);
               [lia|exact Hi|exact Hn]. }
           lia.
      * exists (Some fs). split; [reflexivity|].
        assert (f = feature) as <- by lia.
        eapply nth_error_In. exact Hn.
  - exists None. split; [reflexivity|].
    intros fs Hin. apply In_nth_error in Hin. destruct Hin as [i Hi].
    destruct (Z_lt_ge_dec (Z.of_nat i) start) as [Hl|Hg].
    + specialize (Hlo i feature fs Hi Hl). lia.
    + specialize (Hhi i feature fs Hi ltac:(lia)). lia.
Qed.

(** X22.  On a table whose feature keys are strictly ascending, the binary
    search of [xc_get_feature_deep_deps] never reads outside the table and
    ends within as many iterations as the table has rows: it returns the
    feature set stored with the feature when the table has a row for it,
    and NULL exactly when it has none. *)
Theorem deep_deps_search_finds_the_row (deep_deps : list deep_dep)
    (feature : Z) (fuel : nat) :
  deep_deps_sorted deep_deps ->
  (List.length deep_deps < fuel)%nat ->
  exists res,
    xc_get_feature_deep_deps fuel deep_deps feature = Returns res /\
    match res with
    | Some fs => In (feature, fs) deep_deps
    | None => forall fs, ~ In (feature, fs) deep_deps
    end.
Proof.
  prune.
  intros Hs Hfuel. unfold xc_get_feature_deep_deps.
  apply deep_deps_search_spec; try assumption; try lia.
  intros i f fs Hi Hge.
  assert (nth_error deep_deps i <> None) as Hne by (rewrite Hi; discriminate).
  apply nth_error_Some in Hne. lia.
Qed.

(** ** Under Xen's feature numbering *)

(** A term built from constants and constructors only. *)
Ltac ground t :=
  lazymatch t with
  | ?f ?x => ground f; ground x
  | _ => first [is_constructor t | is_const t | is_ind t]
  end.

(** Evaluates the bit tests and comparisons of the goal whose operands are
    constants. *)
Ltac closed_bits :=
  repeat match goal with
         | |- context [Z.testbit ?c ?k] =>
             ground c; ground k;
             let v := eval vm_compute in (Z.testbit c k) in
             change (Z.testbit c k) with v
         | |- context [?a =? ?b] =>
             ground a; ground b;
             let v := eval vm_compute in (a =? b) in
             change (a =? b) with v
         end.

Ltac bits_of_policy Hnum Hm :=
  unfold xc_cpuid_policy, xc_cpuid_hvm_policy, xc_cpuid_pv_policy,
    amd_xc_cpuid_policy, intel_xc_cpuid_policy, clear_feats, set_feat,
    clear_feat, feat;
  cbn [input0 input1 fold_left]; rewrite ?Hm, ?Hnum;
  closed_bits; cbn [negb andb orb]; cbv iota.

(** X23.  With the feature numbering of Xen's public header, a guest
    whose domain has no extended state (mask 0) is shown neither XSAVE
    (leaf 1 ecx bit 26) nor AVX (bit 28), nor MPX (leaf 7 sub-leaf 0 ebx
    bit 14), whatever the hardware reports and whatever the guest type,
    the vendor and the other switches are. *)
Theorem no_xstate_hides_xsave_features (info : cpuid_domain_info)
    (sub : Z) (r : regs) :
  (forall f, X86_FEATURE f = xen_cpufeatureset f) ->
  xfeature_mask info = 0 ->
  Z.testbit (ecx (xc_cpuid_policy info (mkInput 1 sub) r)) 26 = false /\
  Z.testbit (ecx (xc_cpuid_policy info (mkInput 1 sub) r)) 28 = false /\
  Z.testbit (ebx (xc_cpuid_policy info (mkInput 7 0) r)) 14 = false.
Proof.
  intros Hnum Hm.
  split; [|split]; bits_of_policy Hnum Hm;
    destruct (hvm info), (vendor_eqb (vendor info) VENDOR_AMD),
      (nestedhvm info), (pv64 info), (pvh info);
    cbn [negb ecx ebx];
    unfold xen_cpufeatureset;
    rewrite ?testbit_set_bit_any, ?testbit_clear_bit_any, ?Z.lor_spec,
      ?Z.land_spec by lia;
    closed_bits; cbv iota;
    rewrite ?andb_false_r, ?orb_false_r; reflexivity.
Qed.

(** ** The APIC identifier fields of an HVM guest *)

(** Evaluates the arithmetic of the goal whose operands are constants. *)
Ltac closed_arith :=
  repeat match goal with
         | |- context [Z.testbit ?c ?k] =>
             ground c; ground k;
             let v := eval vm_compute in (Z.testbit c k) in
             change (Z.testbit c k) with v
         | |- context [?a =? ?b] =>
             ground a; ground b;
             let v := eval vm_compute in (a =? b) in
             change (a =? b) with v
         | |- context [?a <? ?b] =>
             ground a; ground b;
             let v := eval vm_compute in (a <? b) in
             change (a <? b) with v
         | |- context [?a <=? ?b] =>
             ground a; ground b;
             let v := eval vm_compute in (a <=? b) in
             change (a <=? b) with v
         | |- context [?a - ?b] =>
             ground a; ground b;
             let v := eval vm_compute in (a - b) in
             change (a - b) with v
         end.

Lemma bit_cases (n : Z) :
  0 <= n -> In n (map Z.of_nat (seq 0 32)) \/ 32 <= n.
Proof.
  prune. intros Hn. destruct (Z_lt_ge_dec n 32) as [Hlt|Hge];
    [left|right; lia].
  apply in_map_iff. exists (Z.to_nat n). split; [lia|].
  apply in_seq. lia.
Qed.

Lemma testbit_u32_shl (x k n : Z) :
  0 <= n < 32 -> Z.testbit (U32.shl x k) n = Z.testbit (Z.shiftl x k) n.
Proof.
  prune. intros Hn. unfold U32.shl, U32.wrap, U32.modulus.
  apply Z.mod_pow2_bits_low. lia.
Qed.

Lemma core_size_plus_one (x : Z) :
  U32.add (Z.land x 0xf000) 1 = Z.lor (Z.land x 0xf000) 1.
Proof.
  prune.
  assert (Hz : Z.land (Z.land x 0xf000) 1 = 0).
  { rewrite <- Z.land_assoc. change (Z.land 0xf000 1) with 0.
    apply Z.land_0_r. }
  rewrite <- (Z.lxor_lor _ _ Hz), <- (Z.add_nocarry_lxor _ _ Hz).
  assert (Hu : u32 (Z.land x 0xf000)).
  { apply u32_land_r. unfold u32. lia. }
  assert (Hne : Z.land x 0xf000 <> 2 ^ 32 - 1).
  { intros E.
    assert (Hb : Z.testbit (Z.land x 0xf000) 0 = false).
    { rewrite Z.land_spec. apply andb_false_r. }
    rewrite E in Hb. vm_compute in Hb. discriminate Hb. }
  unfold u32 in Hu.
  unfold U32.add, U32.wrap, U32.modulus. apply Z.mod_small. lia.
Qed.

Ltac bit_by_bit :=
  rewrite ?Z.lor_spec, ?Z.land_spec;
  rewrite ?testbit_u32_shl by lia;
  rewrite ?Z.shiftl_spec by lia;
  rewrite ?Z.lor_spec, ?Z.land_spec;
  closed_arith; cbv iota;
  rewrite ?Z.testbit_neg_r by lia;
  rewrite ?andb_false_r, ?andb_true_r, ?orb_false_r, ?orb_true_r,
    ?orb_false_l, ?andb_false_l;
  try reflexivity.

(** X24.  How an HVM guest's APIC identifier fields are rewritten, bit by
    bit.  Leaf 1 ebx: bits 0 to 15 are the hardware's, bits 16 to 22 move
    up by one (the logical-processor count doubles), bit 16 and bits 24 to
    31 (the initial APIC identifier) are clear.  Leaf 4 eax under the Intel
    rule: bits 0 to 9 are the hardware's, bits 26 to 30 move up by one, bit
    26 is set and bits 10 to 25 are clear.  Leaf 0x80000008 ecx under the
    AMD rule: bit 0 is set, bits 0 to 7 move up by one, bits 12 to 15 are
    the hardware's (the core-size field is not changed) and every other bit
    is clear. *)
Theorem hvm_apic_id_fields (info : cpuid_domain_info) (sub : Z) (r : regs)
    (n : Z) :
  hvm info = true -> 0 <= n ->
  Z.testbit (ebx (xc_cpuid_policy info (mkInput 1 sub) r)) n =
    (if n <? 16 then Z.testbit (ebx r) n
     else if (17 <=? n) && (n <=? 23) then Z.testbit (ebx r) (n - 1)
     else false) /\
  (vendor info <> VENDOR_AMD ->
   Z.testbit (eax (xc_cpuid_policy info (mkInput 4 sub) r)) n =
     (if n <? 10 then Z.testbit (eax r) n
      else if n =? 26 then true
      else if (27 <=? n) && (n <=? 31) then Z.testbit (eax r) (n - 1)
      else false)) /\
  (vendor info = VENDOR_AMD ->
   Z.testbit (ecx (xc_cpuid_policy info (mkInput 0x80000008 sub) r)) n =
     (if n =? 0 then true
      else if (1 <=? n) && (n <=? 8) then Z.testbit (ecx r) (n - 1)
      else if (12 <=? n) && (n <=? 15) then Z.testbit (ecx r) n
      else false)).
Proof.
  intros Hh Hn.
  assert (Hhigh : forall x, u32 x -> 32 <= n -> Z.testbit x n = false).
  { intros x Hx Hge. now apply u32_high_bits. }
  split; [|split].
  - policy_at_leaf. rewrite Hh.
    change (Z.land 1 4294901760 =? 1073741824) with false. cbv iota.
    closed_arith. cbn [orb]. cbv iota.
    assert (Hout : forall c d c',
              ebx (if vendor_eqb (vendor info) VENDOR_AMD
                   then mkRegs (eax r)
                          (Z.lor (Z.land (ebx r) 65535)
                             (U32.shl (Z.land (ebx r) 8323072) 1)) c d
                   else if nestedhvm info
                        then mkRegs (eax r)
                               (Z.lor (Z.land (ebx r) 65535)
                                  (U32.shl (Z.land (ebx r) 8323072) 1)) c' d
                        else mkRegs (eax r)
                               (Z.lor (Z.land (ebx r) 65535)
                                  (U32.shl (Z.land (ebx r) 8323072) 1)) c d)
              = Z.lor (Z.land (ebx r) 65535)
                  (U32.shl (Z.land (ebx r) 8323072) 1)).
    { intros. destruct (vendor_eqb _ _); [|destruct (nestedhvm info)];
        reflexivity. }
    cbn [eax ebx ecx edx]. rewrite Hout. clear Hout.
    destruct (bit_cases n Hn) as [Hin|Hge].
    { cbn in Hin.
      repeat (destruct Hin as [<-|Hin]; [solve [bit_by_bit]|]).
      contradiction. }
    rewrite Hhigh; [|apply u32_lor; [apply u32_land_r; unfold u32; lia
                                    |apply u32_shl]|exact Hge].
    destruct (Z.ltb_spec n 16); [lia|].
    destruct (Z.leb_spec n 23); [lia|]. now rewrite andb_false_r.
  - intros Hv.
    assert (Ev : vendor_eqb (vendor info) VENDOR_AMD = false).
    { destruct (vendor info); try reflexivity. contradiction. }
    policy_at_leaf. rewrite Hh, Ev.
    change (Z.land 4 4294901760 =? 1073741824) with false. cbv iota.
    closed_arith. cbn [orb]. cbv iota. cbn [eax].
    destruct (bit_cases n Hn) as [Hin|Hge].
    { cbn in Hin.
      repeat (destruct Hin as [<-|Hin]; [solve [bit_by_bit]|]).
      contradiction. }
    rewrite Hhigh;
      [|apply u32_lor;
        [apply u32_lor; [apply u32_shl|unfold u32; lia]
        |apply u32_land_r; unfold u32; lia]|exact Hge].
    destruct (Z.ltb_spec n 10); [lia|].
    destruct (Z.eqb_spec n 26); [lia|].
    destruct (Z.leb_spec n 31); [lia|]. now rewrite andb_false_r.
  - intros Hv.
    policy_at_leaf. rewrite Hh, Hv.
    change (Z.land 2147483656 4294901760 =? 1073741824) with false.
    cbv iota. closed_arith. cbn [orb vendor_eqb]. cbv iota.
    cbn [eax ebx ecx edx]. rewrite core_size_plus_one.
    destruct (bit_cases n Hn) as [Hin|Hge].
    { cbn in Hin.
      repeat (destruct Hin as [<-|Hin]; [solve [bit_by_bit]|]).
      contradiction. }
    rewrite Hhigh;
      [|apply u32_lor;
        [apply u32_lor;
         [apply u32_lor; [apply u32_land_r|]; unfold u32; lia
         |apply u32_shl]
        |unfold u32; lia]|exact Hge].
    destruct (Z.eqb_spec n 0); [lia|].
    destruct (Z.leb_spec n 8); [lia|].
    destruct (Z.leb_spec n 15); [lia|]. now rewrite !andb_false_r.
Qed.

(** ** Whether a traversal ends *)

Lemma apply_loop_step (fuel : nat) (xch : xc_interface) (domid : Z)
    (info : cpuid_domain_info) (base_max ext_max : Z) (i i' : cpuid_input)
    (done : list cpuid_entry) (visited : list cpuid_input) :
  (forall done e, set_cpuid xch done e = 0) ->
  next_input base_max ext_max i (xc_cpuid_policy info i (cpuid i))
    = Some i' ->
  apply_loop (S fuel) xch domid info base_max ext_max i done visited =
  apply_loop fuel xch domid info base_max ext_max i'
    (if answer_nonzero info i then done ++ [entry_of domid info i] else done)
    (visited ++ [i]).
Proof.
  intros Hok Hnext. cbn [apply_loop]. unfold xc_cpuid_do_domctl.
  rewrite Hok, Hnext.
  fold (answer_nonzero info i). unfold entry_of.
  destruct (answer_nonzero info i); reflexivity.
Qed.

Lemma apply_loop_leaf4_forever (xch : xc_interface) (domid : Z)
    (info : cpuid_domain_info) (base_max ext_max : Z) :
  (forall done e, set_cpuid xch done e = 0) ->
  (forall sub,
     Z.land (eax (xc_cpuid_policy info (mkInput 4 sub)
                    (cpuid (mkInput 4 sub)))) 0x1f <> 0) ->
  forall (fuel : nat) (sub : Z) (done : list cpuid_entry)
         (visited : list cpuid_input),
    apply_loop fuel xch domid info base_max ext_max (mkInput 4 sub)
               done visited = OutOfFuel.
Proof.
  intros Hok Hmore. induction fuel as [|fuel IH]; intros sub done visited;
    [reflexivity|].
  rewrite (apply_loop_step fuel xch domid info base_max ext_max
             (mkInput 4 sub) (mkInput 4 (U32.add sub 1)) done visited Hok).
  - apply IH.
  - unfold next_input. cbn [input0 input1].
    change (4 =? 4) with true. cbv iota. cbn [andb].
    destruct (Z.eqb_spec
                (Z.land (eax (xc_cpuid_policy info (mkInput 4 sub)
                                (cpuid (mkInput 4 sub)))) 31) 0) as [E|_].
    + now apply Hmore in E.
    + reflexivity.
Qed.

Lemma next_input_walk (last4 base_max ext_max : Z) (i : cpuid_input)
    (r : regs) :
  0 <= base_max <= 0xd -> ext_max <= 0x8000001c ->
  0 <= last4 < 2 ^ 32 - 1 ->
  walk_input last4 base_max ext_max i ->
  (input0 i = 4 -> input1 i = last4 -> Z.land (eax r) 0x1f = 0) ->
  match next_input base_max ext_max i r with
  | None => True
  | Some i' =>
      walk_input last4 base_max ext_max i' /\
      walk_rank last4 i' < walk_rank last4 i
  end.
Proof.
  prune.
  intros Hb He HK Hv H4. destruct i as [in0 in1].
  unfold walk_input in Hv. cbn [input0 input1] in *.
  rewrite next_input_arith by lia. cbv zeta.
  destruct (Z.eqb_spec in0 4) as [E4|N4].
  - subst in0. destruct Hv as [(Hr & Hs & _)|Hv]; [|lia].
    specialize (Hs eq_refl).
    destruct (Z.eqb_spec (Z.land (eax r) 31) 0) as [Ez|Nz]; cbn [negb andb].
    + change (4 =? 13) with false. cbn [andb].
      unfold walk_input, walk_rank, traversal_rank. cbn [input0 input1].
      zbool; repeat split; try lia; intros; lia.
    + assert (in1 <> last4) by (intros E; apply Nz, H4; auto).
      rewrite u32_add_small by lia.
      unfold walk_input, walk_rank, traversal_rank. cbn [input0 input1].
      zbool; repeat split; try lia; intros; lia.
  - cbn [andb].
    destruct (Z.eqb_spec in0 0xd) as [Ed|Nd].
    + subst in0. destruct Hv as [(Hr & _ & Hs)|Hv]; [|lia].
      specialize (Hs eq_refl).
      destruct (Z.ltb_spec in1 63) as [Hlt|Hge]; cbn [andb].
      * rewrite u32_add_small by lia.
        unfold walk_input, walk_rank, traversal_rank. cbn [input0 input1].
        zbool; repeat split; try lia; intros; lia.
      * unfold walk_input, walk_rank, traversal_rank. cbn [input0 input1].
        zbool; repeat split; try lia; intros; lia.
    + cbn [andb].
      unfold walk_input, walk_rank, traversal_rank. cbn [input0 input1].
      destruct Hv as [(Hr & _ & _)|Hv];
        zbool; repeat split; try lia; intros; lia.
Qed.

Lemma walk_rank_nonneg (last4 base_max ext_max : Z) (i : cpuid_input) :
  0 <= base_max <= 0xd -> ext_max <= 0x8000001c -> 0 <= last4 ->
  walk_input last4 base_max ext_max i -> 0 <= walk_rank last4 i.
Proof.
  prune. intros Hb He HK Hv. destruct i as [in0 in1].
  unfold walk_input, walk_rank, traversal_rank in *.
  cbn [input0 input1] in *. zbool.
Qed.

Lemma apply_loop_walk (xch : xc_interface) (domid : Z)
    (info : cpuid_domain_info) (last4 base_max ext_max : Z) :
  0 <= base_max <= 0xd -> ext_max <= 0x8000001c ->
  0 <= last4 < 2 ^ 32 - 1 ->
  Z.land (eax (xc_cpuid_policy info (mkInput 4 last4)
                 (cpuid (mkInput 4 last4)))) 0x1f = 0 ->
  forall (fuel : nat) (i : cpuid_input) (done : list cpuid_entry)
         (visited : list cpuid_input),
    Forall (walk_input last4 base_max ext_max) visited ->
    walk_input last4 base_max ext_max i ->
    walk_rank last4 i < Z.of_nat fuel ->
    exists t,
      apply_loop fuel xch domid info base_max ext_max i done visited
        = Returns t /\
      Forall (walk_input last4 base_max ext_max) (tr_visited t).
Proof.
  intros Hb He HK Hend.
  induction fuel as [|fuel IH]; intros i done visited Hvis Hval Hrank.
  - pose proof (walk_rank_nonneg last4 base_max ext_max i Hb He
                  ltac:(lia) Hval). lia.
  - cbn [apply_loop].
    set (r := xc_cpuid_policy info i (cpuid i)).
    assert (Hvis' : Forall (walk_input last4 base_max ext_max)
                      (visited ++ [i])).
    { apply Forall_app. split; [assumption|]. constructor; [assumption|].
      constructor. }
    destruct (negb _).
    { eexists. split; [reflexivity|]. exact Hvis'. }
    assert (H4 : input0 i = 4 -> input1 i = last4 ->
                 Z.land (eax r) 0x1f = 0).
    { intros E0 E1. unfold r. destruct i as [in0 in1].
      cbn [input0 input1] in E0, E1. subst in0 in1. exact Hend. }
    pose proof (next_input_walk last4 base_max ext_max i r Hb He HK Hval H4)
      as Hstep.
    destruct (next_input base_max ext_max i r) as [i'|].
    + destruct Hstep as [Hval' Hrank'].
      apply IH; [exact Hvis'|exact Hval'|lia].
    + eexists. split; [reflexivity|]. exact Hvis'.
Qed.

(** X25.  The traversal returns as soon as the walk over leaf 4 can end:
    if the policy's answer for some sub-leaf [last4] of leaf 4 has the low
    five bits of eax clear, [xc_cpuid_apply_policy] returns within
    [last4 + 128] iterations, and of leaf 4 it visits no sub-leaf beyond
    [last4]; leaf 0xd is visited at sub-leaves 0 to 63 only. *)
Theorem traversal_returns_when_leaf4_ends
    (xch : xc_interface) (domid : Z) (caller_set : option (list Z))
    (caller_nr : Z) (h : heap) (info : cpuid_domain_info) (h1 : heap)
    (last4 : Z) (fuel : nat) :
  0 <= eax (cpuid (mkInput 0 0)) ->
  get_cpuid_domain_info xch domid empty_info caller_set caller_nr h
    = Returns (0, info, h1) ->
  0 <= last4 < 2 ^ 32 - 1 ->
  Z.land (eax (xc_cpuid_policy info (mkInput 4 last4)
                 (cpuid (mkInput 4 last4)))) 0x1f = 0 ->
  (Z.to_nat last4 + 128 <= fuel)%nat ->
  exists t h',
    xc_cpuid_apply_policy fuel xch domid caller_set caller_nr h
      = Returns (t, h') /\
    Forall (fun i =>
              (input0 i = 4 -> 0 <= input1 i <= last4) /\
              (input0 i = 0xd -> 0 <= input1 i <= 63))
           (tr_visited t).
Proof.
  intros Hhw Hget HK Hend Hfuel.
  unfold xc_cpuid_apply_policy. rewrite Hget. cbn [Z.eqb negb].
  set (base_max := base_max_of (cpuid (mkInput 0 0))).
  set (ext_max := ext_max_of (vendor info) (cpuid (mkInput 0x80000000 0))).
  assert (Hb : 0 <= base_max <= 0xd).
  { unfold base_max, base_max_of, DEF_MAX_BASE. zbool. }
  assert (He : ext_max <= 0x8000001c).
  { unfold ext_max, ext_max_of, DEF_MAX_AMDEXT, DEF_MAX_INTELEXT.
    destruct (vendor_eqb (vendor info) VENDOR_AMD); zbool. }
  destruct (apply_loop_walk xch domid info last4 base_max ext_max Hb He HK
              Hend fuel (mkInput 0 XEN_CPUID_INPUT_UNUSED) [] [])
    as (t & Hrun & Hvis).
  { constructor. }
  { left. cbn [input0 input1]. repeat split; lia. }
  { unfold walk_rank, traversal_rank. cbn [input0 input1].
    change (0 <? 2147483648) with true. change (0 <? 13) with true.
    change (0 <? 4) with true. cbv iota. lia. }
  rewrite Hrun. exists t, (free_cpuid_domain_info info h1).
  split; [reflexivity|].
  eapply Forall_impl; [|exact Hvis].
  intros i [(Hr & H4 & Hd)|Hx]; split; intros E; try lia; auto.
Qed.

(** X26.  The traversal ends its walk over leaf 4 only when the policy's
    answer for some sub-leaf has the low five bits of eax clear.  On
    hardware whose maximum basic leaf is 4 or more, in a context for which
    every sub-leaf of leaf 4 keeps one of those bits, and with a hypervisor
    that accepts every leaf, [xc_cpuid_apply_policy] never returns:
    whatever the number of iterations allowed, it is still in the loop. *)
Theorem traversal_never_leaves_endless_leaf4
    (xch : xc_interface) (domid : Z) (caller_set : option (list Z))
    (caller_nr : Z) (h : heap) (info : cpuid_domain_info) (h1 : heap)
    (fuel : nat) :
  get_cpuid_domain_info xch domid empty_info caller_set caller_nr h
    = Returns (0, info, h1) ->
  4 <= eax (cpuid (mkInput 0 0)) ->
  (forall done e, set_cpuid xch done e = 0) ->
  (forall sub,
     Z.land (eax (xc_cpuid_policy info (mkInput 4 sub)
                    (cpuid (mkInput 4 sub)))) 0x1f <> 0) ->
  xc_cpuid_apply_policy fuel xch domid caller_set caller_nr h = OutOfFuel.
Proof.
  intros Hget Hmax Hok Hmore.
  unfold xc_cpuid_apply_policy. rewrite Hget. cbn [Z.eqb negb].
  set (base_max := base_max_of (cpuid (mkInput 0 0))).
  set (ext_max := ext_max_of (vendor info) (cpuid (mkInput 0x80000000 0))).
  assert (Hb : 4 <= base_max).
  { unfold base_max, base_max_of, DEF_MAX_BASE.
    destruct (Z.leb_spec (eax (cpuid (mkInput 0 0))) 13); lia. }
  assert (Hstep : forall k s,
            0 <= k < 4 ->
            next_input base_max ext_max (mkInput k s)
              (xc_cpuid_policy info (mkInput k s) (cpuid (mkInput k s)))
            = Some (mkInput (k + 1)
                      (if k + 1 =? 4 then 0 else XEN_CPUID_INPUT_UNUSED))).
  { intros k s Hk. rewrite next_input_arith by lia. cbv zeta.
    destruct (Z.eqb_spec k 4); [lia|]. cbn [andb].
    destruct (Z.eqb_spec k 13); [lia|]. cbn [andb].
    destruct (Z.ltb_spec (k + 1) 2147483648); [|lia].
    destruct (Z.gtb_spec (k + 1) base_max); [lia|]. cbn [andb].
    destruct (Z.leb_spec 2147483648 (k + 1)); [lia|]. cbn [andb].
    destruct (Z.eqb_spec (k + 1) 4), (Z.eqb_spec (k + 1) 7),
      (Z.eqb_spec (k + 1) 13); try lia; reflexivity. }
  assert (Hloop : apply_loop fuel xch domid info base_max ext_max
                    (mkInput 0 XEN_CPUID_INPUT_UNUSED) [] [] = OutOfFuel).
  { destruct fuel as [|fuel]; [reflexivity|].
    rewrite (apply_loop_step _ _ _ _ _ _ _ _ _ _ Hok (Hstep 0 _ ltac:(lia))).
    change (0 + 1) with 1. change (1 =? 4) with false. cbv iota.
    destruct fuel as [|fuel]; [reflexivity|].
    rewrite (apply_loop_step _ _ _ _ _ _ _ _ _ _ Hok (Hstep 1 _ ltac:(lia))).
    change (1 + 1) with 2. change (2 =? 4) with false. cbv iota.
    destruct fuel as [|fuel]; [reflexivity|].
    rewrite (apply_loop_step _ _ _ _ _ _ _ _ _ _ Hok (Hstep 2 _ ltac:(lia))).
    change (2 + 1) with 3. change (3 =? 4) with false. cbv iota.
    destruct fuel as [|fuel]; [reflexivity|].
    rewrite (apply_loop_step _ _ _ _ _ _ _ _ _ _ Hok (Hstep 3 _ ltac:(lia))).
    change (3 + 1) with 4. change (4 =? 4) with true. cbv iota.
    now apply apply_loop_leaf4_forever. }
  rewrite Hloop. reflexivity.
Qed.

End Cpuid.

(** * The statements on the sample hosts *)

(** ** Set mode *)

Lemma set_applies_directive_witness :
  exists res,
    xc_cpuid_set xen_cpufeatureset sample_amd_cpuid 9 malloc_always
      sample_xch 1 (mkInput 1 XEN_CPUID_INPUT_UNUSED)
      [dir mixed; None; dir all_x; dir all_s] empty_heap = Returns res /\
    dr_rc res = 0 /\
    exists info h1 r,
      get_cpuid_domain_info sample_amd_cpuid 9 malloc_always sample_xch 1
        empty_info None 0 empty_heap = Returns (0, info, h1) /\
      dr_programmed res
        = [mkEntry 1 (mkInput 1 XEN_CPUID_INPUT_UNUSED) r] /\
      (* eax: "10xk..." *)
      Z.testbit (eax r) 31 = true /\
      Z.testbit (eax r) 30 = false /\
      (* ebx has no directive *)
      ebx r = ebx (xc_cpuid_policy xen_cpufeatureset sample_amd_cpuid info
                     (mkInput 1 XEN_CPUID_INPUT_UNUSED)
                     (sample_amd_cpuid 1 0)) /\
      (* edx: all 's' *)
      Z.testbit (edx r) 31 = Z.testbit (edx (sample_amd_cpuid 1 0)) 31.
Proof.
  eexists. split; [vm_compute; reflexivity|]. split; [reflexivity|].
  destruct (set_applies_directive xen_cpufeatureset sample_amd_cpuid 9
              malloc_always sample_xch 1 (mkInput 1 XEN_CPUID_INPUT_UNUSED)
              [dir mixed; None; dir all_x; dir all_s] empty_heap _
              ltac:(vm_compute; reflexivity) ltac:(reflexivity))
    as (info & h1 & r & Hget & Hprog & Hbits).
  exists info, h1, r. split; [exact Hget|]. split; [exact Hprog|].
  pose proof (Hbits 0%nat ltac:(lia) 0%nat ltac:(lia)) as (H1 & _).
  pose proof (Hbits 0%nat ltac:(lia) 1%nat ltac:(lia)) as (_ & H0 & _).
  pose proof (Hbits 1%nat ltac:(lia)) as Hb.
  pose proof (Hbits 3%nat ltac:(lia) 0%nat ltac:(lia)) as (_ & _ & _ & _ & Hs).
  split; [exact (H1 eq_refl)|]. split; [exact (H0 eq_refl)|].
  split; [exact Hb|]. exact (Hs eq_refl).
Defined.

(** C1, counterexample.  On the AMD sample host, leaf 3 of the HVM domain
    has raw eax 0xA5A5A5A5 and policy eax 0.  With the directive all 's'
    for eax the programmed eax is the raw one: at the first position the
    character is 's', the bit applied to bit 31 is 1, and the policy's bit
    there is 0. *)
Lemma set_sticky_takes_raw_bit :
  exists info h1 res r,
    get_cpuid_domain_info sample_amd_cpuid 9 malloc_always sample_xch 1
      empty_info None 0 empty_heap = Returns (0, info, h1) /\
    xc_cpuid_set xen_cpufeatureset sample_amd_cpuid 9 malloc_always
      sample_xch 1 (mkInput 3 XEN_CPUID_INPUT_UNUSED)
      [dir all_s; None; None; None] empty_heap = Returns res /\
    dr_rc res = 0 /\
    dr_programmed res = [mkEntry 1 (mkInput 3 XEN_CPUID_INPUT_UNUSED) r] /\
    char_at (list_ascii_of_string all_s) 0 = "s"%char /\
    Z.testbit (eax r) 31 = true /\
    Z.testbit
      (eax (xc_cpuid_policy xen_cpufeatureset sample_amd_cpuid info
              (mkInput 3 XEN_CPUID_INPUT_UNUSED) (sample_amd_cpuid 3 0)))
      31 = false.
Proof.
  do 4 eexists. split; [vm_compute; reflexivity|].
  split; [vm_compute; reflexivity|].
  split; [reflexivity|]. split; [reflexivity|].
  split; [reflexivity|]. split; vm_compute; reflexivity.
Qed.

(** C7, on the sample host.  [xc_cpuid_set] on leaf 1 of the HVM domain with
    the directive all 'x' for ecx programs the policy's ecx, 0xf7fa0000,
    and hands back the directive as it came: 32 times 'x', not the digits
    of the bits applied. *)
Theorem set_echoes_x :
  exists res r,
    xc_cpuid_set xen_cpufeatureset sample_amd_cpuid 9 malloc_always
      sample_xch 1 (mkInput 1 XEN_CPUID_INPUT_UNUSED)
      [None; None; dir all_x; None] empty_heap = Returns res /\
    dr_rc res = 0 /\
    dr_programmed res = [mkEntry 1 (mkInput 1 XEN_CPUID_INPUT_UNUSED) r] /\
    ecx r = 0xf7fa0000 /\
    slot (dr_transformed res) 2
      = Some (list_ascii_of_string all_x ++ [NUL]).
Proof.
  do 2 eexists. split; [vm_compute; reflexivity|].
  repeat split; reflexivity.
Qed.

(** ** Check mode *)



Lemma check_transformed_directive_witness :
  dr_rc (xc_cpuid_check sample_amd_cpuid malloc_always
           (mkInput 3 XEN_CPUID_INPUT_UNUSED)
           [dir one_then_x; dir all_s; None; None] empty_heap) = 0 /\
  (1 < 4)%nat /\
  slot [dir one_then_x; dir all_s; None; None] 1 = dir all_s /\
  exists out,
    slot (dr_transformed
            (xc_cpuid_check sample_amd_cpuid malloc_always
               (mkInput 3 XEN_CPUID_INPUT_UNUSED)
               [dir one_then_x; dir all_s; None; None] empty_heap)) 1
      = Some out /\
    List.length out = 33%nat /\
    char_at out 32 = NUL /\
    forall j, (j < 32)%nat ->
      char_at out j =
      if Ascii.eqb (char_at (list_ascii_of_string all_s) j) "s"
      then (if Z.testbit
                 (reg_get (cpuid sample_amd_cpuid
                             (mkInput 3 XEN_CPUID_INPUT_UNUSED)) 1)
                 (31 - Z.of_nat j)
            then "1"%char else "0"%char)
      else char_at (list_ascii_of_string all_s) j.
Proof.
  split; [vm_compute; reflexivity|]. split; [lia|]. split; [reflexivity|].
  apply (check_transformed_directive sample_amd_cpuid malloc_always
           (mkInput 3 XEN_CPUID_INPUT_UNUSED)
           [dir one_then_x; dir all_s; None; None] empty_heap 1%nat
           (list_ascii_of_string all_s));
    [vm_compute; reflexivity | lia | reflexivity].
Defined.

(** ** All-or-nothing outputs *)

(** A check that fails at the second register (its '1' faces a raw bit 0)
    after the first register's string was built, a check whose allocation
    fails, and a set whose programming call is refused after three strings
    were built. *)
Lemma directive_outputs_all_or_nothing_witness :
  (let res := xc_cpuid_check sample_amd_cpuid malloc_always
                (mkInput 3 XEN_CPUID_INPUT_UNUSED)
                [dir all_s; dir one_then_x; None; None] empty_heap in
   dr_rc res <> 0 /\
   dr_transformed res = no_strs /\ live (dr_heap res) = 0%nat) /\
  (let res := xc_cpuid_check sample_amd_cpuid malloc_never
                (mkInput 3 XEN_CPUID_INPUT_UNUSED)
                [dir all_s; None; None; None] empty_heap in
   dr_rc res = - ENOMEM /\
   dr_transformed res = no_strs /\ live (dr_heap res) = 0%nat) /\
  (exists res,
     xc_cpuid_set xen_cpufeatureset sample_amd_cpuid 9 malloc_always
       (sample_xch_with (-1)) 1 (mkInput 1 XEN_CPUID_INPUT_UNUSED)
       [dir mixed; None; dir all_x; dir all_s] empty_heap = Returns res /\
     dr_rc res <> 0 /\
     dr_transformed res = no_strs /\ dr_programmed res = [] /\
     live (dr_heap res) = 0%nat).
Proof.
  destruct (directive_outputs_all_or_nothing xen_cpufeatureset
              sample_amd_cpuid 9 malloc_always (sample_xch_with (-1)) 1
              (mkInput 3 XEN_CPUID_INPUT_UNUSED)
              [dir all_s; dir one_then_x; None; None] empty_heap)
    as [[Hfail _] _].
  destruct (directive_outputs_all_or_nothing xen_cpufeatureset
              sample_amd_cpuid 9 malloc_always (sample_xch_with (-1)) 1
              (mkInput 1 XEN_CPUID_INPUT_UNUSED)
              [dir mixed; None; dir all_x; dir all_s] empty_heap)
    as [_ (res & Hset & Hsfail & _)].
  assert (Hrc1 : dr_rc (xc_cpuid_check sample_amd_cpuid malloc_always
                          (mkInput 3 XEN_CPUID_INPUT_UNUSED)
                          [dir all_s; dir one_then_x; None; None]
                          empty_heap) <> 0)
    by (vm_compute; discriminate).
  destruct (directive_outputs_all_or_nothing xen_cpufeatureset
              sample_amd_cpuid 9 malloc_never sample_xch 1
              (mkInput 3 XEN_CPUID_INPUT_UNUSED)
              [dir all_s; None; None; None] empty_heap)
    as [[Hnomem _] _].
  split; [|split].
  - split; [exact Hrc1|]. exact (Hfail Hrc1).
  - split; [vm_compute; reflexivity|]. apply Hnomem.
    vm_compute; discriminate.
  - exists res. split; [exact Hset|].
    assert (Hrc2 : dr_rc res <> 0).
    { assert (E : xc_cpuid_set xen_cpufeatureset sample_amd_cpuid 9
                    malloc_always (sample_xch_with (-1)) 1
                    (mkInput 1 XEN_CPUID_INPUT_UNUSED)
                    [dir mixed; None; dir all_x; dir all_s] empty_heap
                  = Returns (mkResult (-1) no_strs [] (mkHeap 4 0)))
        by (vm_compute; reflexivity).
      rewrite E in Hset. injection Hset as <-. discriminate. }
    split; [exact Hrc2|]. exact (Hsfail Hrc2).
Defined.

(** ** The Policy Engine *)

Lemma xsave_leaf_zero_without_xstate_witness :
  xfeature_mask (mkInfo VENDOR_INTEL true false 0 None 0 false true false)
    = 0 /\
  input0 (mkInput 0xd 5) = 0x0000000d /\
  xc_cpuid_policy xen_cpufeatureset sample_intel_cpuid
    (mkInfo VENDOR_INTEL true false 0 None 0 false true false)
    (mkInput 0xd 5) (mkRegs 0x100 0x240 0 0) = zero_regs.
Proof.
  split; [reflexivity|]. split; [reflexivity|].
  apply xsave_leaf_zero_without_xstate; reflexivity.
Defined.

Lemma hypervisor_leaves_zero_witness :
  Z.land (input0 (mkInput 0x40000100 0)) 0xffff0000 = 0x40000000 /\
  xc_cpuid_policy xen_cpufeatureset sample_intel_cpuid
    (mkInfo VENDOR_INTEL false false 7 None 0 true false false)
    (mkInput 0x40000100 0) (mkRegs 0x40000102 1 2 3) = zero_regs.
Proof.
  split; [reflexivity|]. apply hypervisor_leaves_zero. reflexivity.
Defined.

(** C8, counterexample.  Leaf 0x40000000 with the raw quadruple of a Xen
    host, whose EAX[7:0] holds a count of 5: nothing of the quadruple is
    kept, the count field is zero like the rest. *)
Lemma hypervisor_leaf_count_field_zeroed :
  let raw := mkRegs 0x40000005 0x566e6558 0x65584d4d 0x4d4d566e in
  let out := xc_cpuid_policy xen_cpufeatureset sample_intel_cpuid
               (mkInfo VENDOR_INTEL true false 7 None 0 false true false)
               (mkInput 0x40000000 XEN_CPUID_INPUT_UNUSED) raw in
  Z.land (eax raw) 0xff = 5 /\ Z.land (eax out) 0xff = 0 /\
  Z.land (eax out) 0xff <> Z.land (eax raw) 0xff.
Proof.
  repeat split; vm_compute; congruence.
Qed.

Lemma leaves_without_rule_witness :
  let hvm_info := mkInfo VENDOR_AMD true false 7 None 0 false true false in
  let pv_info := mkInfo VENDOR_AMD false false 7 None 0 true false false in
  let raw := mkRegs 1 2 3 4 in
  (* HVM, leaf 3: zeroed *)
  xc_cpuid_policy xen_cpufeatureset sample_amd_cpuid hvm_info
    (mkInput 3 XEN_CPUID_INPUT_UNUSED) raw = zero_regs /\
  (* HVM, leaf 2: handed to the AMD function *)
  xc_cpuid_policy xen_cpufeatureset sample_amd_cpuid hvm_info
    (mkInput 2 XEN_CPUID_INPUT_UNUSED) raw = mkRegs 0 0 0 4 /\
  (* HVM, leaf 0x80000002: unmodified *)
  xc_cpuid_policy xen_cpufeatureset sample_amd_cpuid hvm_info
    (mkInput 0x80000002 XEN_CPUID_INPUT_UNUSED) raw = raw /\
  (* PV, leaf 5: zeroed *)
  xc_cpuid_policy xen_cpufeatureset sample_amd_cpuid pv_info
    (mkInput 5 XEN_CPUID_INPUT_UNUSED) raw = zero_regs /\
  (* PV, leaf 0x80000002: unmodified *)
  xc_cpuid_policy xen_cpufeatureset sample_amd_cpuid pv_info
    (mkInput 0x80000002 XEN_CPUID_INPUT_UNUSED) raw = raw.
Proof.
  intros hvm_info pv_info raw.
  pose proof (leaves_without_rule xen_cpufeatureset sample_amd_cpuid hvm_info
                (mkInput 3 XEN_CPUID_INPUT_UNUSED) raw) as (H1 & _).
  pose proof (leaves_without_rule xen_cpufeatureset sample_amd_cpuid hvm_info
                (mkInput 2 XEN_CPUID_INPUT_UNUSED) raw) as (_ & H2 & _).
  pose proof (leaves_without_rule xen_cpufeatureset sample_amd_cpuid hvm_info
                (mkInput 0x80000002 XEN_CPUID_INPUT_UNUSED) raw)
    as (_ & _ & H3 & _).
  pose proof (leaves_without_rule xen_cpufeatureset sample_amd_cpuid pv_info
                (mkInput 5 XEN_CPUID_INPUT_UNUSED) raw)
    as (_ & _ & _ & H4 & _).
  pose proof (leaves_without_rule xen_cpufeatureset sample_amd_cpuid pv_info
                (mkInput 0x80000002 XEN_CPUID_INPUT_UNUSED) raw)
    as (_ & _ & _ & _ & H5).
  split; [exact (H1 eq_refl eq_refl)|].
  split; [exact (H2 eq_refl eq_refl)|].
  split; [exact (H3 eq_refl eq_refl)|].
  split; [exact (H4 eq_refl eq_refl)|].
  apply H5; [reflexivity | cbn; lia | cbn; discriminate | reflexivity].
Defined.

(** C2, counterexample.  Leaf 3 has no rule in either table and is not a
    pass-through leaf; for a PV context the policy answers it with the raw
    quadruple, not with zeroes. *)
Lemma pv_leaf_without_rule_passes_through :
  let pv_info := mkInfo VENDOR_INTEL false false 7 None 0 true false false in
  let raw := mkRegs 1 2 3 4 in
  hvm pv_info = false /\
  leaf_in (pv_rule_leaves ++ pv_zeroed_leaves) 3 = false /\
  leaf_in (hvm_rule_leaves ++ hvm_passthrough_leaves) 3 = false /\
  xc_cpuid_policy xen_cpufeatureset sample_intel_cpuid pv_info
    (mkInput 3 XEN_CPUID_INPUT_UNUSED) raw = raw /\
  raw <> zero_regs.
Proof.
  repeat split; try reflexivity. discriminate.
Qed.

(** ** The traversal *)

Lemma amd_hvm_leaf4_visited_once_witness :
  0 <= eax (cpuid sample_amd_cpuid (mkInput 0 0)) /\
  get_cpuid_domain_info sample_amd_cpuid 9 malloc_always sample_xch 1
    empty_info None 0 empty_heap
    = Returns (0,
               mkInfo VENDOR_AMD true false 7 (Some (repeat 0 9)) 9
                      false true false,
               mkHeap 1 1) /\
  (128 <= 128)%nat /\
  exists t h',
    xc_cpuid_apply_policy xen_cpufeatureset sample_amd_cpuid 9 malloc_always
      128 sample_xch 1 None 0 empty_heap = Returns (t, h') /\
    (leaf4_visits (tr_visited t) = [] \/
     leaf4_visits (tr_visited t) = [mkInput 4 0]) /\
    (tr_rc t = 0 -> 4 <= eax (cpuid sample_amd_cpuid (mkInput 0 0)) ->
     leaf4_visits (tr_visited t) = [mkInput 4 0]).
Proof.
  split; [vm_compute; discriminate|].
  split; [vm_compute; reflexivity|].
  split; [lia|].
  apply (amd_hvm_leaf4_visited_once xen_cpufeatureset sample_amd_cpuid 9
           malloc_always sample_xch 1 None 0 empty_heap
           (mkInfo VENDOR_AMD true false 7 (Some (repeat 0 9)) 9
                   false true false)
           (mkHeap 1 1) 128);
    [vm_compute; discriminate | vm_compute; reflexivity
     | reflexivity | reflexivity | lia].
Defined.

(** C9, counterexample.  Domain 2 of the AMD sample host is a PV domain:
    its context has the AMD vendor, yet the PV table never calls the vendor
    function, the hardware's eax of leaf 4 reaches the loop test unchanged,
    and the traversal visits two sub-leaves of leaf 4. *)
Lemma amd_pv_leaf4_visits_two :
  exists info h1 t h',
    get_cpuid_domain_info sample_amd_cpuid 9 malloc_always sample_xch 2
      empty_info None 0 empty_heap = Returns (0, info, h1) /\
    vendor info = VENDOR_AMD /\ hvm info = false /\
    xc_cpuid_apply_policy xen_cpufeatureset sample_amd_cpuid 9 malloc_always
      128 sample_xch 2 None 0 empty_heap = Returns (t, h') /\
    tr_rc t = 0 /\
    leaf4_visits (tr_visited t) = [mkInput 4 0; mkInput 4 1].
Proof.
  do 4 eexists. split; [vm_compute; reflexivity|].
  split; [reflexivity|]. split; [reflexivity|].
  split; [vm_compute; reflexivity|].
  split; reflexivity.
Qed.

(** ** The Domain Context Resolver *)

(** C3, on the sample host (9 feature words).
    - A caller set of 10 words whose tenth word is 0xdead: the resolver
      succeeds with the first 9 words and never looks at the tenth, where
      the claim asks for a failure with -EOPNOTSUPP.
    - A caller set stated as 3 words in an array that goes on with a
      non-zero fourth word: the resolver fails with -EOPNOTSUPP, where the
      claim asks for words 3 to 8 to be taken as zero.
    - A caller set of 3 words in an array of 3: the loop reads the array at
      index 3, outside of it. *)
Theorem resolver_truncation_check :
  get_cpuid_domain_info sample_amd_cpuid 9 malloc_always sample_xch 1
    empty_info (Some [1; 2; 3; 4; 5; 6; 7; 8; 9; 0xdead]) 10 empty_heap
  = Returns (0,
             mkInfo VENDOR_AMD true false 7
                    (Some [1; 2; 3; 4; 5; 6; 7; 8; 9]) 9 false true false,
             mkHeap 1 1) /\
  (exists info h,
     get_cpuid_domain_info sample_amd_cpuid 9 malloc_always sample_xch 1
       empty_info (Some [1; 2; 3; 0xdead]) 3 empty_heap
     = Returns (- EOPNOTSUPP, info, h)) /\
  get_cpuid_domain_info sample_amd_cpuid 9 malloc_always sample_xch 1
    empty_info (Some [1; 2; 3]) 3 empty_heap
  = OutOfBounds.
Proof.
  split; [vm_compute; reflexivity|].
  split; [do 2 eexists; vm_compute; reflexivity|].
  vm_compute; reflexivity.
Qed.

(** * The further properties on the sample hosts *)

(** ** Policy rules *)

Lemma policy_keeps_u32_witness :
  regs_u32 (sample_amd_cpuid 1 0) /\
  regs_u32 (xc_cpuid_policy xen_cpufeatureset sample_amd_cpuid
              sample_hvm_info (mkInput 1 XEN_CPUID_INPUT_UNUSED)
              (sample_amd_cpuid 1 0)).
Proof.
  assert (H : regs_u32 (sample_amd_cpuid 1 0)).
  { unfold regs_u32, u32. cbn. lia. }
  split; [exact H|].
  exact (policy_keeps_u32 xen_cpufeatureset sample_amd_cpuid sample_hvm_info
           (mkInput 1 XEN_CPUID_INPUT_UNUSED) (sample_amd_cpuid 1 0) H).
Defined.

Lemma hvm_max_leaves_clamped_witness :
  hvm sample_hvm_info = true /\
  xc_cpuid_policy xen_cpufeatureset sample_amd_cpuid sample_hvm_info
    (mkInput 0 XEN_CPUID_INPUT_UNUSED) (mkRegs 0x16 1 2 3)
  = mkRegs 0xd 1 2 3 /\
  xc_cpuid_policy xen_cpufeatureset sample_amd_cpuid sample_hvm_info
    (mkInput 0x80000000 XEN_CPUID_INPUT_UNUSED) (mkRegs 0x8000001f 1 2 3)
  = mkRegs 0x8000001c 1 2 3.
Proof.
  split; [reflexivity|].
  destruct (hvm_max_leaves_clamped xen_cpufeatureset sample_amd_cpuid
              sample_hvm_info (mkInput 0 XEN_CPUID_INPUT_UNUSED)
              (mkRegs 0x16 1 2 3) eq_refl) as [H0 _].
  destruct (hvm_max_leaves_clamped xen_cpufeatureset sample_amd_cpuid
              sample_hvm_info (mkInput 0x80000000 XEN_CPUID_INPUT_UNUSED)
              (mkRegs 0x8000001f 1 2 3) eq_refl) as [_ H1].
  split; [exact (H0 eq_refl)|exact (H1 eq_refl)].
Defined.

Lemma hvm_pae_disabled_hides_features_witness :
  hvm sample_nested_info = true /\ pae sample_nested_info = false /\
  Z.testbit
    (edx (xc_cpuid_policy xen_cpufeatureset sample_amd_cpuid
            sample_nested_info (mkInput 1 XEN_CPUID_INPUT_UNUSED)
            (mkRegs 0 0 0 0xFFFFFFFF)))
    (feature_bit xen_cpufeatureset PAE) = false /\
  Z.testbit
    (edx (xc_cpuid_policy xen_cpufeatureset sample_amd_cpuid
            sample_nested_info (mkInput 0x80000001 XEN_CPUID_INPUT_UNUSED)
            (mkRegs 0 0 0 0xFFFFFFFF)))
    (feature_bit xen_cpufeatureset LM) = false.
Proof.
  split; [reflexivity|]. split; [reflexivity|].
  destruct (hvm_pae_disabled_hides_features xen_cpufeatureset
              sample_amd_cpuid sample_nested_info
              (mkInput 1 XEN_CPUID_INPUT_UNUSED) (mkRegs 0 0 0 0xFFFFFFFF)
              eq_refl eq_refl) as [H1 _].
  destruct (hvm_pae_disabled_hides_features xen_cpufeatureset
              sample_amd_cpuid sample_nested_info
              (mkInput 0x80000001 XEN_CPUID_INPUT_UNUSED)
              (mkRegs 0 0 0 0xFFFFFFFF) eq_refl eq_refl) as [_ H2].
  split; [exact (proj1 (H1 eq_refl))|exact (proj1 (H2 eq_refl))].
Defined.

Lemma leaf1_announces_hypervisor_witness :
  input0 (mkInput 1 XEN_CPUID_INPUT_UNUSED) = 1 /\
  Z.testbit
    (ecx (xc_cpuid_policy xen_cpufeatureset sample_amd_cpuid sample_pv_info
            (mkInput 1 XEN_CPUID_INPUT_UNUSED) zero_regs))
    (feature_bit xen_cpufeatureset HYPERVISOR) = true.
Proof.
  split; [reflexivity|].
  exact (proj1 (leaf1_announces_hypervisor xen_cpufeatureset
                  sample_amd_cpuid sample_pv_info
                  (mkInput 1 XEN_CPUID_INPUT_UNUSED) zero_regs eq_refl)).
Defined.

Lemma svm_leaf_rule_witness :
  input0 (mkInput 0x8000000a XEN_CPUID_INPUT_UNUSED) = 0x8000000a /\
  hvm sample_nested_info = true /\ vendor sample_nested_info = VENDOR_AMD /\
  nestedhvm sample_nested_info = true /\
  Z.testbit
    (edx (xc_cpuid_policy xen_cpufeatureset sample_amd_cpuid
            sample_nested_info (mkInput 0x8000000a XEN_CPUID_INPUT_UNUSED)
            zero_regs)) 5 = true.
Proof.
  split; [reflexivity|]. split; [reflexivity|]. split; [reflexivity|].
  split; [reflexivity|].
  destruct (svm_leaf_rule xen_cpufeatureset sample_amd_cpuid
              sample_nested_info (mkInput 0x8000000a XEN_CPUID_INPUT_UNUSED)
              zero_regs eq_refl) as (_ & _ & H & _).
  destruct (H eq_refl eq_refl eq_refl) as (_ & _ & _ & H5 & _).
  exact H5.
Defined.

Lemma leaf7_rule_witness :
  input0 (mkInput 7 1) = 7 /\ input1 (mkInput 7 1) <> 0 /\
  xc_cpuid_policy xen_cpufeatureset sample_amd_cpuid sample_hvm_info
    (mkInput 7 1) (sample_amd_cpuid 7 1) = zero_regs.
Proof.
  assert (Hs : input1 (mkInput 7 1) <> 0) by (cbn; lia).
  split; [reflexivity|]. split; [exact Hs|].
  destruct (leaf7_rule xen_cpufeatureset sample_amd_cpuid sample_hvm_info
              (mkInput 7 1) (sample_amd_cpuid 7 1) eq_refl)
    as (_ & _ & _ & H).
  exact (H Hs).
Defined.

Lemma xsave_subleaf0_rule_witness :
  xfeature_mask sample_hvm_info <> 0 /\
  ebx (xc_cpuid_policy xen_cpufeatureset sample_amd_cpuid sample_hvm_info
         (mkInput 0xd 0) (sample_amd_cpuid 0xd 0)) = 576.
Proof.
  assert (Hm : xfeature_mask sample_hvm_info <> 0) by (cbn; lia).
  split; [exact Hm|].
  destruct (xsave_subleaf0_rule xen_cpufeatureset sample_amd_cpuid
              sample_hvm_info (sample_amd_cpuid 0xd 0) Hm) as (_ & H & _).
  exact H.
Defined.

Lemma xsave_subleaves_rule_witness :
  xfeature_mask sample_hvm_info <> 0 /\ 2 <= 5 <= 63 /\
  Z.testbit (xfeature_mask sample_hvm_info) 5 = false /\
  xc_cpuid_policy xen_cpufeatureset sample_amd_cpuid sample_hvm_info
    (mkInput 0xd 5) (sample_amd_cpuid 0xd 5) = zero_regs /\
  Z.testbit (xfeature_mask sample_hvm_info) 2 = true /\
  xc_cpuid_policy xen_cpufeatureset sample_amd_cpuid sample_hvm_info
    (mkInput 0xd 2) (mkRegs 0x100 0x240 0x3 0x9) = mkRegs 0x100 0x240 0 0 /\
  xc_cpuid_policy xen_cpufeatureset sample_amd_cpuid sample_hvm_info
    (mkInput 0xd 1) (mkRegs 0xFFFFFFFF 0x240 0xFFFFFFFF 0x9)
    = mkRegs 0xf 0x240 0x7 0 /\
  xfeature_mask sample_pv_xsave_info <> 0 /\
  xc_cpuid_policy xen_cpufeatureset sample_amd_cpuid sample_pv_xsave_info
    (mkInput 0xd 1) (mkRegs 0xFFFFFFFF 0x240 0xFFFFFFFF 0x9)
    = mkRegs 0x7 0x240 0x3 0.
Proof.
  assert (Hm : xfeature_mask sample_hvm_info <> 0) by (cbn; lia).
  assert (Hp : xfeature_mask sample_pv_xsave_info <> 0) by (cbn; lia).
  assert (Hr : 2 <= 5 <= 63) by lia.
  assert (Hr2 : 2 <= 2 <= 63) by lia.
  split; [exact Hm|]. split; [exact Hr|]. split; [reflexivity|].
  split.
  { destruct (xsave_subleaves_rule xen_cpufeatureset sample_amd_cpuid
                sample_hvm_info 5 (sample_amd_cpuid 0xd 5) Hm) as (H & _).
    exact (H Hr eq_refl). }
  split; [reflexivity|]. split.
  { destruct (xsave_subleaves_rule xen_cpufeatureset sample_amd_cpuid
                sample_hvm_info 2 (mkRegs 0x100 0x240 0x3 0x9) Hm)
      as (_ & H & _).
    exact (H Hr2 eq_refl). }
  split.
  { destruct (xsave_subleaves_rule xen_cpufeatureset sample_amd_cpuid
                sample_hvm_info 1 (mkRegs 0xFFFFFFFF 0x240 0xFFFFFFFF 0x9)
                Hm) as (_ & _ & H).
    exact (proj1 (H eq_refl)). }
  split; [exact Hp|].
  destruct (xsave_subleaves_rule xen_cpufeatureset sample_amd_cpuid
              sample_pv_xsave_info 1
              (mkRegs 0xFFFFFFFF 0x240 0xFFFFFFFF 0x9) Hp) as (_ & _ & H).
  exact (proj1 (H eq_refl)).
Defined.

Lemma no_xstate_hides_xsave_features_witness :
  (forall f, xen_cpufeatureset f = xen_cpufeatureset f) /\
  xfeature_mask sample_pv_info = 0 /\
  Z.testbit
    (ecx (xc_cpuid_policy xen_cpufeatureset sample_amd_cpuid sample_pv_info
            (mkInput 1 XEN_CPUID_INPUT_UNUSED)
            (mkRegs 0 0 0xFFFFFFFF 0))) 26 = false.
Proof.
  split; [reflexivity|]. split; [reflexivity|].
  exact (proj1 (no_xstate_hides_xsave_features xen_cpufeatureset
                  sample_amd_cpuid sample_pv_info XEN_CPUID_INPUT_UNUSED
                  (mkRegs 0 0 0xFFFFFFFF 0) (fun f => eq_refl) eq_refl)).
Defined.

Lemma hvm_apic_id_fields_witness :
  hvm sample_hvm_info = true /\ 0 <= 17 /\
  Z.testbit
    (ebx (xc_cpuid_policy xen_cpufeatureset sample_amd_cpuid sample_hvm_info
            (mkInput 1 XEN_CPUID_INPUT_UNUSED)
            (mkRegs 0 0x00010000 0 0))) 17 = true.
Proof.
  assert (Hn : 0 <= 17) by lia.
  split; [reflexivity|]. split; [exact Hn|].
  exact (proj1 (hvm_apic_id_fields xen_cpufeatureset sample_amd_cpuid
                  sample_hvm_info XEN_CPUID_INPUT_UNUSED
                  (mkRegs 0 0x00010000 0 0) 17 eq_refl Hn)).
Defined.

(** ** The traversal *)

Lemma completed_traversal_programs_nonzero_answers_witness :
  exists t h',
    get_cpuid_domain_info sample_amd_cpuid 9 malloc_always sample_xch 1
      empty_info None 0 empty_heap
      = Returns (0, sample_hvm_info, mkHeap 1 1) /\
    xc_cpuid_apply_policy xen_cpufeatureset sample_amd_cpuid 9 malloc_always
      128 sample_xch 1 None 0 empty_heap = Returns (t, h') /\
    tr_rc t = 0 /\
    tr_programmed t
      = map (entry_of xen_cpufeatureset sample_amd_cpuid 1 sample_hvm_info)
            (filter (answer_nonzero xen_cpufeatureset sample_amd_cpuid
                       sample_hvm_info) (tr_visited t)).
Proof.
  do 2 eexists.
  split; [vm_compute; reflexivity|].
  split; [vm_compute; reflexivity|].
  split; [reflexivity|].
  eapply (completed_traversal_programs_nonzero_answers xen_cpufeatureset
           sample_amd_cpuid 9 malloc_always 128 sample_xch 1 None 0
           empty_heap sample_hvm_info (mkHeap 1 1));
    [vm_compute; reflexivity | vm_compute; reflexivity | reflexivity].
Defined.


Lemma traversal_stays_within_ceilings_witness :
  0 <= eax (cpuid sample_amd_cpuid (mkInput 0 0)) /\
  (exists t h',
     xc_cpuid_apply_policy xen_cpufeatureset sample_amd_cpuid 9
       malloc_always 128 sample_xch 1 None 0 empty_heap = Returns (t, h') /\
     Forall (reachable_input 0xd 0x8000001c) (tr_visited t)) /\
  0 <= eax (cpuid endless_leaf4_cpuid (mkInput 0 0)) /\
  xc_cpuid_apply_policy xen_cpufeatureset endless_leaf4_cpuid 9
    malloc_always 40 sample_xch 1 None 0 empty_heap = OutOfFuel /\
  List.length
    (xc_cpuid_apply_policy_visits xen_cpufeatureset endless_leaf4_cpuid 9
       malloc_always 40 sample_xch 1 None 0 empty_heap) = 40%nat /\
  Forall (reachable_input 0x4 0)
    (xc_cpuid_apply_policy_visits xen_cpufeatureset endless_leaf4_cpuid 9
       malloc_always 40 sample_xch 1 None 0 empty_heap).
Proof.
  assert (Ha : 0 <= eax (cpuid sample_amd_cpuid (mkInput 0 0)))
    by (vm_compute; discriminate).
  assert (He : 0 <= eax (cpuid endless_leaf4_cpuid (mkInput 0 0)))
    by (vm_compute; discriminate).
  assert (Hout : xc_cpuid_apply_policy xen_cpufeatureset
                   endless_leaf4_cpuid 9 malloc_always 40 sample_xch 1
                   None 0 empty_heap = OutOfFuel)
    by (vm_compute; reflexivity).
  destruct (traversal_stays_within_ceilings xen_cpufeatureset
              sample_amd_cpuid 9 malloc_always sample_xch 1 None 0
              empty_heap Ha) as (_ & Hret & _).
  destruct (traversal_stays_within_ceilings xen_cpufeatureset
              endless_leaf4_cpuid 9 malloc_always sample_xch 1 None 0
              empty_heap He) as (Hall & _ & Hlen).
  split; [exact Ha|]. split.
  { do 2 eexists. split; [vm_compute; reflexivity|].
    refine (proj2 (Hret 128%nat _ _ _)). vm_compute; reflexivity. }
  split; [exact He|]. split; [exact Hout|].
  split; [exact (Hlen 40%nat Hout)|exact (Hall 40%nat)].
Defined.

Lemma apply_policy_releases_context_witness :
  exists t h',
    xc_cpuid_apply_policy xen_cpufeatureset sample_amd_cpuid 9 malloc_always
      128 sample_xch 1 None 0 empty_heap = Returns (t, h') /\
    live h' = live empty_heap.
Proof.
  do 2 eexists.
  split; [vm_compute; reflexivity|].
  eapply (apply_policy_releases_context xen_cpufeatureset sample_amd_cpuid 9
           malloc_always 128 sample_xch 1 None 0 empty_heap).
  vm_compute; reflexivity.
Defined.

Lemma traversal_returns_when_leaf4_ends_witness :
  0 <= eax (cpuid sample_intel_cpuid (mkInput 0 0)) /\
  get_cpuid_domain_info sample_intel_cpuid 9 malloc_always sample_xch 1
    empty_info None 0 empty_heap
    = Returns (0,
               mkInfo VENDOR_INTEL true false 7 (Some (repeat 0 9)) 9
                      false true false,
               mkHeap 1 1) /\
  0 <= 3 < 2 ^ 32 - 1 /\
  Z.land
    (eax (xc_cpuid_policy xen_cpufeatureset sample_intel_cpuid
            (mkInfo VENDOR_INTEL true false 7 (Some (repeat 0 9)) 9
                    false true false)
            (mkInput 4 3) (cpuid sample_intel_cpuid (mkInput 4 3))))
    0x1f = 0 /\
  (Z.to_nat 3 + 128 <= 131)%nat /\
  exists t h',
    xc_cpuid_apply_policy xen_cpufeatureset sample_intel_cpuid 9
      malloc_always 131 sample_xch 1 None 0 empty_heap = Returns (t, h') /\
    Forall (fun i =>
              (input0 i = 4 -> 0 <= input1 i <= 3) /\
              (input0 i = 0xd -> 0 <= input1 i <= 63))
           (tr_visited t).
Proof.
  split; [vm_compute; discriminate|].
  split; [vm_compute; reflexivity|].
  split; [lia|].
  split; [vm_compute; reflexivity|].
  split; [vm_compute; lia|].
  apply (traversal_returns_when_leaf4_ends xen_cpufeatureset
           sample_intel_cpuid 9 malloc_always sample_xch 1 None 0 empty_heap
           (mkInfo VENDOR_INTEL true false 7 (Some (repeat 0 9)) 9
                   false true false)
           (mkHeap 1 1) 3 131);
    [vm_compute; discriminate | vm_compute; reflexivity | lia
     | vm_compute; reflexivity | vm_compute; lia].
Defined.

Lemma traversal_never_leaves_endless_leaf4_witness :
  get_cpuid_domain_info endless_leaf4_cpuid 9 malloc_always sample_xch 1
    empty_info None 0 empty_heap
    = Returns (0,
               mkInfo VENDOR_INTEL true false 7 (Some (repeat 0 9)) 9
                      false true false,
               mkHeap 1 1) /\
  4 <= eax (cpuid endless_leaf4_cpuid (mkInput 0 0)) /\
  (forall done e, set_cpuid sample_xch done e = 0) /\
  (forall sub,
     Z.land
       (eax (xc_cpuid_policy xen_cpufeatureset endless_leaf4_cpuid
               (mkInfo VENDOR_INTEL true false 7 (Some (repeat 0 9)) 9
                       false true false)
               (mkInput 4 sub) (cpuid endless_leaf4_cpuid (mkInput 4 sub))))
       0x1f <> 0) /\
  xc_cpuid_apply_policy xen_cpufeatureset endless_leaf4_cpuid 9
    malloc_always 1000 sample_xch 1 None 0 empty_heap = OutOfFuel.
Proof.
  assert (Hmore : forall sub,
     Z.land
       (eax (xc_cpuid_policy xen_cpufeatureset endless_leaf4_cpuid
               (mkInfo VENDOR_INTEL true false 7 (Some (repeat 0 9)) 9
                       false true false)
               (mkInput 4 sub) (cpuid endless_leaf4_cpuid (mkInput 4 sub))))
       0x1f <> 0).
  { intros sub. vm_compute. discriminate. }
  split; [vm_compute; reflexivity|].
  split; [vm_compute; discriminate|].
  split; [reflexivity|].
  split; [exact Hmore|].
  apply (traversal_never_leaves_endless_leaf4 xen_cpufeatureset
           endless_leaf4_cpuid 9 malloc_always sample_xch 1 None 0 empty_heap
           (mkInfo VENDOR_INTEL true false 7 (Some (repeat 0 9)) 9
                   false true false)
           (mkHeap 1 1) 1000);
    [vm_compute; reflexivity | vm_compute; discriminate | reflexivity
     | exact Hmore].
Defined.

(** ** Numerals and directives *)

Lemma to_str_writes_binary_witness :
  List.length no_strs = 4%nat /\
  slot (fst (xc_cpuid_to_str malloc_always (mkRegs 5 0 0 0) no_strs
               empty_heap)) 0
    = Some (binary_string 5) /\
  slot (fst (xc_cpuid_to_str malloc_never (mkRegs 5 0 0 0) no_strs
               empty_heap)) 0
    = None.
Proof.
  split; [reflexivity|].
  destruct (to_str_writes_binary malloc_always (mkRegs 5 0 0 0) no_strs
              empty_heap eq_refl) as [Ha _].
  destruct (to_str_writes_binary malloc_never (mkRegs 5 0 0 0) no_strs
              empty_heap eq_refl) as [Hn _].
  split; [exact (Ha 0%nat ltac:(lia))|exact (Hn 0%nat ltac:(lia))].
Defined.

Lemma check_explicit_directive_witness :
  (forall q, malloc_always q = true) /\
  dr_rc (xc_cpuid_check sample_amd_cpuid malloc_always
           (mkInput 1 XEN_CPUID_INPUT_UNUSED)
           (explicit_directive (sample_amd_cpuid 1 0)) empty_heap) = 0 /\
  dr_transformed
    (xc_cpuid_check sample_amd_cpuid malloc_always
       (mkInput 1 XEN_CPUID_INPUT_UNUSED)
       (explicit_directive (sample_amd_cpuid 1 0)) empty_heap)
    = explicit_directive (sample_amd_cpuid 1 0) /\
  dr_rc (xc_cpuid_check sample_amd_cpuid malloc_always
           (mkInput 1 XEN_CPUID_INPUT_UNUSED)
           (explicit_directive (mkRegs 0 0 0 0)) empty_heap) = - EPERM.
Proof.
  assert (Hm : forall q, malloc_always q = true) by reflexivity.
  split; [exact Hm|].
  destruct (check_explicit_directive sample_amd_cpuid malloc_always
              (mkInput 1 XEN_CPUID_INPUT_UNUSED) (sample_amd_cpuid 1 0)
              empty_heap Hm) as (Hiff & Hsame & _).
  destruct (check_explicit_directive sample_amd_cpuid malloc_always
              (mkInput 1 XEN_CPUID_INPUT_UNUSED) (mkRegs 0 0 0 0)
              empty_heap Hm) as (_ & _ & Hperm).
  assert (H0 : dr_rc (xc_cpuid_check sample_amd_cpuid malloc_always
                        (mkInput 1 XEN_CPUID_INPUT_UNUSED)
                        (explicit_directive (sample_amd_cpuid 1 0))
                        empty_heap) = 0).
  { apply Hiff. intros k _ j _. reflexivity. }
  split; [exact H0|]. split; [exact (Hsame H0)|].
  apply Hperm. vm_compute. discriminate.
Defined.

Lemma set_explicit_directive_witness :
  exists res,
    regs_u32 (cpuid sample_amd_cpuid (mkInput 1 XEN_CPUID_INPUT_UNUSED)) /\
    regs_u32 (mkRegs 1 2 3 0xF0000000) /\
    xc_cpuid_set xen_cpufeatureset sample_amd_cpuid 9 malloc_always
      sample_xch 1 (mkInput 1 XEN_CPUID_INPUT_UNUSED)
      (explicit_directive (mkRegs 1 2 3 0xF0000000)) empty_heap
      = Returns res /\
    dr_rc res = 0 /\
    dr_programmed res
      = [mkEntry 1 (mkInput 1 XEN_CPUID_INPUT_UNUSED)
                 (mkRegs 1 2 3 0xF0000000)] /\
    dr_transformed res = explicit_directive (mkRegs 1 2 3 0xF0000000).
Proof.
  assert (Hhw : regs_u32 (cpuid sample_amd_cpuid
                            (mkInput 1 XEN_CPUID_INPUT_UNUSED))).
  { unfold regs_u32, u32. cbn. lia. }
  assert (Hv : regs_u32 (mkRegs 1 2 3 0xF0000000)).
  { unfold regs_u32, u32. cbn. lia. }
  eexists. split; [exact Hhw|]. split; [exact Hv|].
  split; [vm_compute; reflexivity|]. split; [reflexivity|].
  apply (set_explicit_directive xen_cpufeatureset sample_amd_cpuid 9
           malloc_always sample_xch 1 (mkInput 1 XEN_CPUID_INPUT_UNUSED)
           (mkRegs 1 2 3 0xF0000000) empty_heap _ Hhw Hv);
    [vm_compute; reflexivity | reflexivity].
Defined.

Lemma set_transformed_is_fixed_point_witness :
  exists res res2,
    xc_cpuid_set xen_cpufeatureset sample_amd_cpuid 9 malloc_always
      sample_xch 1 (mkInput 1 XEN_CPUID_INPUT_UNUSED)
      [dir mixed; None; dir all_x; dir all_s] empty_heap = Returns res /\
    dr_rc res = 0 /\
    xc_cpuid_set xen_cpufeatureset sample_amd_cpuid 9 malloc_always
      sample_xch 1 (mkInput 1 XEN_CPUID_INPUT_UNUSED)
      (dr_transformed res) empty_heap = Returns res2 /\
    dr_rc res2 = 0 /\
    dr_programmed res2 = dr_programmed res /\
    dr_transformed res2 = dr_transformed res.
Proof.
  do 2 eexists.
  split; [vm_compute; reflexivity|]. split; [reflexivity|].
  split; [vm_compute; reflexivity|]. split; [reflexivity|].
  eapply (set_transformed_is_fixed_point xen_cpufeatureset sample_amd_cpuid
            9 malloc_always sample_xch 1 (mkInput 1 XEN_CPUID_INPUT_UNUSED)
            [dir mixed; None; dir all_x; dir all_s] empty_heap empty_heap);
    [vm_compute; reflexivity | reflexivity | vm_compute; reflexivity
     | reflexivity].
Defined.

Lemma check_transformed_is_fixed_point_witness :
  dr_rc (xc_cpuid_check sample_amd_cpuid malloc_always
           (mkInput 1 XEN_CPUID_INPUT_UNUSED)
           [dir all_s; None; dir all_x; None] empty_heap) = 0 /\
  dr_rc (xc_cpuid_check sample_amd_cpuid malloc_always
           (mkInput 1 XEN_CPUID_INPUT_UNUSED)
           (dr_transformed
              (xc_cpuid_check sample_amd_cpuid malloc_always
                 (mkInput 1 XEN_CPUID_INPUT_UNUSED)
                 [dir all_s; None; dir all_x; None] empty_heap))
           empty_heap) <> - EPERM.
Proof.
  assert (H0 : dr_rc (xc_cpuid_check sample_amd_cpuid malloc_always
                        (mkInput 1 XEN_CPUID_INPUT_UNUSED)
                        [dir all_s; None; dir all_x; None] empty_heap) = 0)
    by (vm_compute; reflexivity).
  split; [exact H0|].
  exact (proj1 (check_transformed_is_fixed_point sample_amd_cpuid
                  malloc_always (mkInput 1 XEN_CPUID_INPUT_UNUSED)
                  [dir all_s; None; dir all_x; None] empty_heap empty_heap
                  H0)).
Defined.

Lemma checked_directive_sets_hardware_bits_witness :
  (forall q, malloc_always q = true) /\
  dr_rc (xc_cpuid_check sample_amd_cpuid malloc_always
           (mkInput 1 XEN_CPUID_INPUT_UNUSED)
           [dir all_s; None; dir all_x; None] empty_heap) = 0 /\
  get_cpuid_domain_info sample_amd_cpuid 9 malloc_always sample_xch 1
    empty_info None 0 empty_heap
    = Returns (0, sample_hvm_info, mkHeap 1 1) /\
  exists r res,
    xc_cpuid_set xen_cpufeatureset sample_amd_cpuid 9 malloc_always
      sample_xch 1 (mkInput 1 XEN_CPUID_INPUT_UNUSED)
      [dir all_s; None; dir all_x; None] empty_heap = Returns res /\
    dr_rc res
      = set_cpuid sample_xch []
          (mkEntry 1 (mkInput 1 XEN_CPUID_INPUT_UNUSED) r).
Proof.
  assert (Hm : forall q, malloc_always q = true) by reflexivity.
  assert (H0 : dr_rc (xc_cpuid_check sample_amd_cpuid malloc_always
                        (mkInput 1 XEN_CPUID_INPUT_UNUSED)
                        [dir all_s; None; dir all_x; None] empty_heap) = 0)
    by (vm_compute; reflexivity).
  assert (Hget : get_cpuid_domain_info sample_amd_cpuid 9 malloc_always
                   sample_xch 1 empty_info None 0 empty_heap
                 = Returns (0, sample_hvm_info, mkHeap 1 1))
    by (vm_compute; reflexivity).
  split; [exact Hm|]. split; [exact H0|]. split; [exact Hget|].
  destruct (checked_directive_sets_hardware_bits xen_cpufeatureset
              sample_amd_cpuid 9 malloc_always sample_xch 1
              (mkInput 1 XEN_CPUID_INPUT_UNUSED)
              [dir all_s; None; dir all_x; None] empty_heap empty_heap
              sample_hvm_info (mkHeap 1 1) Hm H0 Hget)
    as (r & res & Hrun & Hrc & _).
  exists r, res. split; [exact Hrun|exact Hrc].
Defined.

Lemma set_rejects_foreign_character_witness :
  exists res,
    (0 < 4)%nat /\
    slot [dir with_digit_two; None; None; None] 0
      = Some (list_ascii_of_string with_digit_two) /\
    (1 < 32)%nat /\
    strchr "10xks" (char_at (list_ascii_of_string with_digit_two) 1)
      = false /\
    xc_cpuid_set xen_cpufeatureset sample_amd_cpuid 9 malloc_always
      sample_xch 1 (mkInput 1 XEN_CPUID_INPUT_UNUSED)
      [dir with_digit_two; None; None; None] empty_heap = Returns res /\
    dr_rc res <> 0 /\ dr_programmed res = [] /\
    dr_transformed res = no_strs.
Proof.
  eexists. split; [lia|]. split; [reflexivity|]. split; [lia|].
  split; [reflexivity|]. split; [vm_compute; reflexivity|].
  destruct (set_rejects_foreign_character xen_cpufeatureset sample_amd_cpuid
              9 malloc_always sample_xch 1 (mkInput 1 XEN_CPUID_INPUT_UNUSED)
              [dir with_digit_two; None; None; None] empty_heap _ 0%nat
              (list_ascii_of_string with_digit_two) 1%nat
              ltac:(lia) eq_refl ltac:(lia) eq_refl
              ltac:(vm_compute; reflexivity))
    as (Hrc & Hp & Ht & _).
  split; [exact Hrc|]. split; [exact Hp|exact Ht].
Defined.

(** ** The resolver and the dependency table *)

Lemma absent_domain_is_esrch_witness :
  (fst (xc_domain_getinfo sample_xch 5) <> 1 \/
   di_domid (snd (xc_domain_getinfo sample_xch 5)) <> 5) /\
  xc_cpuid_apply_policy xen_cpufeatureset sample_amd_cpuid 9 malloc_always
    128 sample_xch 5 None 0 empty_heap
    = Returns (mkTraversal (- ESRCH) [] [], empty_heap).
Proof.
  assert (H : fst (xc_domain_getinfo sample_xch 5) <> 1 \/
              di_domid (snd (xc_domain_getinfo sample_xch 5)) <> 5).
  { left. vm_compute. discriminate. }
  split; [exact H|].
  destruct (absent_domain_is_esrch xen_cpufeatureset sample_amd_cpuid 9
              malloc_always 128 sample_xch 5 None 0 empty_heap
              (mkInput 1 XEN_CPUID_INPUT_UNUSED) no_strs H) as (_ & Hrun & _).
  exact Hrun.
Defined.

Lemma resolved_context_fields_witness :
  get_cpuid_domain_info sample_amd_cpuid 9 malloc_always sample_xch 2
    empty_info (Some [1; 2; 3; 0; 0; 0; 0; 0; 0]) 3 empty_heap
    = Returns (0,
               mkInfo VENDOR_AMD false false 7
                      (Some [1; 2; 3; 0; 0; 0; 0; 0; 0]) 9 true false false,
               mkHeap 1 1) /\
  pv64 (mkInfo VENDOR_AMD false false 7
               (Some [1; 2; 3; 0; 0; 0; 0; 0; 0]) 9 true false false)
    = (snd (xc_domain_get_guest_width sample_xch 2) =? 8).
Proof.
  assert (Hget : get_cpuid_domain_info sample_amd_cpuid 9 malloc_always
                   sample_xch 2 empty_info (Some [1; 2; 3; 0; 0; 0; 0; 0; 0])
                   3 empty_heap
                 = Returns (0,
                            mkInfo VENDOR_AMD false false 7
                                   (Some [1; 2; 3; 0; 0; 0; 0; 0; 0]) 9
                                   true false false,
                            mkHeap 1 1))
    by (vm_compute; reflexivity).
  split; [exact Hget|].
  destruct (resolved_context_fields sample_amd_cpuid 9 malloc_always
              sample_xch 2 (Some [1; 2; 3; 0; 0; 0; 0; 0; 0]) 3 empty_heap
              _ _ Hget) as (_ & _ & _ & _ & _ & Hpv & _).
  exact (proj1 Hpv).
Defined.

Lemma deep_deps_search_finds_the_row_witness :
  deep_deps_sorted sample_deep_deps /\
  (List.length sample_deep_deps < 4)%nat /\
  exists res,
    xc_get_feature_deep_deps 4 sample_deep_deps 7 = Returns res /\
    match res with
    | Some fs => In (7, fs) sample_deep_deps
    | None => forall fs, ~ In (7, fs) sample_deep_deps
    end.
Proof.
  assert (Hs : deep_deps_sorted sample_deep_deps) by (cbn; lia).
  assert (Hf : (List.length sample_deep_deps < 4)%nat) by (cbn; lia).
  split; [exact Hs|]. split; [exact Hf|].
  exact (deep_deps_search_finds_the_row sample_deep_deps 7 4 Hs Hf).
Defined.

(** * Properties of the domain-0 operations *)

Section CreatedomainFacts.

Variables (DOMID_SELF domid_t_modulus : Z).

Local Abbreviation search :=
  (createdomain_search DOMID_SELF domid_t_modulus).

(** ** The identifier search *)

(** How many identifiers lie between the counter and the unused
    identifier [f], going up and around. *)
Lemma createdomain_search_from (m : machine) (f : Z) :
  1 < DOMID_SELF < domid_t_modulus ->
  1 <= f < DOMID_SELF -> find_domain_by_id m f = None ->
  forall (fuel : nat) (domnr : Z) (ds0 : list Z),
    0 <= domnr < DOMID_SELF ->
    (if domnr <? f then f - domnr else DOMID_SELF - 1 - domnr + f)
      <= Z.of_nat fuel ->
    exists dom ds,
      search fuel m domnr (taken_and_put ds0)
        = Returns (dom, dom, taken_and_put (ds0 ++ ds)) /\
      1 <= dom < DOMID_SELF /\ find_domain_by_id m dom = None.
Proof.
  intros HS Hf Hfree.
  induction fuel as [|fuel IH]; intros domnr ds0 Hd Hfuel.
  - destruct (Z.ltb_spec domnr f); lia.
  - cbn [createdomain_search].
    rewrite (Z.mod_small (domnr + 1)) by lia.
    destruct (Z.eqb_spec (domnr + 1) DOMID_SELF) as [Ew|Nw].
    + destruct (find_domain_by_id m 1) as [d|] eqn:E1.
      * destruct (IH 1 (ds0 ++ [d])) as (dom & ds & Hrun & Hr & Hn).
        { lia. }
        { destruct (Z.ltb_spec domnr f); [lia|].
          destruct (Z.ltb_spec 1 f); [lia|].
          assert (f = 1) by lia. subst f. congruence. }
        exists dom, (d :: ds). split; [|split; assumption].
        unfold taken_and_put in *. rewrite flat_map_app in Hrun.
        cbn [flat_map app] in Hrun. rewrite Hrun.
        rewrite <- app_assoc. reflexivity.
      * exists 1, []. rewrite app_nil_r. split; [reflexivity|].
        split; [lia|exact E1].
    + destruct (find_domain_by_id m (domnr + 1)) as [d|] eqn:E1.
      * destruct (IH (domnr + 1) (ds0 ++ [d])) as (dom & ds & Hrun & Hr & Hn).
        { lia. }
        { destruct (Z.ltb_spec domnr f), (Z.ltb_spec (domnr + 1) f);
            try lia.
          assert (f = domnr + 1) by lia. subst f. congruence. }
        exists dom, (d :: ds). split; [|split; assumption].
        unfold taken_and_put in *. rewrite flat_map_app in Hrun.
        cbn [flat_map app] in Hrun. rewrite Hrun.
        rewrite <- app_assoc. reflexivity.
      * exists (domnr + 1), []. rewrite app_nil_r. split; [reflexivity|].
        split; [lia|exact E1].
Qed.

(** X27.  The search for a new domain identifier of [DOM0_CREATEDOMAIN].
    With the counter below [DOMID_SELF] and some identifier from 1 to
    [DOMID_SELF - 1] unused, the search ends within [DOMID_SELF - 1]
    iterations; the identifier it returns is unused, is at least 1 and
    below [DOMID_SELF] (never 0 and never a special value), the counter is
    left at that identifier, and every domain reference taken on the way
    was given back. *)
Theorem createdomain_finds_unused_identifier (m : machine) (domnr f : Z)
    (fuel : nat) :
  1 < DOMID_SELF < domid_t_modulus ->
  0 <= domnr < DOMID_SELF ->
  1 <= f < DOMID_SELF -> find_domain_by_id m f = None ->
  (Z.to_nat (DOMID_SELF - 1) <= fuel)%nat ->
  exists dom ds,
    search fuel m domnr [] = Returns (dom, dom, taken_and_put ds) /\
    1 <= dom < DOMID_SELF /\ find_domain_by_id m dom = None.
Proof.
  intros HS Hd Hf Hfree Hfuel.
  destruct (createdomain_search_from m f HS Hf Hfree fuel domnr [] Hd)
    as (dom & ds & Hrun & Hr & Hn).
  { destruct (Z.ltb_spec domnr f); lia. }
  exists dom, ds. split; [exact Hrun|]. split; assumption.
Qed.

End CreatedomainFacts.

(** ** Hyperthreads per core *)

Lemma physinfo_ht_spec (m : machine) (old_id : Z) :
  smp_num_cpus m <= Z.of_nat (List.length (phys_proc_id m)) ->
  forall (fuel : nat) (ht : Z),
    0 <= ht <= smp_num_cpus m ->
    (Z.to_nat (smp_num_cpus m - ht) < fuel)%nat ->
    (forall i, 0 <= i < ht ->
       nth_error (phys_proc_id m) (Z.to_nat i) = Some old_id) ->
    exists ht',
      physinfo_ht fuel m old_id ht = Returns ht' /\
      ht <= ht' <= smp_num_cpus m /\
      (forall i, 0 <= i < ht' ->
         nth_error (phys_proc_id m) (Z.to_nat i) = Some old_id) /\
      (ht' < smp_num_cpus m ->
       exists id, nth_error (phys_proc_id m) (Z.to_nat ht') = Some id /\
                  id <> old_id).
Proof.
  intros Hlen. induction fuel as [|fuel IH]; intros ht Hht Hfuel Hrun;
    [lia|].
  cbn [physinfo_ht].
  destruct (Z.ltb_spec ht (smp_num_cpus m)) as [Hlt|Hge].
  - destruct (nth_error (phys_proc_id m) (Z.to_nat ht)) as [id|] eqn:Hn.
    2:{ apply nth_error_None in Hn. lia. }
    destruct (Z.eqb_spec id old_id) as [->|Hne].
    + destruct (IH (ht + 1)) as (ht' & Hr & Hb & Hall & Hstop);
        [lia|lia| |].
      * intros i Hi. destruct (Z.eq_dec i ht) as [->|Hd];
          [exact Hn|apply Hrun; lia].
      * exists ht'. split; [exact Hr|]. split; [lia|]. split; assumption.
    + exists ht. split; [reflexivity|]. split; [lia|].
      split; [exact Hrun|]. intros _. exists id. split; assumption.
  - exists ht. split; [reflexivity|]. split; [lia|].
    split; [exact Hrun|]. intros Hc. lia.
Qed.

(** X28.  The hyperthread count of [DOM0_PHYSINFO].  With at least one
    processor and an identifier for each, [ht_per_core] is the length of
    the run of processors at the head of [phys_proc_id] that share the
    identifier of processor 0: it is at least 1, so the division that
    follows is defined, every processor below it has that identifier and
    the one at it, if any, has another; [cores] is the quotient of the
    processor count by it (the remainder is dropped). *)
Theorem physinfo_counts_leading_run (m : machine) (fuel : nat) :
  1 <= smp_num_cpus m <= Z.of_nat (List.length (phys_proc_id m)) ->
  (Z.to_nat (smp_num_cpus m) < fuel)%nat ->
  exists id0 ht,
    nth_error (phys_proc_id m) 0 = Some id0 /\
    physinfo fuel m = Returns (ht, Some (smp_num_cpus m / ht)) /\
    1 <= ht <= smp_num_cpus m /\
    (forall i, 0 <= i < ht ->
       nth_error (phys_proc_id m) (Z.to_nat i) = Some id0) /\
    (ht < smp_num_cpus m ->
     exists id, nth_error (phys_proc_id m) (Z.to_nat ht) = Some id /\
                id <> id0) /\
    1 <= smp_num_cpus m / ht /\
    (smp_num_cpus m / ht) * ht <= smp_num_cpus m.
Proof.
  intros Hn Hfuel. unfold physinfo.
  destruct (nth_error (phys_proc_id m) 0) as [id0|] eqn:H0.
  2:{ apply nth_error_None in H0. lia. }
  destruct fuel as [|fuel]; [lia|].
  (* the first iteration always counts processor 0 *)
  cbn [physinfo_ht]. destruct (Z.ltb_spec 0 (smp_num_cpus m)); [|lia].
  change (Z.to_nat 0) with 0%nat. rewrite H0, Z.eqb_refl.
  destruct (physinfo_ht_spec m id0 ltac:(lia) fuel (0 + 1))
    as (ht & Hr & Hb & Hall & Hstop); [lia|lia| |].
  { intros i Hi. assert (i = 0) by lia. subst i. exact H0. }
  exists id0, ht. split; [reflexivity|]. rewrite Hr.
  destruct (Z.eqb_spec ht 0) as [E|_]; [lia|].
  rewrite Z.quot_div_nonneg by lia.
  split; [reflexivity|]. split; [lia|]. split; [exact Hall|].
  split; [exact Hstop|].
  split.
  - apply Z.div_le_lower_bound; lia.
  - rewrite Z.mul_comm. apply Z.mul_div_le. lia.
Qed.

(** ** The page-type query *)

Lemma store_word_length (l : list Z) (j : nat) (v : Z) :
  List.length (store_word l j v) = List.length l.
Proof.
  revert j. induction l as [|a t IH]; intros [|j]; cbn [store_word List.length];
    try reflexivity.
  now rewrite IH.
Qed.

Lemma nth_store_word (l : list Z) (j i : nat) (v : Z) :
  nth i (store_word l j v) 0 =
  if (Nat.eqb i j && Nat.ltb i (List.length l))%bool then v else nth i l 0.
Proof.
  revert j i. induction l as [|a t IH]; intros j i.
  - cbn [store_word]. destruct (Nat.eqb i j), i; reflexivity.
  - destruct j as [|j], i as [|i]; cbn [store_word nth]; try reflexivity.
    rewrite IH. cbn [Nat.eqb List.length]. reflexivity.
Qed.

Section Gpf2Facts.

Variables (PGT_type_mask PGT_l1_page_table PGT_l2_page_table
           PGT_l3_page_table PGT_l4_page_table : Z).
Variables (L1TAB L2TAB L3TAB L4TAB XTAB : Z).

Local Abbreviation tag :=
  (frame_tag PGT_type_mask PGT_l1_page_table PGT_l2_page_table
     PGT_l3_page_table PGT_l4_page_table L1TAB L2TAB L3TAB L4TAB XTAB).
Local Abbreviation batch :=
  (getpageframeinfo2_batch PGT_type_mask PGT_l1_page_table
     PGT_l2_page_table PGT_l3_page_table PGT_l4_page_table
     L1TAB L2TAB L3TAB L4TAB XTAB).
Local Abbreviation loop :=
  (getpageframeinfo2_loop PGT_type_mask PGT_l1_page_table
     PGT_l2_page_table PGT_l3_page_table PGT_l4_page_table
     L1TAB L2TAB L3TAB L4TAB XTAB).
Local Abbreviation gpf2 :=
  (getpageframeinfo2 PGT_type_mask PGT_l1_page_table
     PGT_l2_page_table PGT_l3_page_table PGT_l4_page_table
     L1TAB L2TAB L3TAB L4TAB XTAB).

(** The inner loop tags the words from [j] on and leaves the others. *)
Lemma batch_spec (m : machine) (d : Z) (n : nat) :
  forall (j : nat) (l_arr : list Z) (tr : list dom0_event),
    (j + n <= List.length l_arr)%nat ->
    List.length (fst (batch m d n j l_arr tr)) = List.length l_arr /\
    forall i,
      nth i (fst (batch m d n j l_arr tr)) 0 =
      if (Nat.leb j i && Nat.ltb i (j + n))%bool
      then Z.lor (nth i l_arr 0) (fst (tag m d (nth i l_arr 0)))
      else nth i l_arr 0.
Proof.
  induction n as [|n IH]; intros j l_arr tr Hlen.
  - cbn [getpageframeinfo2_batch fst]. split; [reflexivity|]. intros i.
    destruct (Nat.leb_spec j i), (Nat.ltb_spec i (j + 0)); cbn [andb];
      try reflexivity; lia.
  - cbn [getpageframeinfo2_batch].
    destruct (tag m d (nth j l_arr 0)) as [t evs] eqn:Et.
    destruct (IH (S j)
                (store_word l_arr j (Z.lor (nth j l_arr 0) t)) (tr ++ evs))
      as [Hl Hw].
    { rewrite store_word_length. lia. }
    rewrite store_word_length in Hl. split; [exact Hl|].
    intros i. rewrite Hw, nth_store_word.
    destruct (Nat.eqb_spec i j) as [->|Hne].
    + destruct (Nat.leb_spec (S j) j); [lia|].
      destruct (Nat.leb_spec j j); [|lia].
      destruct (Nat.ltb_spec j (j + S n)); [|lia].
      destruct (Nat.ltb_spec j (List.length l_arr)); [|lia].
      cbn [andb]. rewrite Et. reflexivity.
    + cbn [andb].
      destruct (Nat.leb_spec (S j) i), (Nat.leb_spec j i); try lia;
        cbn [andb]; try reflexivity.
      destruct (Nat.ltb_spec i (S j + n)), (Nat.ltb_spec i (j + S n));
        try lia; reflexivity.
Qed.

Lemma loop_spec (m : machine) (d num : Z) (s0 : Z -> Z) :
  (forall n k, copy_from_user m n k = false) ->
  (forall n k, copy_to_user m n k = false) ->
  forall (fuel : nat) (n : Z) (s_ptr : Z -> Z) (tr : list dom0_event),
    0 <= n ->
    (Z.to_nat ((num - n + 127) / 128) < fuel)%nat ->
    (forall idx, s_ptr idx =
       if (0 <=? idx) && (idx <? n) && (idx <? num)
       then Z.lor (s0 idx) (fst (tag m d (s0 idx))) else s0 idx) ->
    exists s' tr',
      loop fuel m d num n s_ptr tr = Returns (0, s', tr') /\
      forall idx, s' idx =
        if (0 <=? idx) && (idx <? num)
        then Z.lor (s0 idx) (fst (tag m d (s0 idx))) else s0 idx.
Proof.
  intros Hfrom Hto.
  induction fuel as [|fuel IH]; intros n s_ptr tr Hn Hfuel Hs; [lia|].
  cbn [getpageframeinfo2_loop].
  destruct (Z.ltb_spec n num) as [Hlt|Hge].
  - rewrite Hfrom.
    set (k := if num - n >? GPF2_BATCH then GPF2_BATCH else num - n).
    assert (Hk : 1 <= k <= 128 /\ n + k <= num /\
                 (k = 128 \/ n + k = num)).
    { unfold k, GPF2_BATCH. destruct (Z.gtb_spec (num - n) 128); lia. }
    set (l0 := map (fun i : nat => s_ptr (n + Z.of_nat i))
                   (seq 0 (Z.to_nat k))).
    assert (Hl0 : List.length l0 = Z.to_nat k).
    { unfold l0. now rewrite length_map, length_seq. }
    destruct (batch_spec m d (Z.to_nat k) 0 l0 tr ltac:(lia)) as [Hbl Hbw].
    destruct (batch m d (Z.to_nat k) 0 l0 tr) as [l1 tr1].
    cbn [fst] in Hbl, Hbw. rewrite Hto.
    apply IH; [lia| |].
    + assert ((num - (n + k) + 127) / 128 < (num - n + 127) / 128).
      { destruct Hk as (Hk1 & Hk2 & [Hk3|Hk3]).
        - rewrite Hk3.
          replace (num - n + 127) with (num - (n + 128) + 127 + 1 * 128)
            by lia.
          rewrite Z.div_add by lia. lia.
        - replace (num - (n + k) + 127) with 127 by lia.
          change (127 / 128) with 0.
          apply Z.div_str_pos. lia. }
      assert (0 <= (num - (n + k) + 127) / 128).
      { apply Z.div_pos; lia. }
      lia.
    + intros idx.
      destruct (Z.leb_spec n idx), (Z.ltb_spec idx (n + k)); cbn [andb].
      * rewrite Hbw. cbn [Nat.leb andb].
        destruct (Nat.ltb_spec (Z.to_nat (idx - n)) (0 + Z.to_nat k));
          [|lia].
        unfold l0.
        rewrite (nth_indep _ 0 (s_ptr (n + Z.of_nat 0)))
          by (rewrite length_map, length_seq; lia).
        rewrite (map_nth (fun i : nat => s_ptr (n + Z.of_nat i))).
        rewrite seq_nth by lia.
        replace (n + Z.of_nat (0 + Z.to_nat (idx - n))) with idx by lia.
        rewrite Hs.
        destruct (Z.leb_spec 0 idx), (Z.ltb_spec idx n),
          (Z.ltb_spec idx num); cbn [andb]; try lia; reflexivity.
      * rewrite Hs.
        destruct (Z.leb_spec 0 idx), (Z.ltb_spec idx n),
          (Z.ltb_spec idx num); cbn [andb]; try lia; reflexivity.
      * rewrite Hs.
        destruct (Z.leb_spec 0 idx), (Z.ltb_spec idx n),
          (Z.ltb_spec idx num); cbn [andb]; try lia; reflexivity.
      * lia.
  - exists s_ptr, tr. split; [reflexivity|]. intros idx. rewrite Hs.
    destruct (Z.leb_spec 0 idx), (Z.ltb_spec idx n), (Z.ltb_spec idx num);
      cbn [andb]; try lia; reflexivity.
Qed.

(** X29.  [DOM0_GETPAGEFRAMEINFO2] processes its array in batches of 128,
    and the batches do not show in the result: for a domain that exists, a
    count of at most 1024 and copies that succeed, nine iterations of the
    outer loop are enough, the operation returns 0, every word of the
    first [num] has had its tag or-ed in (the page-table type of the frame,
    or [XTAB] for a frame beyond [max_page] or one the domain cannot get),
    and every other word of the array is as it was. *)
Theorem getpageframeinfo2_tags_each_word (m : machine) (dom d num : Z)
    (s_ptr : Z -> Z) (fuel : nat) :
  find_domain_by_id m dom = Some d ->
  num <= 1024 ->
  (forall n k, copy_from_user m n k = false) ->
  (forall n k, copy_to_user m n k = false) ->
  (9 <= fuel)%nat ->
  exists s' tr,
    gpf2 fuel m dom num s_ptr = Returns (0, s', tr) /\
    forall idx, s' idx =
      if (0 <=? idx) && (idx <? num)
      then Z.lor (s_ptr idx) (fst (tag m d (s_ptr idx))) else s_ptr idx.
Proof.
  intros Hd Hnum Hfrom Hto Hfuel. unfold getpageframeinfo2. rewrite Hd.
  destruct (Z.gtb_spec num 1024); [lia|].
  destruct (loop_spec m d num s_ptr Hfrom Hto fuel 0 s_ptr [Get_domain d])
    as (s' & tr' & Hrun & Hs'); [lia| |intros idx|].
  - assert ((num - 0 + 127) / 128 < 9).
    { apply Z.div_lt_upper_bound; lia. }
    destruct (Z_lt_ge_dec ((num - 0 + 127) / 128) 0); lia.
  - destruct (Z.leb_spec 0 idx), (Z.ltb_spec idx 0); cbn [andb];
      try lia; reflexivity.
  - rewrite Hrun. exists s', (tr' ++ [Put_domain d]).
    split; [reflexivity|exact Hs'].
Qed.

Lemma batch_trace_extends (m : machine) (d : Z) (n : nat) :
  forall (j : nat) (l_arr : list Z) (tr : list dom0_event),
    exists more, snd (batch m d n j l_arr tr) = tr ++ more.
Proof.
  induction n as [|n IH]; intros j l_arr tr.
  - exists []. cbn [getpageframeinfo2_batch snd]. now rewrite app_nil_r.
  - cbn [getpageframeinfo2_batch].
    destruct (tag m d (nth j l_arr 0)) as [t evs].
    destruct (IH (S j) (store_word l_arr j (Z.lor (nth j l_arr 0) t))
                (tr ++ evs)) as [more Hm].
    exists (evs ++ more). rewrite Hm, app_assoc. reflexivity.
Qed.

Lemma loop_trace_extends (m : machine) (d num : Z) (fuel : nat) :
  forall (n : Z) (s_ptr : Z -> Z) (tr0 : list dom0_event) (ret : Z)
         (s' : Z -> Z) (tr : list dom0_event),
    loop fuel m d num n s_ptr tr0 = Returns (ret, s', tr) ->
    exists more, tr = tr0 ++ more.
Proof.
  induction fuel as [|fuel IH]; intros n s_ptr tr0 ret s' tr H;
    [discriminate|].
  cbn [getpageframeinfo2_loop] in H.
  destruct (n <? num).
  - set (k := if num - n >? GPF2_BATCH then GPF2_BATCH else num - n) in H.
    destruct (copy_from_user m n k).
    + injection H as _ _ <-. exists []. now rewrite app_nil_r.
    + set (l0 := map (fun i : nat => s_ptr (n + Z.of_nat i))
                     (seq 0 (Z.to_nat k))) in H.
      destruct (batch_trace_extends m d (Z.to_nat k) 0 l0 tr0)
        as [more1 Hb].
      destruct (batch m d (Z.to_nat k) 0 l0 tr0) as [l1 tr1].
      cbn [snd] in Hb. subst tr1.
      destruct (copy_to_user m n k).
      * injection H as _ _ <-. exists more1. reflexivity.
      * apply IH in H. destruct H as [more2 ->].
        exists (more1 ++ more2). now rewrite app_assoc.
  - injection H as _ _ <-. exists []. now rewrite app_nil_r.
Qed.

(** X30.  The reference [DOM0_GETPAGEFRAMEINFO2] takes on the domain.
    The operation returns -ESRCH without a reference when the domain does
    not exist.  With a count above 1024 it returns -E2BIG with the array
    untouched, and the reference taken by [find_domain_by_id] is the only
    event: it is not given back.  On every other path by which it returns,
    giving the reference back is the last thing it does. *)
Theorem getpageframeinfo2_domain_reference (m : machine) (dom num : Z)
    (s_ptr : Z -> Z) (fuel : nat) :
  (find_domain_by_id m dom = None ->
   gpf2 fuel m dom num s_ptr = Returns (- ESRCH, s_ptr, [])) /\
  (forall d, find_domain_by_id m dom = Some d ->
     (1024 < num ->
      gpf2 fuel m dom num s_ptr = Returns (- E2BIG, s_ptr, [Get_domain d]))
     /\
     (num <= 1024 ->
      forall ret s' tr,
        gpf2 fuel m dom num s_ptr = Returns (ret, s', tr) ->
        exists mid, tr = Get_domain d :: mid ++ [Put_domain d])).
Proof.
  unfold getpageframeinfo2. split.
  - intros ->. reflexivity.
  - intros d ->. split.
    + intros Hbig. destruct (Z.gtb_spec num 1024); [reflexivity|lia].
    + intros Hnum ret s' tr. destruct (Z.gtb_spec num 1024); [lia|].
      destruct (loop fuel m d num 0 s_ptr [Get_domain d])
        as [[[ret0 s0] tr0]| |] eqn:E; try discriminate.
      intros Hr. injection Hr as _ _ <-.
      apply loop_trace_extends in E. destruct E as [more ->].
      exists more. reflexivity.
Qed.

End Gpf2Facts.

(** ** The domain-0 operations on the sample machine *)

Lemma createdomain_finds_unused_identifier_witness :
  1 < 8 < 2 ^ 32 /\ 0 <= 0 < 8 /\ 1 <= 4 < 8 /\
  find_domain_by_id sample_machine 4 = None /\
  (Z.to_nat (8 - 1) <= 7)%nat /\
  exists dom ds,
    createdomain_search 8 (2 ^ 32) 7 sample_machine 0 []
      = Returns (dom, dom, taken_and_put ds) /\
    1 <= dom < 8 /\ find_domain_by_id sample_machine dom = None.
Proof.
  assert (H1 : 1 < 8 < 2 ^ 32) by lia.
  assert (H2 : 0 <= 0 < 8) by lia.
  assert (H3 : 1 <= 4 < 8) by lia.
  assert (H4 : (Z.to_nat (8 - 1) <= 7)%nat) by (cbn; lia).
  split; [exact H1|]. split; [exact H2|]. split; [exact H3|].
  split; [reflexivity|]. split; [exact H4|].
  exact (createdomain_finds_unused_identifier 8 (2 ^ 32) sample_machine 0 4
           7 H1 H2 H3 eq_refl H4).
Defined.

Lemma physinfo_counts_leading_run_witness :
  1 <= smp_num_cpus sample_machine
    <= Z.of_nat (List.length (phys_proc_id sample_machine)) /\
  (Z.to_nat (smp_num_cpus sample_machine) < 5)%nat /\
  physinfo 5 sample_machine = Returns (2, Some 2) /\
  exists id0 ht,
    nth_error (phys_proc_id sample_machine) 0 = Some id0 /\
    physinfo 5 sample_machine
      = Returns (ht, Some (smp_num_cpus sample_machine / ht)) /\
    1 <= ht <= smp_num_cpus sample_machine.
Proof.
  assert (H1 : 1 <= smp_num_cpus sample_machine
               <= Z.of_nat (List.length (phys_proc_id sample_machine)))
    by (cbn; lia).
  assert (H2 : (Z.to_nat (smp_num_cpus sample_machine) < 5)%nat)
    by (cbn; lia).
  split; [exact H1|]. split; [exact H2|]. split; [reflexivity|].
  destruct (physinfo_counts_leading_run sample_machine 5 H1 H2)
    as (id0 & ht & Ha & Hb & Hc & _).
  exists id0, ht. split; [exact Ha|]. split; [exact Hb|exact Hc].
Defined.

Lemma getpageframeinfo2_tags_each_word_witness :
  find_domain_by_id sample_machine 1 = Some 1 /\ 3 <= 1024 /\
  (forall n k, copy_from_user sample_machine n k = false) /\
  (forall n k, copy_to_user sample_machine n k = false) /\
  (9 <= 9)%nat /\
  exists s' tr,
    getpageframeinfo2 0xe0000000 0x20000000 0x40000000 0x60000000
      0x80000000 0x10000000 0x20000000 0x30000000 0x40000000 0xf0000000
      9 sample_machine 1 3 (fun idx => idx + 4) = Returns (0, s', tr) /\
    s' 1 = Z.lor 5 0x20000000 /\ s' 3 = 7.
Proof.
  assert (Hf : forall n k, copy_from_user sample_machine n k = false)
    by reflexivity.
  assert (Ht : forall n k, copy_to_user sample_machine n k = false)
    by reflexivity.
  assert (Hn : 3 <= 1024) by lia.
  assert (H9 : (9 <= 9)%nat) by lia.
  split; [reflexivity|]. split; [exact Hn|]. split; [exact Hf|].
  split; [exact Ht|]. split; [exact H9|].
  destruct (getpageframeinfo2_tags_each_word 0xe0000000 0x20000000
              0x40000000 0x60000000 0x80000000 0x10000000 0x20000000
              0x30000000 0x40000000 0xf0000000 sample_machine 1 1 3
              (fun idx => idx + 4) 9 eq_refl Hn Hf Ht H9)
    as (s' & tr & Hrun & Hs).
  exists s', tr. split; [exact Hrun|].
  split; [rewrite (Hs 1)|rewrite (Hs 3)]; reflexivity.
Defined.

Lemma getpageframeinfo2_domain_reference_witness :
  find_domain_by_id sample_machine 1 = Some 1 /\ 1024 < 2000 /\
  getpageframeinfo2 0xe0000000 0x20000000 0x40000000 0x60000000
    0x80000000 0x10000000 0x20000000 0x30000000 0x40000000 0xf0000000
    9 sample_machine 1 2000 (fun idx => idx + 4)
  = Returns (- E2BIG, (fun idx => idx + 4), [Get_domain 1]).
Proof.
  assert (Hb : 1024 < 2000) by lia.
  split; [reflexivity|]. split; [exact Hb|].
  destruct (getpageframeinfo2_domain_reference 0xe0000000 0x20000000
              0x40000000 0x60000000 0x80000000 0x10000000 0x20000000
              0x30000000 0x40000000 0xf0000000 sample_machine 1 2000
              (fun idx => idx + 4) 9) as [_ H].
  exact (proj1 (H 1 eq_refl) Hb).
Defined.
